(* ===== verification/_CoqProject ===== *)
-Q . S2P
Prelude.v
PyStr.v
Analysis.v
LineScan.v
Recommendation.v
PyRegex.v
Fallback.v
Parser.v
Extractor.v
LLMClient.v
Concurrency.v
SecureFilename.v
WebApp.v
Server.v
Uploads.v
