(* ===== verification/Prelude.v ===== *)
(** * Main-Forge: a verification development of the tender-analysis service

    The program (src/app/main.py) is a Flask service that reads an uploaded
    document, sends its text to an LLM completion service and parses the
    free-text reply into five fields.  [index] (main.py 192-267) resolves
    the API key, saves the upload, calls [extract_text_from_file]
    (169-190), passes a usable text to [get_llm_analysis] (28-74) and a
    usable answer to [parse_llm_response] (76-167).

    ** Files, leaves first
    - [Prelude] (this file): [outcome] (a Python call returns or raises),
      the state-and-exception monad [pyst] with [pyret], [pybind] (notation
      [let!] in [py_scope]), [pytry] for [try/except Exception as e],
      [pyget], [pyput] and [pyfrom]; [first_some], a [for] loop that stops
      at its first hit; the Ltac tactics and the hint databases [pymodel]
      and [pyrw].
    - [PyStr]: the [str] methods the code calls ([strip], [splitlines],
      [startswith], [in], [upper], [lower], [split], [replace], the
      "\n".join of the buffer) on Latin-1 strings, with their lemmas.
    - [Analysis]: the dict [parsed_data] as the record [analysis] with
      [get_field]/[set_field] per [field_key], and the heading table
      [sections] (lines 91-97).
    - [LineScan], Module [Scan]: Step 1, the for-line loop of lines 99-121.
      Its three variables are the record [scan_state]; [scan_line] is the
      loop body and [scan_lines] the loop with its final flush.  The same
      body is the step relation [scan_step], with [reachable] states.
    - [Recommendation], Module [Rec]: Step 2 (lines 123-137) and the
      fallback's keyword tests (lines 153-159).
    - [PyRegex], Module [Re]: [re.search] with [DOTALL | IGNORECASE] on
      the patterns the fallback builds, a literal then a lazy or greedy
      group.  [match_here] backtracks as the re engine does.
    - [Fallback], Module [Fallback]: Step 3, the five searches of lines
      142-165 in the code's order.
    - [Parser]: [parse_llm_response], its Step 0 guard, and a printer
      [render_reply] of replies in the prompt's template.
    - [Extractor], Module [Extract]: [extract_text_from_file].  The disk is
      a gmap from paths to what each reader sees (the decoded text, the
      PDF pages, the docx paragraphs, or the exception each raises);
      [splitext] is CPython's [os.path.splitext].
    - [LLMClient], Module [Client]: [get_llm_analysis] in the [pyst]
      monad.  Its state is the [openai] module's [api_key] and the log of
      requests sent.  The completion service is the class [ChatService], and
      the client's theorems hold for every instance.
    - [Concurrency], Module [Threads]: requests inside [get_llm_analysis]
      as threads sharing the client state.  Each thread has two atomic
      steps, line 33 and lines 63-74.  [sys_step] is the step relation of
      the system and [run] runs a schedule of threads.
    - [SecureFilename], Module [Secure]: werkzeug's [secure_filename] and
      [posixpath.join], library code that [index] calls, written out from
      the library sources.
    - [WebApp], Module [Web]: [index] in the [pyst] monad.  Its state is the
      files, whether the upload folder exists, and the client's state.  It
      returns the arguments of [render_template] as the record [page].
      The inductive [page_ok] lists the kinds of page it renders.
    - [Server], Module [Server]: the set-up of lines 15-23 ([APP_ROOT],
      [DEFAULT_UPLOAD_FOLDER], [config.setdefault]) and the main block of
      lines 268-273.  [serve] is [app.run] answering a sequence of requests
      one after the other with [Web.index].
    - [Uploads], Module [Uploads]: requests in their upload branch as
      threads over the shared upload folder.  Their two atomic steps are
      [file.save] (line 236) and [extract_text_from_file] (line 238).

    ** Theorems (claim ids C1-C33)
    - Parser: the round trip of a reply in the template's shape (C1), the
      Step 0 error path (C2), partial replies (C20), the fallback's
      recommendation, kept whatever its length when it holds no keyword
      (C23), and the stripped fields (C33).
    - Line scanner: the loop refines its segment specification (C3), and
      an invariant holds on every reachable state of the step relation
      (C21).
    - Normaliser: the range of values (C4), the NO-GO priority (C5) and
      the substring GO test (C22).
    - Regex: the backtracking search equals a find-based search (C6).
    - Client: the result on every branch (C9), and the missing key with
      no request and no state change (C10).
    - Concurrency: interleaved requests swap keys (C11); every request
      carries one of the running requests' keys (C12); n requests send at
      most n calls (C17).
    - Extractor: .txt with universal newlines (C18), .pdf (C19), .docx
      (C31) and missing files (C32).
    - View: the end-to-end pipeline (C7), at most one LLM request with the
      chosen key (C8), the kinds of page (C13), and the upload path
      kept in its folder (C24).  Also GET (C25), service errors (C26),
      texts not sent (C27), the saved file (C28), a missing key (C29) and
      save errors with their errno (C30).
    - Uploads: distinct names never interfere (C14); the same name makes
      one request analyse another's document (C15).
    - Server: after the main block no page reports a missing folder
      (C16).
    Further lemmas are proved beside them: a request run alone computes
    [get_llm_analysis] (the thread split is faithful), the prompt's
    injectivity and its headings, idempotence of the normaliser and of
    [secure_filename], [splitext]'s round trip, the last heading winning,
    and replies without headings.  Examples replay the repository's tests
    and show the behaviours listed as findings.

    ** Fuel and bounds
    No definition takes fuel.  Every loop of the code is structural
    recursion on the list of lines, the string, the list of pages and
    paragraphs, or the list of requests of [serve].  The regex search
    recurses on the pattern and the suffixes of the text, so it is total
    by construction.  The schedules of Concurrency.v and Uploads.v are
    finite lists of thread indices, run by structural recursion.
    Python's integers are unbounded and only count words and indices, so
    they are [nat].

    ** Assumptions on the environment
    - The service call is one atomic step that returns or raises: a
      [ChatService] instance is a function.
    - [file.save] follows Linux's [open(path, "wb")]: an empty secured
      name gives EISDIR because the folder's parent exists (for the
      default folder it is [APP_ROOT], the directory of main.py), and a
      missing folder with a non-empty name gives ENOENT.
    - [os.makedirs] does not fail.

    ** Not modelled
    - Logging, Flask routing and the HTML template: the view returns the
      template's arguments.
    - The byte decoding of files and the PDF and docx parsers: the store
      holds what they return or raise.
    - The network behind [openai.ChatCompletion.create]: it is an
      instance of [ChatService].
    - Interleavings inside [index] other than those of [get_llm_analysis]
      and of the upload branch: the rest of the view works on
      request-local data.
    - The logging configuration (lines 11-13), and failures of
      [os.makedirs] and [app.run].
    - Timeouts and threads that never return: the service call is atomic,
      so the thread models say nothing about termination.
    - Characters outside Latin-1. *)

From Stdlib Require Import String List Bool Arith Lia.
Import ListNotations.

Declare Scope py_scope.
Delimit Scope py_scope with py.

Create HintDb pymodel discriminated.
Create Rewrite HintDb pyrw.

(** ** Calls that may raise *)

(** A Python call either returns a value or raises an exception; the
    code under study only ever uses [str(e)], so an exception is its
    message. *)
Inductive outcome (A : Type) : Type :=
| Ok (a : A)
| Raise (msg : string).
Arguments Ok {A} a.
Arguments Raise {A} msg.

(** Code that threads a state [S] (a module global, the upload folder)
    and may raise.  A raise does not roll back the state changes made
    before it, as in Python. *)
Definition pyst (S A : Type) : Type := S -> outcome A * S.

Definition pyret {S A} (a : A) : pyst S A := fun s => (Ok a, s).
Definition pyraise {S A} (msg : string) : pyst S A := fun s => (Raise msg, s).
Definition pybind {S A B} (m : pyst S A) (k : A -> pyst S B) : pyst S B :=
  fun s => match m s with
           | (Ok a, s') => k a s'
           | (Raise e, s') => (Raise e, s')
           end.
(** [try: m except Exception as e: h(str(e))] *)
Definition pytry {S A} (m : pyst S A) (h : string -> pyst S A) : pyst S A :=
  fun s => match m s with
           | (Ok a, s') => (Ok a, s')
           | (Raise e, s') => h e s'
           end.
Definition pyget {S} : pyst S S := fun s => (Ok s, s).
Definition pyput {S} (s : S) : pyst S unit := fun _ => (Ok tt, s).
(** A value or an exception, as a step of the monad. *)
Definition pyfrom {S A} (o : outcome A) : pyst S A := fun s => (o, s).

Notation "'let!' x ':=' m 'in' k" := (pybind m (fun x => k))
  (at level 100, x name, m at level 99, k at level 200) : py_scope.

(** ** Loops that stop at the first hit *)

(** [for x in l: if f(x) is not None: return f(x)] *)
Fixpoint first_some {A B} (f : A -> option B) (l : list A) : option B :=
  match l with
  | [] => None
  | x :: l' => match f x with
               | Some b => Some b
               | None => first_some f l'
               end
  end.

Section FirstSome.
Context {A B : Type} (f : A -> option B).

Lemma first_some_app (l1 l2 : list A) :
  first_some f (l1 ++ l2) =
  match first_some f l1 with Some b => Some b | None => first_some f l2 end.
Proof.
  induction l1 as [|x l1 IH]; simpl; [reflexivity|].
  destruct (f x); [reflexivity | exact IH].
Qed.

Lemma first_some_None (l : list A) :
  first_some f l = None <-> Forall (fun x => f x = None) l.
Proof.
  induction l as [|x l IH]; simpl; [split; auto|].
  destruct (f x) eqn:E; split; intro H.
  - discriminate.
  - inversion H; congruence.
  - constructor; [exact E | apply IH, H].
  - apply IH. inversion H; assumption.
Qed.

Lemma first_some_Some (l : list A) (b : B) :
  first_some f l = Some b <->
  exists l1 x l2, l = l1 ++ x :: l2 /\ Forall (fun y => f y = None) l1 /\ f x = Some b.
Proof.
  induction l as [|x l IH]; simpl.
  - split; [discriminate|]. intros (l1 & y & l2 & Hl & _). destruct l1; discriminate.
  - destruct (f x) eqn:E; split.
    + intros [= <-]. exists [], x, l. auto.
    + intros ([|z l1] & y & l2 & Hl & HF & Hy); simpl in Hl; injection Hl as -> ->.
      * congruence.
      * inversion HF; congruence.
    + intros H. apply IH in H as (l1 & y & l2 & -> & HF & Hy).
      exists (x :: l1), y, l2. auto.
    + intros ([|z l1] & y & l2 & Hl & HF & Hy); simpl in Hl; injection Hl as -> ->.
      * congruence.
      * apply IH. inversion HF; subst. exists l1, y, l2. auto.
Qed.

Lemma first_some_map {C} (g : C -> A) (l : list C) :
  first_some f (map g l) = first_some (fun c => f (g c)) l.
Proof. induction l as [|c l IH]; simpl; [reflexivity|]. rewrite IH. reflexivity. Qed.
End FirstSome.

Lemma first_some_ext {A B} (f g : A -> option B) (l : list A) :
  (forall x, In x l -> f x = g x) -> first_some f l = first_some g l.
Proof.
  induction l as [|x l IH]; intros H; simpl; [reflexivity|].
  rewrite (H x (or_introl eq_refl)), IH; [reflexivity|].
  intros y Hy. apply H. right. exact Hy.
Qed.

#[export] Hint Rewrite @first_some_app @first_some_map : pyrw.

(** ** Tactics *)

(** Case on every boolean [if] of the goal, keeping the equation. *)
Ltac case_ifs :=
  repeat match goal with
  | |- context [if ?b then _ else _] =>
      lazymatch b with
      | context [if _ then _ else _] => fail
      | _ => let E := fresh "E" in destruct b eqn:E
      end
  end.

(** Invert a hypothesis and clean up. *)
Ltac inv H := inversion H; subst; clear H.

(** Turn the boolean facts of the context into propositions. *)
Ltac bool_props :=
  repeat match goal with
  | H : (_ && _)%bool = true |- _ => apply andb_true_iff in H as [? ?]
  | H : (_ || _)%bool = false |- _ => apply orb_false_iff in H as [? ?]
  | H : negb _ = true |- _ => apply negb_true_iff in H
  | H : negb _ = false |- _ => apply negb_false_iff in H
  | H : (_ =? _)%string = true |- _ => apply String.eqb_eq in H
  | H : (_ =? _)%string = false |- _ => apply String.eqb_neq in H
  end.
