(* ===== verification/PyStr.v ===== *)
(** * Python [str] built-ins used by main.py

    Strings are Rocq [string]s whose characters are read as the code
    points U+0000..U+00FF (Latin-1).  On that alphabet the definitions
    below follow CPython: [is_space] is [str.isspace], [is_line_break] the
    boundaries of [str.splitlines], [strip] is [str.strip()], [split_ws] is
    [str.split()], [startswith], [contains] ([sub in s]), [py_replace]
    ([str.replace]) and [String.concat] ([sep.join]).  [upper] and [lower]
    map the ASCII letters only; this is exact for every use main.py makes
    of them (see the header of Parser.v). *)

From Stdlib Require Import String Ascii List Bool Arith Lia.
From S2P Require Import Prelude.
Import ListNotations.
Local Open Scope string_scope.

(** ** Character classes *)

(** [str.isspace] on Latin-1: \t \n \v \f \r, \x1c-\x1f, space, \x85, \xa0. *)
Definition is_space (c : ascii) : bool :=
  let n := nat_of_ascii c in
  (((9 <=? n) && (n <=? 13)) || ((28 <=? n) && (n <=? 32)) || (n =? 133) || (n =? 160))%nat.

(** The line boundaries of [str.splitlines] on Latin-1:
    \n \v \f \r, \x1c \x1d \x1e and \x85 (\r\n counts as one). *)
Definition is_line_break (c : ascii) : bool :=
  let n := nat_of_ascii c in
  (((10 <=? n) && (n <=? 13)) || ((28 <=? n) && (n <=? 30)) || (n =? 133))%nat.

Definition char_upper (c : ascii) : ascii :=
  let n := nat_of_ascii c in
  if ((97 <=? n) && (n <=? 122))%nat then ascii_of_nat (n - 32) else c.

Definition char_lower (c : ascii) : ascii :=
  let n := nat_of_ascii c in
  if ((65 <=? n) && (n <=? 90))%nat then ascii_of_nat (n + 32) else c.

(** ** Whole-string operations *)

Fixpoint map_chars (f : ascii -> ascii) (s : string) : string :=
  match s with
  | EmptyString => EmptyString
  | String c r => String (f c) (map_chars f r)
  end.

(** [s.upper()], [s.lower()] *)
Definition upper (s : string) : string := map_chars char_upper s.
Definition lower (s : string) : string := map_chars char_lower s.

(** [s.lstrip()] *)
Fixpoint lstrip (s : string) : string :=
  match s with
  | EmptyString => EmptyString
  | String c r => if is_space c then lstrip r else s
  end.

(** [s.rstrip()] *)
Fixpoint rstrip (s : string) : string :=
  match s with
  | EmptyString => EmptyString
  | String c r =>
      let r' := rstrip r in
      if is_space c && (r' =? "") then EmptyString else String c r'
  end.

(** [s.strip()] *)
Definition strip (s : string) : string := rstrip (lstrip s).

(** [s.startswith(p)] *)
Fixpoint startswith (s p : string) {struct p} : bool :=
  match p, s with
  | EmptyString, _ => true
  | String c p', String d s' => Ascii.eqb c d && startswith s' p'
  | String _ _, EmptyString => false
  end.

(** [sub in s] *)
Fixpoint contains (s sub : string) : bool :=
  startswith s sub ||
  match s with
  | EmptyString => false
  | String _ s' => contains s' sub
  end.

(** [s.split()]: maximal runs of non-space characters. *)
Fixpoint split_ws_aux (cur s : string) : list string :=
  match s with
  | EmptyString => if cur =? "" then [] else [cur]
  | String c r =>
      if is_space c then
        (if cur =? "" then split_ws_aux "" r else cur :: split_ws_aux "" r)
      else split_ws_aux (cur ++ String c "") r
  end.
Definition split_ws (s : string) : list string := split_ws_aux "" s.

(** [s.splitlines()]: no trailing empty line, \r\n is one boundary. *)
Fixpoint splitlines_aux (cur s : string) : list string :=
  match s with
  | EmptyString => if cur =? "" then [] else [cur]
  | String c r =>
      if Ascii.eqb c "013" then
        match r with
        | String d r' =>
            if Ascii.eqb d "010" then cur :: splitlines_aux "" r'
            else cur :: splitlines_aux "" r
        | EmptyString => [cur]
        end
      else if is_line_break c then cur :: splitlines_aux "" r
      else splitlines_aux (cur ++ String c "") r
  end.
Definition splitlines (s : string) : list string := splitlines_aux "" s.

(** [s.replace(old, new)] for a non-empty [old]: occurrences are found
    left to right and do not overlap; [skip] drops the rest of a match. *)
Fixpoint replace_aux (old new : string) (skip : nat) (s : string) : string :=
  match skip, s with
  | _, EmptyString => EmptyString
  | S k, String _ r => replace_aux old new k r
  | O, String c r =>
      if startswith s old then new ++ replace_aux old new (String.length old - 1) r
      else String c (replace_aux old new 0 r)
  end.

(** For an empty [old], Python inserts [new] before every character and
    at the end. *)
Fixpoint interleave (new s : string) : string :=
  match s with
  | EmptyString => new
  | String c r => new ++ String c (interleave new r)
  end.

Definition py_replace (s old new : string) : string :=
  if old =? "" then interleave new s else replace_aux old new 0 s.

(** [sep.join(l)] is [String.concat sep l]; the code joins with "\n". *)
Definition newline : string := String "010" EmptyString.

(** ** Line-terminated text and line-break-free strings *)

(** Each line followed by "\n", as a reply printed line by line. *)
Fixpoint concat_lines (ls : list string) : string :=
  match ls with
  | [] => ""
  | l :: ls' => l ++ String "010" (concat_lines ls')
  end.

Fixpoint has_line_break (s : string) : bool :=
  match s with
  | EmptyString => false
  | String c r => is_line_break c || has_line_break r
  end.

(** A string whose first and last characters are not white space survives
    [strip] as a prefix. *)
Definition solid (a : string) : Prop :=
  a <> "" /\ lstrip a = a /\ rstrip a = a.

(** ** Examples *)

Example split_ws_ex : split_ws " Go  for it" = ["Go"; "for"; "it"].
Proof. reflexivity. Qed.
Example splitlines_ex :
  splitlines ("a" ++ String "013" (String "010" "b") ++ String "010" "" ++ String "010" "")
  = ["a"; "b"; ""].
Proof. reflexivity. Qed.
Example strip_ex : strip "  x y  " = "x y".
Proof. reflexivity. Qed.
Example replace_ex : py_replace "**S:** a **S:** b" "**S:**" "" = " a  b".
Proof. reflexivity. Qed.
Example interleave_ex : py_replace "ab" "" "X" = "XaXbX".
Proof. reflexivity. Qed.

(** ** Lemmas on [append] *)

Lemma append_cons (c : ascii) (a b : string) : String c a ++ b = String c (a ++ b).
Proof. reflexivity. Qed.

Lemma append_nil_r (s : string) : s ++ "" = s.
Proof. induction s as [|c s IH]; simpl; [reflexivity | now rewrite IH]. Qed.

Lemma append_assoc (a b c : string) : a ++ (b ++ c) = (a ++ b) ++ c.
Proof. induction a as [|x a IH]; simpl; [reflexivity | now rewrite IH]. Qed.

Lemma length_append (a b : string) : String.length (a ++ b) = String.length a + String.length b.
Proof. induction a as [|x a IH]; simpl; [reflexivity | now rewrite IH]. Qed.

Lemma append_eq_empty (a b : string) : a ++ b = "" -> a = "" /\ b = "".
Proof. destruct a; simpl; [auto | discriminate]. Qed.

Lemma append_cancel_l (a x y : string) : a ++ x = a ++ y -> x = y.
Proof. induction a as [|c a IH]; simpl; [auto | intros H; injection H; auto]. Qed.

Lemma append_cancel_r (x y b : string) : x ++ b = y ++ b -> x = y.
Proof.
  revert y. induction x as [|c x IH]; intros [|c' y] H; simpl in *; auto;
    try (apply (f_equal String.length) in H; simpl in H; rewrite length_append in H; lia).
  injection H as -> H. now rewrite (IH y H).
Qed.

#[export] Hint Rewrite append_nil_r : pyrw.

(** ** [startswith] and [contains] *)

Lemma startswith_spec (s p : string) :
  startswith s p = true <-> exists r, s = p ++ r.
Proof.
  revert s. induction p as [|c p IH]; intros s; simpl.
  - split; [eauto | reflexivity].
  - destruct s as [|d s]; split.
    + discriminate.
    + intros [r Hr]; discriminate.
    + intros H. apply andb_true_iff in H as [Hc Hp].
      apply Ascii.eqb_eq in Hc as ->. apply IH in Hp as [r ->]. eauto.
    + intros [r Hr]. injection Hr as -> ->.
      rewrite Ascii.eqb_refl. apply IH. eauto.
Qed.

Lemma startswith_app (p r : string) : startswith (p ++ r) p = true.
Proof. apply startswith_spec. eauto. Qed.

Lemma startswith_app_l (s t p : string) :
  startswith s p = true -> startswith (s ++ t) p = true.
Proof.
  intros H. apply startswith_spec in H as [r ->].
  apply startswith_spec. exists (r ++ t). symmetry. apply append_assoc.
Qed.

Lemma startswith_empty_l (p : string) : startswith "" p = true -> p = "".
Proof. destruct p; [reflexivity | discriminate]. Qed.

Lemma contains_spec (s sub : string) :
  contains s sub = true <-> exists a b, s = a ++ sub ++ b.
Proof.
  induction s as [|c s IH]; simpl.
  - rewrite orb_false_r. split.
    + intros H. apply startswith_empty_l in H as ->. exists "", "". reflexivity.
    + intros (a & b & H). symmetry in H. apply append_eq_empty in H as [_ H].
      apply append_eq_empty in H as [-> _]. reflexivity.
  - rewrite orb_true_iff, IH, startswith_spec. split.
    + intros [[r Hr] | (a & b & ->)].
      * exists "", r. exact Hr.
      * exists (String c a), b. reflexivity.
    + intros ([|x a] & b & H); simpl in H.
      * left. eauto.
      * injection H as -> ->. right. eauto.
Qed.

Lemma contains_app_r (a b sub : string) :
  contains b sub = true -> contains (a ++ b) sub = true.
Proof.
  rewrite !contains_spec. intros (x & y & ->). exists (a ++ x), y.
  now rewrite append_assoc.
Qed.

Lemma contains_app_l (a b sub : string) :
  contains a sub = true -> contains (a ++ b) sub = true.
Proof.
  rewrite !contains_spec. intros (x & y & ->). exists x, (y ++ b).
  now rewrite <- !append_assoc.
Qed.

Lemma startswith_contains (s p : string) :
  startswith s p = true -> contains s p = true.
Proof. destruct s; simpl; intros ->; reflexivity. Qed.

(** ** [strip] *)

Lemma lstrip_app (a b : string) :
  lstrip (a ++ b) = if lstrip a =? "" then lstrip b else lstrip a ++ b.
Proof.
  induction a as [|c a IH]; simpl; [reflexivity|].
  destruct (is_space c); [exact IH | reflexivity].
Qed.

Lemma rstrip_app (a b : string) :
  rstrip (a ++ b) = if rstrip b =? "" then rstrip a else a ++ rstrip b.
Proof.
  induction a as [|c a IH]; simpl.
  - destruct (rstrip b) eqn:E; reflexivity.
  - rewrite IH. destruct (rstrip b =? "") eqn:Eb; [reflexivity|].
    destruct (a ++ rstrip b) eqn:E.
    + apply append_eq_empty in E as [_ E]. rewrite E in Eb. discriminate.
    + rewrite andb_false_r. reflexivity.
Qed.

Lemma rstrip_idem (s : string) : rstrip (rstrip s) = rstrip s.
Proof.
  induction s as [|c s IH]; simpl; [reflexivity|].
  destruct (is_space c && (rstrip s =? "")) eqn:E; [reflexivity|]. simpl.
  rewrite IH, E. reflexivity.
Qed.

Lemma lstrip_rstrip (s : string) : lstrip (rstrip s) = rstrip (lstrip s).
Proof.
  induction s as [|c s IH]; simpl; [reflexivity|].
  destruct (is_space c) eqn:Ec; simpl.
  - rewrite <- IH. destruct (rstrip s =? "") eqn:E; simpl.
    + apply String.eqb_eq in E. rewrite E. reflexivity.
    + rewrite Ec. reflexivity.
  - rewrite Ec. simpl. reflexivity.
Qed.

Lemma lstrip_idem (s : string) : lstrip (lstrip s) = lstrip s.
Proof.
  induction s as [|c s IH]; simpl; [reflexivity|].
  destruct (is_space c) eqn:E; [exact IH | simpl; now rewrite E].
Qed.

Lemma strip_idem (s : string) : strip (strip s) = strip s.
Proof.
  unfold strip. rewrite lstrip_rstrip, lstrip_idem, rstrip_idem. reflexivity.
Qed.

#[export] Hint Rewrite strip_idem : pyrw.

Lemma strip_solid_app (a b : string) :
  solid a -> strip (a ++ b) = a ++ rstrip b.
Proof.
  intros (Hne & Hl & Hr). unfold strip. rewrite lstrip_app, Hl.
  destruct (a =? "") eqn:E; [apply String.eqb_eq in E; contradiction|].
  rewrite rstrip_app, Hr. destruct (rstrip b =? "") eqn:Eb; [|reflexivity].
  apply String.eqb_eq in Eb. rewrite Eb, append_nil_r. reflexivity.
Qed.

(** ** [splitlines] on line-terminated text *)

Lemma line_break_cr (c : ascii) : Ascii.eqb c "013" = true -> is_line_break c = true.
Proof. intros H. apply Ascii.eqb_eq in H as ->. reflexivity. Qed.

Lemma splitlines_aux_line (cur l s : string) :
  has_line_break l = false ->
  splitlines_aux cur (l ++ String "010" s) = (cur ++ l) :: splitlines_aux "" s.
Proof.
  revert cur. induction l as [|c l IH]; intros cur H; simpl.
  - now rewrite append_nil_r.
  - apply orb_false_iff in H as [Hc Hl].
    destruct (Ascii.eqb c "013") eqn:Ecr.
    + apply line_break_cr in Ecr. congruence.
    + rewrite Hc, IH by exact Hl. now rewrite <- append_assoc.
Qed.

(** [str.splitlines] inverts printing lines each followed by "\n". *)
Lemma splitlines_concat_lines (ls : list string) :
  Forall (fun l => has_line_break l = false) ls ->
  splitlines (concat_lines ls) = ls.
Proof.
  unfold splitlines. induction 1 as [|l ls Hl _ IH]; [reflexivity|].
  simpl concat_lines. rewrite splitlines_aux_line by exact Hl. simpl. now rewrite IH.
Qed.

(** ** [str.replace] *)

Lemma replace_aux_skip (old new x s : string) :
  replace_aux old new (String.length x) (x ++ s) = replace_aux old new 0 s.
Proof. induction x as [|c x IH]; simpl; [reflexivity | exact IH]. Qed.

Lemma py_replace_prefix (old new s : string) :
  old <> "" -> py_replace (old ++ s) old new = new ++ py_replace s old new.
Proof.
  intros Hne. unfold py_replace.
  destruct old as [|c o]; [contradiction|]. simpl.
  rewrite Ascii.eqb_refl, startswith_app, Nat.sub_0_r. simpl.
  now rewrite replace_aux_skip.
Qed.

Lemma py_replace_absent (old new s : string) :
  old <> "" -> contains s old = false -> py_replace s old new = s.
Proof.
  intros Hne. unfold py_replace.
  destruct (old =? "") eqn:E; [apply String.eqb_eq in E; contradiction|].
  induction s as [|c s IH]; intros H; [reflexivity|].
  simpl in H. apply orb_false_iff in H as [H1 H2].
  simpl replace_aux. rewrite H1, IH by exact H2. reflexivity.
Qed.

Lemma has_line_break_app (a b : string) :
  has_line_break (a ++ b) = has_line_break a || has_line_break b.
Proof.
  induction a as [|c a IH]; simpl; [reflexivity|]. now rewrite IH, orb_assoc.
Qed.

(** A prefix without line breaks of a line-terminated text is a prefix of
    its first line. *)
Lemma startswith_line (l r p : string) :
  has_line_break p = false -> startswith (l ++ String "010" r) p = true ->
  startswith l p = true.
Proof.
  revert p. induction l as [|c l IH]; intros [|d p] Hp H; simpl in *; auto.
  - apply andb_true_iff in H as [H _]. apply Ascii.eqb_eq in H. subst. discriminate.
  - apply andb_true_iff in H as [H1 H2]. rewrite H1.
    apply orb_false_iff in Hp as [_ Hp]. now apply IH.
Qed.

Lemma concat_lines_nonempty (l : string) (ls : list string) :
  (concat_lines (l :: ls) =? "") = false.
Proof. destruct l; reflexivity. Qed.

(** ** Substrings *)

Lemma contains_trans (s u x : string) :
  contains s u = true -> contains u x = true -> contains s x = true.
Proof.
  rewrite !contains_spec. intros (a & b & ->) (c & d & ->).
  exists (a ++ c), (d ++ b). now rewrite <- !append_assoc.
Qed.

Lemma contains_refl (s : string) : contains s s = true.
Proof. apply contains_spec. exists "", "". now rewrite append_nil_r. Qed.

Lemma lstrip_suffix (s : string) : exists a, s = a ++ lstrip s.
Proof.
  induction s as [|c s [a IH]]; simpl; [now exists ""|].
  destruct (is_space c); [exists (String c a); simpl; now f_equal | now exists ""].
Qed.

Lemma rstrip_prefix (s : string) : exists b, s = rstrip s ++ b.
Proof.
  induction s as [|c s [b IH]]; simpl; [now exists ""|].
  destruct (is_space c && (rstrip s =? "")) eqn:E.
  - bool_props. exists (String c b). simpl. rewrite IH at 1. now rewrite H0.
  - exists b. simpl. now rewrite <- IH.
Qed.

(** [strip l] is a substring of [l]. *)
Lemma contains_strip (l x : string) : contains (strip l) x = true -> contains l x = true.
Proof.
  intros H. apply (contains_trans l (strip l)); [|exact H].
  destruct (lstrip_suffix l) as [a Ha]. destruct (rstrip_prefix (lstrip l)) as [b Hb].
  apply contains_spec. exists a, b. unfold strip. rewrite <- Hb. exact Ha.
Qed.

Lemma splitlines_aux_substring (n : nat) (cur s l : string) :
  String.length s <= n -> In l (splitlines_aux cur s) -> contains (cur ++ s) l = true.
Proof.
  revert cur s. induction n as [|n IH]; intros cur s Hn Hin.
  - destruct s; [|simpl in Hn; lia]. simpl in Hin.
    destruct (cur =? "") eqn:E; [contradiction|]. destruct Hin as [<-|[]].
    rewrite append_nil_r. apply contains_refl.
  - destruct s as [|c r].
    + simpl in Hin. destruct (cur =? "") eqn:E; [contradiction|]. destruct Hin as [<-|[]].
      rewrite append_nil_r. apply contains_refl.
    + simpl in Hn. simpl in Hin.
      assert (Hcur : contains (cur ++ String c r) cur = true)
        by (apply contains_app_l, contains_refl).
      destruct (Ascii.eqb c "013") eqn:Ecr; [destruct r as [|d r'] |].
      * destruct Hin as [<-|[]]. exact Hcur.
      * destruct (Ascii.eqb d "010"); destruct Hin as [<-|Hin]; try exact Hcur;
          apply contains_app_r; simpl; rewrite orb_true_iff; right.
        -- simpl in Hn. rewrite orb_true_iff. right. apply (IH "" r'); [lia | exact Hin].
        -- apply (IH "" (String d r')); [simpl in *; lia | exact Hin].
      * destruct (is_line_break c); [destruct Hin as [<-|Hin]; [exact Hcur|] |].
        -- apply contains_app_r. simpl. rewrite orb_true_iff. right.
           apply (IH "" r); [lia | exact Hin].
        -- replace (cur ++ String c r) with ((cur ++ String c "") ++ r)
             by (rewrite <- append_assoc; reflexivity).
           apply IH; [lia | exact Hin].
Qed.

(** Each line of [s.splitlines()] is a substring of [s]. *)
Lemma splitlines_substring (s l : string) : In l (splitlines s) -> contains s l = true.
Proof. intros H. exact (splitlines_aux_substring (String.length s) "" s l (le_n _) H). Qed.
