(* ===== verification/Analysis.v ===== *)
(** * The parser's output record and its heading table

    [parse_llm_response] (main.py 76-167) fills a dict with the five keys
    "summary", "requirements", "challenges", "recommendation" and
    "reasoning".  The keys are fixed, so the dict is modelled as the record
    [analysis] and a key as [field_key]; [get_field]/[set_field] are
    [parsed_data[key]] and [parsed_data[key] = v].  [sections] is the
    heading table of lines 91-97 in its insertion order, which is the
    order the scanner tries the headings in. *)

From Stdlib Require Import String List Bool.
From stdpp Require Import base decidable.
From S2P Require Import Prelude PyStr.
Import ListNotations.
Local Open Scope string_scope.

(** The keys of [parsed_data]. *)
Inductive field_key : Type :=
| KSummary | KRequirements | KChallenges | KRecommendation | KReasoning.

#[export] Instance field_key_eq_dec : EqDecision field_key.
Proof. solve_decision. Defined.

(** The dict [parsed_data]. *)
Record analysis : Type := mk_analysis {
  summary : string;
  requirements : string;
  challenges : string;
  recommendation : string;
  reasoning : string
}.

Definition not_available : string := "Not available".

(** The dict literal of lines 77-83: the recommendation starts at
    "UNCERTAIN", the others at the sentinel. *)
Definition initial_analysis : analysis := {|
  summary := not_available;
  requirements := not_available;
  challenges := not_available;
  recommendation := "UNCERTAIN";
  reasoning := not_available
|}.

Definition get_field (k : field_key) (a : analysis) : string :=
  match k with
  | KSummary => summary a
  | KRequirements => requirements a
  | KChallenges => challenges a
  | KRecommendation => recommendation a
  | KReasoning => reasoning a
  end.

Definition set_field (k : field_key) (v : string) (a : analysis) : analysis :=
  match k with
  | KSummary => {| summary := v; requirements := requirements a; challenges := challenges a;
                   recommendation := recommendation a; reasoning := reasoning a |}
  | KRequirements => {| summary := summary a; requirements := v; challenges := challenges a;
                        recommendation := recommendation a; reasoning := reasoning a |}
  | KChallenges => {| summary := summary a; requirements := requirements a; challenges := v;
                      recommendation := recommendation a; reasoning := reasoning a |}
  | KRecommendation => {| summary := summary a; requirements := requirements a;
                          challenges := challenges a; recommendation := v;
                          reasoning := reasoning a |}
  | KReasoning => {| summary := summary a; requirements := requirements a;
                     challenges := challenges a; recommendation := recommendation a;
                     reasoning := v |}
  end.

(** The heading table [sections] (lines 91-97). *)
Definition sections : list (string * field_key) :=
  [("Summary", KSummary);
   ("Key Requirements", KRequirements);
   ("Potential Challenges", KChallenges);
   ("Overall Recommendation", KRecommendation);
   ("Reasoning for Recommendation", KReasoning)].

(** [f"**{heading}:**"] (lines 108 and 112). *)
Definition marker (heading : string) : string := "**" ++ heading ++ ":**".
Arguments marker : simpl never.

(** The heading of a key, read back from the table. *)
Definition heading_of (k : field_key) : string :=
  match k with
  | KSummary => "Summary"
  | KRequirements => "Key Requirements"
  | KChallenges => "Potential Challenges"
  | KRecommendation => "Overall Recommendation"
  | KReasoning => "Reasoning for Recommendation"
  end.

(** ** Lemmas *)

Lemma get_set_field (k k' : field_key) (v : string) (a : analysis) :
  get_field k (set_field k' v a) = if decide (k = k') then v else get_field k a.
Proof. destruct k, k'; reflexivity. Qed.

Lemma set_get_field (k : field_key) (a : analysis) : set_field k (get_field k a) a = a.
Proof. destruct k, a; reflexivity. Qed.

Lemma set_set_field (k : field_key) (v w : string) (a : analysis) :
  set_field k v (set_field k w a) = set_field k v a.
Proof. destruct k; reflexivity. Qed.

Lemma set_field_comm (k k' : field_key) (v v' : string) (a : analysis) :
  k <> k' -> set_field k v (set_field k' v' a) = set_field k' v' (set_field k v a).
Proof. intros H. destruct k, k'; try reflexivity; congruence. Qed.

(** Two records are equal when every field is. *)
Lemma analysis_ext (a b : analysis) :
  (forall k, get_field k a = get_field k b) -> a = b.
Proof.
  intros H. destruct a, b.
  pose proof (H KSummary); pose proof (H KRequirements); pose proof (H KChallenges);
    pose proof (H KRecommendation); pose proof (H KReasoning); simpl in *; congruence.
Qed.

Lemma in_sections (h : string) (k : field_key) :
  In (h, k) sections <-> h = heading_of k.
Proof.
  split.
  - intros H. repeat destruct H as [H|H]; try injection H as <- <-; easy.
  - intros ->. destruct k; simpl; auto 6.
Qed.

#[export] Hint Rewrite get_set_field set_set_field set_get_field : pyrw.
#[export] Hint Resolve analysis_ext : pymodel.
