(* ===== verification/LineScan.v ===== *)
(** * Step 1 of the parser: the line scanner (main.py 99-121)

    The loop of lines 105-118 keeps [current_section_key], [buffer] and
    [parsed_data]; here they are the three fields of [scan_state].
    [scan_line] is one iteration of the loop body, [flush] the guarded
    store of lines 109-110 and 120-121, [scan_lines] the whole loop and
    the final flush.  The same step is also given as the relation
    [scan_step], whose reachable states satisfy [scan_inv].

    The abstract specification cuts the lines into a preamble and a list of
    [segment]s (a heading line and the non-heading lines after it) with
    [segments]; the scanner refines it: the result is the initial record
    with each segment's value stored under its key, in order. *)

From Stdlib Require Import String List Bool Lia.
From stdpp Require Import base decidable.
From S2P Require Import Prelude PyStr Analysis.
Import ListNotations.
Local Open Scope string_scope.

Module Scan.

(** The loop variables. *)
Record scan_state : Type := mk_scan {
  current : option field_key;
  buffer : list string;
  parsed : analysis
}.

Definition init_scan : scan_state := mk_scan None [] initial_analysis.

(** The inner [for heading, key in sections.items()] loop with its
    [break]: the first heading whose marker starts the stripped line. *)
Definition find_heading (line : string) : option (string * field_key) :=
  first_some (fun hk => if startswith (strip line) (marker (fst hk)) then Some hk else None)
             sections.

(** [if current_section_key and buffer:
       parsed_data[current_section_key] = "\n".join(buffer).strip()] *)
Definition flush (st : scan_state) : analysis :=
  match current st, buffer st with
  | Some k, _ :: _ => set_field k (strip (String.concat newline (buffer st))) (parsed st)
  | _, _ => parsed st
  end.

(** One iteration of the loop of lines 105-118. *)
Definition scan_line (st : scan_state) (line : string) : scan_state :=
  match find_heading line with
  | Some (h, k) =>
      mk_scan (Some k) [strip (py_replace line (marker h) "")] (flush st)
  | None =>
      match current st with
      | Some k => mk_scan (Some k) (buffer st ++ [strip line])%list (parsed st)
      | None => st
      end
  end.

(** Lines 99-121: the loop over [llm_text.splitlines()] and the last flush. *)
Definition scan_lines (lines : list string) : analysis :=
  flush (fold_left scan_line lines init_scan).

(** ** The loop as a state machine *)

Inductive scan_step : scan_state -> string -> scan_state -> Prop :=
| step_heading st line h k :
    find_heading line = Some (h, k) ->
    scan_step st line (mk_scan (Some k) [strip (py_replace line (marker h) "")] (flush st))
| step_body st line k :
    find_heading line = None -> current st = Some k ->
    scan_step st line (mk_scan (Some k) (buffer st ++ [strip line])%list (parsed st))
| step_skip st line :
    find_heading line = None -> current st = None ->
    scan_step st line st.

Inductive reachable : scan_state -> Prop :=
| reach_init : reachable init_scan
| reach_step st line st' : reachable st -> scan_step st line st' -> reachable st'.

(** Before the first heading nothing is buffered or stored; inside a
    section the buffer holds at least the heading line's remainder. *)
Definition scan_inv (st : scan_state) : Prop :=
  match current st with
  | None => buffer st = [] /\ parsed st = initial_analysis
  | Some _ => buffer st <> []
  end.

(** ** The abstract specification: segments *)

Record segment : Type := mk_segment {
  seg_key : field_key;
  seg_heading : string;
  seg_line : string;
  seg_body : list string
}.

(** The buffer a segment leaves behind and the value it stores. *)
Definition seg_buffer (sg : segment) : list string :=
  strip (py_replace (seg_line sg) (marker (seg_heading sg)) "") :: map strip (seg_body sg).

Definition seg_value (sg : segment) : string :=
  strip (String.concat newline (seg_buffer sg)).

(** Cut the lines into the preamble and the segments. *)
Fixpoint segments (lines : list string) : list string * list segment :=
  match lines with
  | [] => ([], [])
  | l :: ls =>
      let '(pre, ss) := segments ls in
      match find_heading l with
      | Some (h, k) => ([], mk_segment k h l pre :: ss)
      | None => (l :: pre, ss)
      end
  end.

Definition unsegment (pre : list string) (ss : list segment) : list string :=
  (pre ++ concat (map (fun sg => seg_line sg :: seg_body sg) ss))%list.

Definition store_segments (ss : list segment) (a : analysis) : analysis :=
  fold_left (fun a sg => set_field (seg_key sg) (seg_value sg) a) ss a.

Definition scan_spec (lines : list string) : analysis :=
  store_segments (snd (segments lines)) initial_analysis.

Definition not_heading (l : string) : Prop := find_heading l = None.

Definition seg_wf (sg : segment) : Prop :=
  find_heading (seg_line sg) = Some (seg_heading sg, seg_key sg) /\
  Forall not_heading (seg_body sg).

(** The buffer after the body lines [pre] of the current section. *)
Definition extend (st : scan_state) (pre : list string) : scan_state :=
  match current st with
  | Some k => mk_scan (Some k) (buffer st ++ map strip pre)%list (parsed st)
  | None => st
  end.

(** ** The step function and the step relation agree *)

Lemma scan_line_step (st : scan_state) (line : string) :
  scan_step st line (scan_line st line).
Proof.
  unfold scan_line. destruct (find_heading line) as [[h k]|] eqn:E.
  - now constructor.
  - destruct (current st) eqn:C; now constructor.
Qed.

Lemma scan_step_det (st st' : scan_state) (line : string) :
  scan_step st line st' -> st' = scan_line st line.
Proof.
  unfold scan_line. intros H; inv H; match goal with H : find_heading _ = _ |- _ => rewrite H end;
    try match goal with H : current _ = _ |- _ => rewrite H end; reflexivity.
Qed.

Lemma scan_step_inv (st st' : scan_state) (line : string) :
  scan_inv st -> scan_step st line st' -> scan_inv st'.
Proof.
  intros Hi H. destruct H as [st line h k _ | st line k _ _ | st line _ _]; unfold scan_inv; simpl.
  - discriminate.
  - intros Hb. apply app_eq_nil in Hb as [_ Hb]. discriminate.
  - exact Hi.
Qed.

Lemma reachable_fold (st : scan_state) (lines : list string) :
  reachable st -> reachable (fold_left scan_line lines st).
Proof.
  revert st. induction lines as [|l ls IH]; intros st H; simpl; [exact H|].
  apply IH. eapply reach_step; [exact H | apply scan_line_step].
Qed.

(** ** The loop refines the segment specification *)

Lemma flush_fold_segments (lines : list string) (st : scan_state) :
  flush (fold_left scan_line lines st) =
  store_segments (snd (segments lines)) (flush (extend st (fst (segments lines)))).
Proof.
  revert st. induction lines as [|l ls IH]; intros st; simpl.
  - unfold extend. destruct st as [[k|] buf p]; simpl; [now rewrite app_nil_r | reflexivity].
  - rewrite IH. destruct (segments ls) as [pre ss]. unfold scan_line.
    destruct (find_heading l) as [[h k]|]; simpl.
    + f_equal. unfold extend at 2. destruct st as [[k'|] buf p]; simpl; [|reflexivity].
      now rewrite app_nil_r.
    + unfold extend. destruct st as [[k|] buf p]; simpl; [now rewrite <- app_assoc | reflexivity].
Qed.

Lemma store_segments_field (k : field_key) (ss : list segment) (a : analysis) :
  get_field k (store_segments ss a) =
  fold_left (fun v sg => if decide (k = seg_key sg) then seg_value sg else v) ss (get_field k a).
Proof.
  revert a. induction ss as [|sg ss IH]; intros a; simpl; [reflexivity|].
  rewrite IH, get_set_field. reflexivity.
Qed.

Lemma segments_app_plain (pre rest : list string) :
  Forall not_heading pre ->
  segments (pre ++ rest)%list = ((pre ++ fst (segments rest))%list, snd (segments rest)).
Proof.
  induction 1 as [|l pre Hl _ IH]; simpl; [destruct (segments rest); reflexivity|].
  rewrite IH. unfold not_heading in Hl. rewrite Hl. reflexivity.
Qed.

Lemma segments_wf (lines : list string) :
  Forall not_heading (fst (segments lines)) /\ Forall seg_wf (snd (segments lines)).
Proof.
  induction lines as [|l ls [IH1 IH2]]; simpl; [split; constructor|].
  destruct (segments ls) as [pre ss]. simpl in *.
  destruct (find_heading l) as [[h k]|] eqn:E; simpl.
  - split; [constructor | constructor; [split; assumption | exact IH2]].
  - split; [constructor; [exact E | exact IH1] | exact IH2].
Qed.

Lemma unsegment_segments (lines : list string) :
  unsegment (fst (segments lines)) (snd (segments lines)) = lines.
Proof.
  unfold unsegment. induction lines as [|l ls IH]; simpl; [reflexivity|].
  destruct (segments ls) as [pre ss]. simpl in IH.
  destruct (find_heading l) as [[h k]|]; simpl; now rewrite IH.
Qed.

(** Without any heading line the scan leaves the default record. *)
Lemma scan_lines_no_headings (lines : list string) :
  Forall not_heading lines -> scan_lines lines = initial_analysis.
Proof.
  intros H. unfold scan_lines. rewrite flush_fold_segments.
  pose proof (segments_app_plain lines [] H) as E. simpl in E. rewrite !app_nil_r in E.
  rewrite E. reflexivity.
Qed.

(** Every field of the scanned record is stripped. *)
Lemma scan_lines_stripped (lines : list string) (k : field_key) :
  strip (get_field k (scan_lines lines)) = get_field k (scan_lines lines).
Proof.
  unfold scan_lines. rewrite flush_fold_segments, store_segments_field.
  change (flush (extend init_scan (fst (segments lines)))) with initial_analysis.
  assert (H0 : strip (get_field k initial_analysis) = get_field k initial_analysis)
    by (destruct k; reflexivity).
  revert H0. generalize (get_field k initial_analysis).
  induction (snd (segments lines)) as [|sg ss IH]; intros v Hv; simpl; [exact Hv|].
  apply IH. destruct (decide (k = seg_key sg)); [apply strip_idem | exact Hv].
Qed.

(** ** Theorems *)

(** C3 (refinement). The scanning loop of [parse_llm_response] (lines
    99-121) computes its specification: cut the lines into a preamble and
    heading-led segments, and store each segment's stripped, newline-joined
    buffer under its key, in order, starting from the default record. *)
Theorem scan_lines_refines_spec (lines : list string) :
  scan_lines lines = scan_spec lines.
Proof.
  unfold scan_lines, scan_spec. rewrite flush_fold_segments. reflexivity.
Qed.

(** C21 (invariant). Every state the loop reaches satisfies [scan_inv]:
    before the first heading nothing is buffered and the record is still
    the default; inside a section the buffer is never empty, so the
    [and buffer] half of the guard on lines 109 and 120 never skips a
    store. *)
Theorem reachable_scan_inv (st : scan_state) :
  reachable st -> scan_inv st.
Proof.
  induction 1 as [|st line st' _ IH Hs]; [split; reflexivity|].
  exact (scan_step_inv st st' line IH Hs).
Qed.

Lemma reachable_scan_inv_witness :
  scan_inv (scan_line (scan_line init_scan "preamble") "**Summary:** x").
Proof.
  apply reachable_scan_inv.
  eapply reach_step; [eapply reach_step; [apply reach_init | apply scan_line_step]
                     | apply scan_line_step].
Defined.

(** Cutting a printed heading-free preamble and well-formed segments
    gives them back. *)
Lemma segments_unsegment (pre : list string) (ss : list segment) :
  Forall not_heading pre -> Forall seg_wf ss ->
  segments (unsegment pre ss) = (pre, ss).
Proof.
  intros Hpre Hss. unfold unsegment. rewrite segments_app_plain by exact Hpre.
  enough (segments (concat (map (fun sg => seg_line sg :: seg_body sg) ss)) = ([], ss)) as ->.
  { simpl. now rewrite app_nil_r. }
  induction Hss as [|sg ss [Hh Hb] _ IH]; [reflexivity|].
  simpl. rewrite segments_app_plain by exact Hb. rewrite IH. simpl.
  rewrite Hh, app_nil_r. destruct sg; reflexivity.
Qed.

(** A field of the scanned record is the value of the
    last segment headed by its key, or its default when no line heads it:
    a later duplicate heading overrides an earlier one, and lines before
    the first heading are dropped. *)
Theorem scan_lines_last_heading (k : field_key) (lines : list string) :
  get_field k (scan_lines lines) =
  fold_left (fun v sg => if decide (k = seg_key sg) then seg_value sg else v)
            (snd (segments lines)) (get_field k initial_analysis).
Proof.
  unfold scan_lines. rewrite flush_fold_segments. apply store_segments_field.
Qed.

End Scan.
