(* ===== verification/Recommendation.v ===== *)
(** * Step 2 of the parser: the recommendation normaliser

    Lines 124-137 upper-case the scanned recommendation and classify it by
    substring tests: "GO" without "NO-GO", then "NO-GO", then
    "UNCERTAIN"; otherwise a value of fewer than four words is kept as it
    was and anything else becomes "UNCERTAIN".  The fallback pass repeats
    the three keyword tests (lines 155-159) but keeps any unclassified text.
    Both share the keyword tests [rec_keyword]. *)

From Stdlib Require Import String List Bool Arith Lia.
From S2P Require Import Prelude PyStr.
Import ListNotations.
Local Open Scope string_scope.

Module Rec.

(** The [if/elif/elif] keyword tests on an upper-cased text. *)
Definition rec_keyword (rec_upper : string) : option string :=
  if contains rec_upper "GO" && negb (contains rec_upper "NO-GO") then Some "GO"
  else if contains rec_upper "NO-GO" then Some "NO-GO"
  else if contains rec_upper "UNCERTAIN" then Some "UNCERTAIN"
  else None.

(** Lines 124-137. *)
Definition normalize_recommendation (r : string) : string :=
  match rec_keyword (upper r) with
  | Some v => v
  | None =>
      if negb (r =? "") && (List.length (split_ws r) <? 4)%nat then r else "UNCERTAIN"
  end.

(** Lines 155-159, on the regex group [recommendation_match.group(1)]. *)
Definition fallback_recommendation (group : string) : string :=
  match rec_keyword (upper (strip group)) with
  | Some v => v
  | None => strip group
  end.

Definition canonical (v : string) : Prop := v = "GO" \/ v = "NO-GO" \/ v = "UNCERTAIN".

(** ** Lemmas *)

Lemma rec_keyword_canonical (u v : string) : rec_keyword u = Some v -> canonical v.
Proof.
  unfold rec_keyword, canonical. case_ifs; intros H; inversion H; auto.
Qed.

Lemma rec_keyword_nogo (u : string) :
  contains u "NO-GO" = true -> rec_keyword u = Some "NO-GO".
Proof. intros H. unfold rec_keyword. rewrite H, andb_false_r. reflexivity. Qed.

Lemma rec_keyword_go (u : string) :
  contains u "GO" = true -> contains u "NO-GO" = false -> rec_keyword u = Some "GO".
Proof. intros H1 H2. unfold rec_keyword. rewrite H1, H2. reflexivity. Qed.

Lemma upper_canonical (v : string) : canonical v -> rec_keyword (upper v) = Some v.
Proof. intros [-> | [-> | ->]]; reflexivity. Qed.

Lemma normalize_canonical (v : string) : canonical v -> normalize_recommendation v = v.
Proof. intros H. unfold normalize_recommendation. now rewrite upper_canonical. Qed.

Lemma normalize_stripped (r : string) :
  strip r = r -> strip (normalize_recommendation r) = normalize_recommendation r.
Proof.
  intros H. unfold normalize_recommendation. destruct (rec_keyword (upper r)) as [v|] eqn:E.
  - destruct (rec_keyword_canonical _ _ E) as [-> | [-> | ->]]; reflexivity.
  - case_ifs; [exact H | reflexivity].
Qed.

(** ** Theorems *)

(** C4 (invariant). The normalised recommendation is "GO", "NO-GO" or
    "UNCERTAIN", or else the scanned text itself, unchanged, when it is
    non-empty, has fewer than four words and contains none of the
    keywords: the short-answer escape of lines 133-135. *)
Theorem normalize_recommendation_range (r : string) :
  canonical (normalize_recommendation r) \/
  (normalize_recommendation r = r /\ r <> "" /\ List.length (split_ws r) < 4 /\
   rec_keyword (upper r) = None).
Proof.
  unfold normalize_recommendation. destruct (rec_keyword (upper r)) as [v|] eqn:E.
  - left. exact (rec_keyword_canonical _ _ E).
  - case_ifs; [right | left; unfold canonical; auto].
    bool_props. apply Nat.ltb_lt in H0. auto.
Qed.

(** C5 (functional). Whenever the upper-cased text contains "NO-GO" the
    result is "NO-GO", although "GO" is a substring of it: the
    [and "NO-GO" not in rec] guard of line 125 makes the order of the
    tests safe. *)
Theorem normalize_nogo_priority (r : string) :
  contains (upper r) "NO-GO" = true -> normalize_recommendation r = "NO-GO".
Proof.
  intros H. unfold normalize_recommendation. now rewrite rec_keyword_nogo.
Qed.

Lemma normalize_nogo_priority_witness :
  contains (upper "Verdict: no-go, too risky") "NO-GO" = true /\
  normalize_recommendation "Verdict: no-go, too risky" = "NO-GO".
Proof. split; [reflexivity | apply normalize_nogo_priority; reflexivity]. Defined.

(** C22 (functional). Any text whose upper-cased form contains "GO" but
    not "NO-GO" is classified "GO", so the substring test of line 125
    reads "NO GO" (no hyphen) and "not a good fit" as a "GO". *)
Theorem normalize_go_substring (r : string) :
  contains (upper r) "GO" = true -> contains (upper r) "NO-GO" = false ->
  normalize_recommendation r = "GO".
Proof.
  intros H1 H2. unfold normalize_recommendation. now rewrite rec_keyword_go.
Qed.

Lemma normalize_go_substring_witness :
  normalize_recommendation "NO GO" = "GO" /\
  normalize_recommendation "Not a good fit" = "GO" /\
  normalize_recommendation "Go for it" = "GO".
Proof.
  split; [|split]; apply normalize_go_substring; reflexivity.
Defined.

(** Normalising twice is normalising once: the three
    keywords are fixed points and a kept short answer is kept again. *)
Theorem normalize_recommendation_idem (r : string) :
  normalize_recommendation (normalize_recommendation r) = normalize_recommendation r.
Proof.
  unfold normalize_recommendation at 2 3. destruct (rec_keyword (upper r)) as [v|] eqn:E.
  - exact (normalize_canonical v (rec_keyword_canonical _ _ E)).
  - case_ifs; [|reflexivity].
    unfold normalize_recommendation. now rewrite E, E0.
Qed.

End Rec.
