(* ===== verification/PyRegex.v ===== *)
(** * The fragment of Python's [re] used by the fallback pass

    Lines 144-162 call [re.search(p, llm_text, re.DOTALL | re.IGNORECASE)]
    with patterns of two shapes: a literal, a lazy group, a literal; and a
    literal followed by a greedy group, where the literals are the escaped
    heading markers.  [pattern] is that fragment (literals and one
    capturing group of dot-star, lazy or greedy, with the dot matching any
    character as under DOTALL) and [re_search] is the backtracking search of
    CPython's engine: try every start position from the left, match the
    literals case-insensitively, and try the group's lengths shortest first
    for [*?] and longest first for [*].  The result is [Some g] for a match
    whose group 1 is [g], as [m.group(1)].

    [search_between] and [search_after] are the direct definitions (find
    the first marker, then the first closing marker after it); they are
    equal to the engine on the two shapes. *)

From Stdlib Require Import String Ascii List Bool Arith Lia.
From S2P Require Import Prelude PyStr.
Import ListNotations.
Local Open Scope string_scope.

Module Re.

(** Case-insensitive comparison of IGNORECASE on ASCII letters. *)
Definition char_eq_ci (a b : ascii) : bool := Ascii.eqb (char_lower a) (char_lower b).

Fixpoint startswith_ci (s p : string) {struct p} : bool :=
  match p, s with
  | EmptyString, _ => true
  | String c p', String d s' => char_eq_ci c d && startswith_ci s' p'
  | String _ _, EmptyString => false
  end.

Fixpoint sdrop (n : nat) (s : string) : string :=
  match n, s with
  | O, _ => s
  | S n', EmptyString => EmptyString
  | S n', String _ s' => sdrop n' s'
  end.

Inductive atom : Type :=
| Lit (lit : string)        (** an escaped literal such as [\*\*Summary:\*\*] *)
| Group (lazy : bool).      (** the lazy group when [lazy], else the greedy one *)

Definition pattern : Type := list atom.

(** Every split of a string in two, the shortest first part first. *)
Fixpoint splits (s : string) : list (string * string) :=
  match s with
  | EmptyString => [("", "")]
  | String c r => ("", s) :: map (fun '(x, y) => (String c x, y)) (splits r)
  end.

(** Match [p] at the start of [s]; [Some g] carries group 1 if any. *)
Fixpoint match_here (p : pattern) (s : string) : option (option string) :=
  match p with
  | [] => Some None
  | Lit l :: p' =>
      if startswith_ci s l then match_here p' (sdrop (String.length l) s) else None
  | Group lz :: p' =>
      first_some (fun '(g, rest) =>
                    match match_here p' rest with
                    | Some _ => Some (Some g)
                    | None => None
                    end)
                 (if lz then splits s else rev (splits s))
  end.

Fixpoint suffixes (s : string) : list string :=
  match s with
  | EmptyString => [EmptyString]
  | String _ r => s :: suffixes r
  end.

(** [re.search(p, s)]: the leftmost start position where [p] matches. *)
Definition re_search (p : pattern) (s : string) : option (option string) :=
  first_some (match_here p) (suffixes s).

(** The two shapes: [a], a lazy group, [b]; and [a], a greedy group. *)
Definition between (a b : string) : pattern := [Lit a; Group true; Lit b].
Definition after (a : string) : pattern := [Lit a; Group false].

(** ** The direct definitions *)

(** The text before the first case-insensitive occurrence of [pat] and the
    text after it. *)
Fixpoint find_ci (pat s : string) : option (string * string) :=
  if startswith_ci s pat then Some ("", sdrop (String.length pat) s)
  else match s with
       | EmptyString => None
       | String c r =>
           match find_ci pat r with
           | Some (x, y) => Some (String c x, y)
           | None => None
           end
       end.

Definition search_between (a b s : string) : option string :=
  match find_ci a s with
  | Some (_, rest) => option_map fst (find_ci b rest)
  | None => None
  end.

Definition search_after (a s : string) : option string :=
  option_map snd (find_ci a s).

(** ** Lemmas *)

Lemma sdrop_empty (n : nat) : sdrop n "" = "".
Proof. destruct n; reflexivity. Qed.

Lemma sdrop_sdrop (n m : nat) (s : string) : sdrop n (sdrop m s) = sdrop (n + m) s.
Proof.
  revert s. induction m as [|m IH]; intros s.
  - now rewrite Nat.add_0_r.
  - destruct s as [|c r]; simpl.
    + now rewrite !sdrop_empty.
    + rewrite Nat.add_succ_r. apply IH.
Qed.

Lemma find_ci_sdrop_None (pat u : string) (n : nat) :
  find_ci pat u = None -> find_ci pat (sdrop n u) = None.
Proof.
  revert u. induction n as [|n IH]; intros u H; [exact H|].
  destruct u as [|c r]; [exact H|]. simpl. apply IH.
  simpl in H. destruct (startswith_ci (String c r) pat); [discriminate|].
  destruct (find_ci pat r) as [[x y]|]; [discriminate | reflexivity].
Qed.

Lemma in_suffixes (t s : string) : In t (suffixes s) -> exists i, t = sdrop i s.
Proof.
  induction s as [|c r IH]; simpl; intros [H|H].
  - exists 0. now subst.
  - contradiction.
  - exists 0. now subst.
  - destruct (IH H) as [i ->]. now exists (S i).
Qed.

Lemma splits_last (u : string) : exists l, splits u = (l ++ [(u, "")])%list.
Proof.
  induction u as [|c r [l IH]]; simpl.
  - now exists [].
  - rewrite IH, map_app. now exists (("", String c r) :: map (fun '(x, y) => (String c x, y)) l).
Qed.

(** The greedy group takes the whole rest. *)
Lemma greedy_group_rest (u : string) :
  first_some (fun '(g, rest) => match match_here [] rest with
                                | Some _ => Some (Some g) | None => None end)
             (rev (splits u)) = Some (Some u).
Proof.
  destruct (splits_last u) as [l ->]. now rewrite rev_app_distr.
Qed.

(** The lazy group stops at the first occurrence of the next literal. *)
Lemma lazy_group_find {B} (k : string -> B) (b u : string) :
  first_some (fun '(x, y) => if startswith_ci y b then Some (k x) else None) (splits u)
  = option_map (fun p => k (fst p)) (find_ci b u).
Proof.
  revert k. induction u as [|c r IH]; intros k; simpl.
  - now destruct (startswith_ci "" b).
  - destruct (startswith_ci (String c r) b); [reflexivity|].
    rewrite first_some_map.
    transitivity (first_some (fun '(x, y) => if startswith_ci y b then Some (k (String c x))
                                             else None) (splits r)).
    { apply first_some_ext. now intros [x y] _. }
    rewrite IH. now destruct (find_ci b r) as [[x y]|].
Qed.

(** A lazy-group pattern: group 1 is the text between the first [a] and
    the first [b] after it; a later [a] cannot rescue a failed match. *)
Lemma re_search_between (a b s : string) :
  re_search (between a b) s = option_map Some (search_between a b s).
Proof.
  unfold re_search, search_between.
  transitivity (first_some (fun t => if startswith_ci t a
      then option_map (fun p => Some (fst p)) (find_ci b (sdrop (String.length a) t))
      else None) (suffixes s)).
  { apply first_some_ext. intros t _. simpl. destruct (startswith_ci t a); [|reflexivity].
    rewrite <- lazy_group_find. apply first_some_ext. intros [x y] _. simpl.
    now destruct (startswith_ci y b). }
  induction s as [|c r IH]; simpl.
  - destruct (startswith_ci "" a); [|reflexivity]. now destruct (find_ci b _) as [[x y]|].
  - destruct (startswith_ci (String c r) a) eqn:Ea.
    + destruct (find_ci b (sdrop (String.length a) (String c r))) as [[x y]|] eqn:Eb;
        [reflexivity|].
      apply first_some_None, Forall_forall. intros t Ht.
      destruct (startswith_ci t a); [|reflexivity].
      destruct (in_suffixes t r Ht) as [i ->].
      replace (sdrop (String.length a) (sdrop i r))
        with (sdrop (S i) (sdrop (String.length a) (String c r))).
      { now rewrite (find_ci_sdrop_None b _ (S i) Eb). }
      rewrite !sdrop_sdrop. simpl. f_equal. lia.
    + rewrite IH. now destruct (find_ci a r) as [[x y]|].
Qed.

(** A greedy-group pattern: group 1 is everything after the first [a]. *)
Lemma re_search_after (a s : string) :
  re_search (after a) s = option_map Some (search_after a s).
Proof.
  unfold re_search, search_after.
  transitivity (first_some (fun t => if startswith_ci t a
      then Some (Some (sdrop (String.length a) t)) else None) (suffixes s)).
  { apply first_some_ext. intros t _. simpl. destruct (startswith_ci t a); [|reflexivity].
    apply greedy_group_rest. }
  induction s as [|c r IH]; simpl.
  - now destruct (startswith_ci "" a).
  - destruct (startswith_ci (String c r) a); [reflexivity|].
    rewrite IH. now destruct (find_ci a r) as [[x y]|].
Qed.

(** Without a case-insensitive occurrence of the first literal, the
    search fails. *)
Lemma re_search_lit_absent (a : string) (p : pattern) (s : string) :
  (forall u, In u (suffixes s) -> startswith_ci u a = false) ->
  re_search (Lit a :: p) s = None.
Proof.
  intros H. apply first_some_None, Forall_forall. intros u Hu. simpl. now rewrite H.
Qed.

Lemma char_lower_star (d : ascii) : char_lower d = "*"%char -> d = "*"%char.
Proof.
  unfold char_lower.
  destruct ((65 <=? nat_of_ascii d) && (nat_of_ascii d <=? 90))%nat eqn:E; [|auto].
  intros H. apply andb_true_iff in E as [E1 E2].
  apply Nat.leb_le in E1, E2. apply (f_equal nat_of_ascii) in H.
  rewrite nat_ascii_embedding in H by lia. change (nat_of_ascii "*") with 42 in H. lia.
Qed.

Lemma startswith_ci_star (u x : string) :
  startswith_ci u (String "*" (String "*" x)) = true -> startswith u "**" = true.
Proof.
  destruct u as [|a [|b u]]; simpl; try discriminate;
    [rewrite andb_false_r; discriminate|].
  intros H. apply andb_true_iff in H as [Ha H]. apply andb_true_iff in H as [Hb _].
  unfold char_eq_ci in Ha, Hb. change (char_lower "*") with "*"%char in Ha, Hb.
  apply Ascii.eqb_eq in Ha, Hb. symmetry in Ha, Hb.
  apply char_lower_star in Ha, Hb. subst. reflexivity.
Qed.

Lemma contains_sdrop (i : nat) (s p : string) :
  contains (sdrop i s) p = true -> contains s p = true.
Proof.
  revert s. induction i as [|i IH]; intros s H; [exact H|].
  destruct s as [|c r]; [exact H|]. simpl. apply orb_true_iff. right. now apply IH.
Qed.

(** A text without "**" has no case-insensitive occurrence of a literal
    that starts with "**". *)
Lemma re_search_no_star (x : string) (p : pattern) (s : string) :
  contains s "**" = false -> re_search (Lit (String "*" (String "*" x)) :: p) s = None.
Proof.
  intros H. apply re_search_lit_absent. intros u Hu.
  destruct (startswith_ci u _) eqn:E; [|reflexivity].
  apply startswith_ci_star, startswith_contains in E.
  destruct (in_suffixes u s Hu) as [i ->].
  apply contains_sdrop in E. congruence.
Qed.

(** ** Theorems *)

(** C6 (equivalence). The backtracking search of [re.search] under
    DOTALL and IGNORECASE, on the two pattern shapes of the fallback pass,
    equals the direct search: for "a, lazy group, b" group 1 is the text
    between the first case-insensitive occurrence of [a] and the first
    occurrence of [b] after it (and there is no match when that [b] is
    missing, whatever follows); for "a, greedy group" it is everything
    after the first [a]. *)
Theorem re_search_equiv :
  (forall a b s, re_search (between a b) s = option_map Some (search_between a b s)) /\
  (forall a s, re_search (after a) s = option_map Some (search_after a s)).
Proof. split; [exact re_search_between | exact re_search_after]. Qed.

End Re.
