(* ===== verification/Fallback.v ===== *)
(** * Step 3 of the parser: the regex fallback pass (main.py 142-165)

    When the scan left both the summary and the reasoning at the sentinel,
    lines 144-162 search the whole reply for each heading marker up to the
    next one (case-insensitively, across lines) and overwrite a field only
    when its pattern matches.  [fallback_pass] runs the five searches in
    the code's order on [Re.re_search]; the [try/except Exception: pass] of
    lines 143-165 is not modelled because nothing in its body raises on a
    [str] argument. *)

From Stdlib Require Import String List Bool.
From stdpp Require Import base decidable.
From S2P Require Import Prelude PyStr Analysis Recommendation PyRegex.
Import ListNotations.
Local Open Scope string_scope.

Module Fallback.

(** [if m: parsed_data[key] = f(m.group(1))] *)
Definition store_match (m : option (option string)) (k : field_key)
    (f : string -> string) (a : analysis) : analysis :=
  match m with
  | Some (Some g) => set_field k (f g) a
  | _ => a
  end.

(** The trigger of line 142. *)
Definition needs_fallback (a : analysis) : bool :=
  (summary a =? not_available) && (reasoning a =? not_available).

(** Lines 144-162. *)
Definition fallback_pass (llm_text : string) (a : analysis) : analysis :=
  let a := store_match (Re.re_search (Re.between (marker "Summary") (marker "Key Requirements"))
                          llm_text) KSummary strip a in
  let a := store_match (Re.re_search (Re.between (marker "Key Requirements")
                                                 (marker "Potential Challenges")) llm_text)
                       KRequirements strip a in
  let a := store_match (Re.re_search (Re.between (marker "Potential Challenges")
                                                 (marker "Overall Recommendation")) llm_text)
                       KChallenges strip a in
  let a := store_match (Re.re_search (Re.between (marker "Overall Recommendation")
                                                 (marker "Reasoning for Recommendation")) llm_text)
                       KRecommendation Rec.fallback_recommendation a in
  store_match (Re.re_search (Re.after (marker "Reasoning for Recommendation")) llm_text)
              KReasoning strip a.

(** Every field of a record has no surrounding white space. *)
Definition stripped_record (a : analysis) : Prop :=
  forall k, strip (get_field k a) = get_field k a.

(** ** Lemmas *)

Lemma re_search_marker_absent (h : string) (p : Re.pattern) (s : string) :
  contains s "**" = false -> Re.re_search (Re.Lit (marker h) :: p) s = None.
Proof. intros H. unfold marker. now apply Re.re_search_no_star. Qed.

(** Without "**" in the reply the fallback pass changes nothing. *)
Lemma fallback_pass_no_markers (t : string) (a : analysis) :
  contains t "**" = false -> fallback_pass t a = a.
Proof.
  intros H. unfold fallback_pass, Re.between, Re.after.
  rewrite !re_search_marker_absent by exact H. reflexivity.
Qed.

Lemma store_match_stripped (m : option (option string)) (k : field_key)
    (f : string -> string) (a : analysis) :
  (forall g, strip (f g) = f g) -> stripped_record a -> stripped_record (store_match m k f a).
Proof.
  intros Hf Ha k'. destruct m as [[g|]|]; simpl; try apply Ha.
  rewrite get_set_field. destruct (decide (k' = k)); [apply Hf | apply Ha].
Qed.

Lemma fallback_recommendation_stripped (g : string) :
  strip (Rec.fallback_recommendation g) = Rec.fallback_recommendation g.
Proof.
  unfold Rec.fallback_recommendation.
  destruct (Rec.rec_keyword (upper (strip g))) as [v|] eqn:E; [|apply strip_idem].
  destruct (Rec.rec_keyword_canonical _ _ E) as [-> | [-> | ->]]; reflexivity.
Qed.

(** Every value the fallback pass stores is stripped. *)
Lemma fallback_pass_stripped (t : string) (a : analysis) :
  stripped_record a -> stripped_record (fallback_pass t a).
Proof.
  intros Ha. unfold fallback_pass.
  repeat apply store_match_stripped;
    try exact Ha; try apply strip_idem; apply fallback_recommendation_stripped.
Qed.

End Fallback.
