(* ===== verification/Parser.v ===== *)
(** * The response parser [parse_llm_response] (main.py 76-167)

    Step 0 (lines 84-89): an empty reply or one starting with "Error" is
    returned in the reasoning field of the default record.  Otherwise
    Step 1 scans [llm_text.splitlines()] ([Scan.scan_lines]), Step 2
    normalises the recommendation ([Rec.normalize_recommendation]) and
    Step 3 runs the regex pass ([Fallback.fallback_pass]) when the summary
    and the reasoning are both still the sentinel.  [finish] is Steps 2
    and 3, composed after the scan as in the code.

    [upper] is modelled on ASCII letters only.  The code uses [.upper()]
    only for substring tests against "GO", "NO-GO" and "UNCERTAIN"; no
    Latin-1 character outside a-z upper-cases to one of their letters, so
    the tests give the same answers as in CPython.  IGNORECASE matching of
    the ASCII heading markers is likewise exact on Latin-1 text. *)

From Stdlib Require Import String Ascii List Bool Arith Lia.
From stdpp Require Import base decidable.
From S2P Require Import Prelude PyStr Analysis LineScan Recommendation PyRegex Fallback.
Import ListNotations.
Local Open Scope string_scope.

(** Step 0: [parsed_data["reasoning"] = llm_text] on the default record. *)
Definition error_record (llm_text : string) : analysis :=
  set_field KReasoning llm_text initial_analysis.

(** Steps 2 and 3 on the scanned record (lines 123-165). *)
Definition finish (llm_text : string) (scanned : analysis) : analysis :=
  let a := set_field KRecommendation
             (Rec.normalize_recommendation (recommendation scanned)) scanned in
  if Fallback.needs_fallback a then Fallback.fallback_pass llm_text a else a.

(** [parse_llm_response(llm_text)] for a [str] argument. *)
Definition parse_llm_response (llm_text : string) : analysis :=
  if (llm_text =? "") || startswith llm_text "Error" then error_record llm_text
  else finish llm_text (Scan.scan_lines (splitlines llm_text)).

(** ** Replies in the template's shape *)

(** A section of a reply: the text after the heading marker on the
    heading's own line, and the lines under it. *)
Record section_text : Type := mk_section {
  st_first : string;
  st_body : list string
}.

Definition section_segment (k : field_key) (st : section_text) : Scan.segment :=
  Scan.mk_segment k (heading_of k) (marker (heading_of k) ++ st_first st) (st_body st).

(** A reply printed line by line: a preamble, then each section's heading
    line and body. *)
Definition render_reply (pre : list string) (secs : list (field_key * section_text)) : string :=
  concat_lines (Scan.unsegment pre (map (fun '(k, st) => section_segment k st) secs)).

(** What the parser makes of a section: each line stripped, the lines
    joined with "\n", the whole stripped. *)
Definition section_value (st : section_text) : string :=
  strip (String.concat newline (strip (st_first st) :: map strip (st_body st))).

Definition line_ok (l : string) : Prop := has_line_break l = false /\ Scan.not_heading l.

Definition section_wf (ks : field_key * section_text) : Prop :=
  has_line_break (st_first (snd ks)) = false /\
  contains (st_first (snd ks)) (marker (heading_of (fst ks))) = false /\
  Forall line_ok (st_body (snd ks)).

(** The preamble and the bodies hold no heading and no line break, no
    heading line repeats its own marker, and the reply does not open with
    "Error". *)
Definition reply_wf (pre : list string) (secs : list (field_key * section_text)) : Prop :=
  Forall line_ok pre /\ Forall section_wf secs /\
  match pre with [] => True | l :: _ => startswith l "Error" = false end.

Definition store_sections (secs : list (field_key * section_text)) (a : analysis) : analysis :=
  fold_left (fun a ks => set_field (fst ks) (section_value (snd ks)) a) secs a.

(** ** The replies of the repository's tests (src/tests/test_main.py) *)

Definition nl : string := newline.

Definition perfect_llm_response : string :=
  nl ++ "**Summary:**" ++ nl ++ "This is a test summary." ++ nl ++ nl ++
  "**Key Requirements:**" ++ nl ++ "- Requirement 1" ++ nl ++
  "- Requirement 2: Sub-requirement" ++ nl ++ nl ++
  "**Potential Challenges:**" ++ nl ++ "- Challenge A" ++ nl ++ "- Challenge B" ++ nl ++ nl ++
  "**Overall Recommendation:** GO" ++ nl ++ nl ++
  "**Reasoning for Recommendation:**" ++ nl ++ "The project aligns with our goals." ++ nl.

Definition missing_sections_response : string :=
  nl ++ "**Summary:**" ++ nl ++ "Only summary is available." ++ nl ++ nl ++
  "**Key Requirements:**" ++ nl ++ "- Req A" ++ nl.

(** The two test replies as a preamble and sections. *)
Definition perfect_sections : list (field_key * section_text) :=
  [(KSummary, mk_section "" ["This is a test summary."; ""]);
   (KRequirements, mk_section "" ["- Requirement 1"; "- Requirement 2: Sub-requirement"; ""]);
   (KChallenges, mk_section "" ["- Challenge A"; "- Challenge B"; ""]);
   (KRecommendation, mk_section " GO" [""]);
   (KReasoning, mk_section "" ["The project aligns with our goals."])].

Definition missing_sections : list (field_key * section_text) :=
  [(KSummary, mk_section "" ["Only summary is available."; ""]);
   (KRequirements, mk_section "" ["- Req A"])].

(** A reply whose headings all sit inside one paragraph. *)
Definition inline_reply : string :=
  "Analysis: **Summary:** A bridge. **Key Requirements:** steel **Potential Challenges:** " ++
  "winter **Overall Recommendation:** we would rather wait and see " ++
  "**Reasoning for Recommendation:** budget".

Example parse_perfect :
  parse_llm_response perfect_llm_response = {|
    summary := "This is a test summary.";
    requirements := "- Requirement 1" ++ nl ++ "- Requirement 2: Sub-requirement";
    challenges := "- Challenge A" ++ nl ++ "- Challenge B";
    recommendation := "GO";
    reasoning := "The project aligns with our goals." |}.
Proof. vm_compute. reflexivity. Qed.

Example parse_missing_sections :
  parse_llm_response missing_sections_response = {|
    summary := "Only summary is available.";
    requirements := "- Req A";
    challenges := not_available;
    recommendation := "UNCERTAIN";
    reasoning := not_available |}.
Proof. vm_compute. reflexivity. Qed.

Example parse_recommendations :
  recommendation (parse_llm_response "**Overall Recommendation:** GO") = "GO" /\
  recommendation (parse_llm_response "**Overall Recommendation:** NO-GO") = "NO-GO" /\
  recommendation (parse_llm_response "**Overall Recommendation:** UNCERTAIN") = "UNCERTAIN" /\
  recommendation (parse_llm_response "**Overall Recommendation:** Go for it") = "GO".
Proof. vm_compute. repeat split. Qed.

Example parse_unstructured_test :
  parse_llm_response "This is just some random text from the LLM." = initial_analysis.
Proof. vm_compute. reflexivity. Qed.

Example parse_error_test :
  parse_llm_response "Error: API connection failed." =
  error_record "Error: API connection failed.".
Proof. vm_compute. reflexivity. Qed.

(** [line.replace(marker, "")] removes every copy of the marker on a
    heading line, not only the leading one. *)
Example parse_repeated_marker :
  summary (parse_llm_response ("**Summary:** see **Summary:** above" ++ nl ++
                               "**Reasoning for Recommendation:** ok")) = "see  above".
Proof. vm_compute. reflexivity. Qed.

(** A heading with nothing after it stores the empty string, not the
    sentinel. *)
Example parse_empty_section :
  summary (parse_llm_response ("**Summary:**" ++ nl ++
                               "**Reasoning for Recommendation:** ok")) = "".
Proof. vm_compute. reflexivity. Qed.

(** ** Lemmas *)

Ltac solve_wf :=
  unfold reply_wf, section_wf, line_ok, Scan.not_heading; simpl;
  repeat first [reflexivity | constructor | split].

Lemma marker_solid (k : field_key) : solid (marker (heading_of k)).
Proof. destruct k; (split; [discriminate | split; reflexivity]). Qed.

Lemma find_heading_marker (k : field_key) (x : string) :
  Scan.find_heading (marker (heading_of k) ++ x) = Some (heading_of k, k).
Proof.
  unfold Scan.find_heading. rewrite strip_solid_app by apply marker_solid.
  destruct k; reflexivity.
Qed.

Lemma seg_value_section (k : field_key) (st : section_text) :
  contains (st_first st) (marker (heading_of k)) = false ->
  Scan.seg_value (section_segment k st) = section_value st.
Proof.
  intros H. unfold Scan.seg_value, Scan.seg_buffer, section_segment, section_value.
  cbn [Scan.seg_line Scan.seg_heading Scan.seg_body].
  rewrite py_replace_prefix by (destruct k; discriminate).
  rewrite py_replace_absent by (exact H || (destruct k; discriminate)).
  reflexivity.
Qed.

Lemma render_lines_ok (pre : list string) (secs : list (field_key * section_text)) :
  reply_wf pre secs ->
  Forall (fun l => has_line_break l = false)
         (Scan.unsegment pre (map (fun '(k, st) => section_segment k st) secs)).
Proof.
  intros (Hpre & Hsecs & _). unfold Scan.unsegment. apply Forall_app. split.
  - eapply Forall_impl; [|exact Hpre]. now intros l [? _].
  - apply Forall_concat. rewrite map_map. apply Forall_map.
    eapply Forall_impl; [|exact Hsecs]. intros [k st] (H1 & _ & H3).
    unfold section_segment. cbn [Scan.seg_line Scan.seg_body fst snd] in *.
    constructor.
    + rewrite has_line_break_app, H1. now destruct k.
    + eapply Forall_impl; [|exact H3]. now intros l [? _].
Qed.

Lemma render_segments_wf (secs : list (field_key * section_text)) :
  Forall section_wf secs ->
  Forall Scan.seg_wf (map (fun '(k, st) => section_segment k st) secs).
Proof.
  intros H. apply Forall_map. eapply Forall_impl; [|exact H].
  intros [k st] (_ & _ & H3). split; [apply find_heading_marker|].
  eapply Forall_impl; [|exact H3]. now intros l [_ ?].
Qed.

Lemma render_guard (pre : list string) (secs : list (field_key * section_text)) :
  reply_wf pre secs -> secs <> [] ->
  ((render_reply pre secs =? "") || startswith (render_reply pre secs) "Error") = false.
Proof.
  intros (_ & _ & Hpre) Hne. unfold render_reply.
  assert (exists l ls, Scan.unsegment pre (map (fun '(k, st) => section_segment k st) secs)
                       = l :: ls /\ startswith l "Error" = false) as (l & ls & -> & Hl).
  { destruct pre as [|l pre].
    - destruct secs as [|[k st] secs]; [contradiction|].
      eexists _, _. split; [reflexivity|]. destruct k; reflexivity.
    - eexists _, _. split; [reflexivity | exact Hpre]. }
  rewrite concat_lines_nonempty, orb_false_l.
  destruct (startswith (concat_lines (l :: ls)) "Error") eqn:E; [|reflexivity].
  change (concat_lines (l :: ls)) with (l ++ String "010"%char (concat_lines ls)) in E.
  apply startswith_line in E; [congruence | reflexivity].
Qed.

Lemma store_segments_sections (secs : list (field_key * section_text)) (a : analysis) :
  Forall section_wf secs ->
  Scan.store_segments (map (fun '(k, st) => section_segment k st) secs) a =
  store_sections secs a.
Proof.
  intros H. revert a. induction H as [|[k st] secs (_ & Hc & _) _ IH]; intros a; [reflexivity|].
  simpl. rewrite <- IH. unfold Scan.store_segments at 1. simpl.
  rewrite seg_value_section by exact Hc. reflexivity.
Qed.

(** The scan of a well-formed reply stores each section's value. *)
Lemma parse_rendered (pre : list string) (secs : list (field_key * section_text)) :
  reply_wf pre secs -> secs <> [] ->
  parse_llm_response (render_reply pre secs) =
  finish (render_reply pre secs) (store_sections secs initial_analysis).
Proof.
  intros Hwf Hne. unfold parse_llm_response. rewrite render_guard by assumption.
  f_equal. unfold render_reply.
  rewrite splitlines_concat_lines by (apply render_lines_ok; exact Hwf).
  destruct Hwf as (Hpre & Hsecs & _).
  unfold Scan.scan_lines. rewrite Scan.flush_fold_segments.
  rewrite Scan.segments_unsegment.
  - simpl. now apply store_segments_sections.
  - eapply Forall_impl; [|exact Hpre]. now intros l [_ ?].
  - now apply render_segments_wf.
Qed.

Example perfect_rendered : render_reply [""] perfect_sections = perfect_llm_response.
Proof. vm_compute. reflexivity. Qed.

Example missing_rendered : render_reply [""] missing_sections = missing_sections_response.
Proof. vm_compute. reflexivity. Qed.

(** ** Theorems *)

(** C1 (roundtrip). A reply in the template's shape (a preamble, then
    the five headings in order, each followed by its body, line breaks
    only between lines, no heading inside a body) parses back to its
    sections: each field is its section's lines, stripped, joined with
    "\n" and stripped, and the recommendation is that value normalised.
    The summary must not be the sentinel text itself, else the fallback
    pass runs. *)
Theorem parse_llm_response_roundtrip (pre : list string) (s1 s2 s3 s4 s5 : section_text) :
  reply_wf pre [(KSummary, s1); (KRequirements, s2); (KChallenges, s3);
                (KRecommendation, s4); (KReasoning, s5)] ->
  section_value s1 <> not_available ->
  parse_llm_response (render_reply pre [(KSummary, s1); (KRequirements, s2); (KChallenges, s3);
                                        (KRecommendation, s4); (KReasoning, s5)]) =
  {| summary := section_value s1; requirements := section_value s2;
     challenges := section_value s3;
     recommendation := Rec.normalize_recommendation (section_value s4);
     reasoning := section_value s5 |}.
Proof.
  intros Hwf Hne. rewrite parse_rendered by (assumption || discriminate).
  unfold finish, Fallback.needs_fallback, store_sections.
  cbn [fold_left fst snd set_field summary reasoning recommendation requirements challenges].
  destruct (String.eqb_spec (section_value s1) not_available); [contradiction | reflexivity].
Qed.

Lemma parse_llm_response_roundtrip_witness :
  parse_llm_response perfect_llm_response =
  {| summary := section_value (mk_section "" ["This is a test summary."; ""]);
     requirements := section_value (mk_section "" ["- Requirement 1";
                                                   "- Requirement 2: Sub-requirement"; ""]);
     challenges := section_value (mk_section "" ["- Challenge A"; "- Challenge B"; ""]);
     recommendation := Rec.normalize_recommendation (section_value (mk_section " GO" [""]));
     reasoning := section_value (mk_section "" ["The project aligns with our goals."]) |}.
Proof.
  rewrite <- perfect_rendered.
  apply parse_llm_response_roundtrip; [solve_wf | vm_compute; discriminate].
Defined.

(** C2 (error). An empty reply, or one that starts with "Error" (the
    messages of [get_llm_analysis] and [extract_text_from_file]), is not
    parsed: the result is the default record with the reply itself as the
    reasoning.  The recommendation is "UNCERTAIN", not the sentinel the
    spec gives for every field but the reasoning. *)
Theorem parse_llm_response_error (t : string) :
  t = "" \/ startswith t "Error" = true ->
  parse_llm_response t =
  {| summary := not_available; requirements := not_available; challenges := not_available;
     recommendation := "UNCERTAIN"; reasoning := t |}.
Proof.
  intros H. unfold parse_llm_response.
  replace ((t =? "") || startswith t "Error") with true; [reflexivity|].
  destruct H as [-> | ->]; [reflexivity | symmetry; apply orb_true_r].
Qed.

Lemma parse_llm_response_error_witness :
  parse_llm_response "Error interacting with OpenAI API: API Down" =
  {| summary := not_available; requirements := not_available; challenges := not_available;
     recommendation := "UNCERTAIN"; reasoning := "Error interacting with OpenAI API: API Down" |}
  /\ parse_llm_response "" =
  {| summary := not_available; requirements := not_available; challenges := not_available;
     recommendation := "UNCERTAIN"; reasoning := "" |}.
Proof.
  split; apply parse_llm_response_error; [right; reflexivity | left; reflexivity].
Defined.

(** C20 (functional). A reply with only the Summary and Key Requirements
    sections gets those two values and leaves the challenges and the
    reasoning at the sentinel and the recommendation at "UNCERTAIN". *)
Theorem parse_llm_response_partial (pre : list string) (s1 s2 : section_text) :
  reply_wf pre [(KSummary, s1); (KRequirements, s2)] ->
  section_value s1 <> not_available ->
  parse_llm_response (render_reply pre [(KSummary, s1); (KRequirements, s2)]) =
  {| summary := section_value s1; requirements := section_value s2;
     challenges := not_available; recommendation := "UNCERTAIN";
     reasoning := not_available |}.
Proof.
  intros Hwf Hne. rewrite parse_rendered by (assumption || discriminate).
  unfold finish, Fallback.needs_fallback, store_sections.
  cbn [fold_left fst snd set_field summary reasoning recommendation requirements challenges].
  destruct (String.eqb_spec (section_value s1) not_available); [contradiction | reflexivity].
Qed.

Lemma parse_llm_response_partial_witness :
  parse_llm_response missing_sections_response =
  {| summary := section_value (mk_section "" ["Only summary is available."; ""]);
     requirements := section_value (mk_section "" ["- Req A"]);
     challenges := not_available; recommendation := "UNCERTAIN";
     reasoning := not_available |}.
Proof.
  rewrite <- missing_rendered.
  apply parse_llm_response_partial; [solve_wf | vm_compute; discriminate].
Defined.

(** ** Replies without headings at line starts *)

Lemma parse_guard_false (t : string) :
  t <> "" -> startswith t "Error" = false -> ((t =? "") || startswith t "Error") = false.
Proof.
  intros H1 H2. rewrite H2, orb_false_r. now apply String.eqb_neq.
Qed.

Lemma finish_initial (t : string) :
  finish t initial_analysis = Fallback.fallback_pass t initial_analysis.
Proof. reflexivity. Qed.

Lemma find_heading_star (l : string) (p : string * field_key) :
  Scan.find_heading l = Some p -> contains l "**" = true.
Proof.
  unfold Scan.find_heading. intros H. apply first_some_Some in H as (l1 & [h k] & l2 & _ & _ & Hx).
  destruct (startswith (strip l) (marker (fst (h, k)))) eqn:E; [|discriminate].
  apply contains_strip. apply startswith_spec in E as [r ->].
  unfold marker. apply startswith_contains. reflexivity.
Qed.

Example inline_reply_parsed :
  parse_llm_response inline_reply = {|
    summary := "A bridge."; requirements := "steel"; challenges := "winter";
    recommendation := "we would rather wait and see"; reasoning := "budget" |}.
Proof. vm_compute. reflexivity. Qed.

(** When no line of the reply starts with a heading
    marker, the scan finds nothing and the regex pass alone decides every
    field, starting from the default record. *)
Theorem parse_llm_response_no_headings (t : string) :
  t <> "" -> startswith t "Error" = false -> Forall Scan.not_heading (splitlines t) ->
  parse_llm_response t = Fallback.fallback_pass t initial_analysis.
Proof.
  intros H1 H2 H3. unfold parse_llm_response. rewrite parse_guard_false by assumption.
  rewrite Scan.scan_lines_no_headings by exact H3. apply finish_initial.
Qed.

Lemma parse_llm_response_no_headings_witness :
  parse_llm_response inline_reply = Fallback.fallback_pass inline_reply initial_analysis.
Proof.
  apply parse_llm_response_no_headings; [discriminate | reflexivity |].
  vm_compute. repeat constructor.
Defined.

(** A reply with no "**" anywhere (no heading, inline
    or not, in any case) gives the default record: the sentinel in four
    fields and "UNCERTAIN" as the recommendation. *)
Theorem parse_llm_response_unstructured (t : string) :
  t <> "" -> startswith t "Error" = false -> contains t "**" = false ->
  parse_llm_response t = initial_analysis.
Proof.
  intros H1 H2 H3. unfold parse_llm_response. rewrite parse_guard_false by assumption.
  rewrite Scan.scan_lines_no_headings.
  - rewrite finish_initial. now apply Fallback.fallback_pass_no_markers.
  - apply Forall_forall. intros l Hl. unfold Scan.not_heading.
    destruct (Scan.find_heading l) as [p|] eqn:E; [|reflexivity].
    apply find_heading_star in E. apply splitlines_substring in Hl.
    pose proof (contains_trans _ _ _ Hl E). congruence.
Qed.

Lemma parse_llm_response_unstructured_witness :
  parse_llm_response "This is just some random text from the LLM." = initial_analysis.
Proof. apply parse_llm_response_unstructured; [discriminate | reflexivity | reflexivity]. Defined.

(** C23 (functional). On the fallback path the recommendation is the
    regex group, stripped, run through the keyword tests only: "GO",
    "NO-GO" or "UNCERTAIN" when its upper case holds that keyword, and
    otherwise the stripped group itself whatever its number of words,
    where Step 2 would turn a text of four or more words into
    "UNCERTAIN". *)
Theorem parse_fallback_recommendation (t g : string) :
  t <> "" -> startswith t "Error" = false -> Forall Scan.not_heading (splitlines t) ->
  Re.re_search (Re.between (marker "Overall Recommendation")
                           (marker "Reasoning for Recommendation")) t = Some (Some g) ->
  recommendation (parse_llm_response t) =
    match Rec.rec_keyword (upper (strip g)) with Some v => v | None => strip g end.
Proof.
  intros H1 H2 H3 H4. unfold parse_llm_response. rewrite parse_guard_false by assumption.
  rewrite Scan.scan_lines_no_headings by exact H3. rewrite finish_initial.
  unfold Fallback.fallback_pass. rewrite H4.
  destruct (Re.re_search (Re.after _) t) as [[g'|]|]; reflexivity.
Qed.

Lemma parse_fallback_recommendation_witness :
  recommendation (parse_llm_response inline_reply) = "we would rather wait and see".
Proof.
  rewrite (parse_fallback_recommendation inline_reply " we would rather wait and see ");
    [vm_compute; reflexivity | discriminate | reflexivity | vm_compute; repeat constructor
    | reflexivity].
Defined.

(** C33 (invariant). Every field of a parsed reply (one that is neither
    empty nor an error message) has no leading or trailing white space:
    each stored value passes through [strip], and the defaults and the
    three keywords are stripped. *)
Theorem parse_llm_response_stripped (t : string) :
  t <> "" -> startswith t "Error" = false ->
  forall k, strip (get_field k (parse_llm_response t)) = get_field k (parse_llm_response t).
Proof.
  intros H1 H2. unfold parse_llm_response. rewrite parse_guard_false by assumption.
  unfold finish. set (a := Scan.scan_lines (splitlines t)).
  assert (Ha : Fallback.stripped_record
                 (set_field KRecommendation (Rec.normalize_recommendation (recommendation a)) a)).
  { intros k. rewrite get_set_field. destruct (decide (k = KRecommendation)) as [->|_].
    - apply Rec.normalize_stripped, (Scan.scan_lines_stripped _ KRecommendation).
    - apply Scan.scan_lines_stripped. }
  destruct (Fallback.needs_fallback _); [apply Fallback.fallback_pass_stripped|]; exact Ha.
Qed.

Lemma parse_llm_response_stripped_witness :
  strip (get_field KChallenges (parse_llm_response perfect_llm_response)) =
  get_field KChallenges (parse_llm_response perfect_llm_response).
Proof. apply parse_llm_response_stripped; [discriminate | reflexivity]. Defined.
