(* ===== verification/Extractor.v ===== *)
(** * The text extractor [extract_text_from_file] (main.py 169-190)

    The extension is [os.path.splitext(filepath)[1].lower()] ([splitext]
    follows CPython's [posixpath.splitext]: the last dot after the last
    slash, unless the base name is only dots before it).  A ".txt" file is
    read in text mode, which translates "\r\n" and "\r" to "\n"; a ".pdf"
    file is opened and each page's [extract_text()] appended when it is
    truthy; a ".docx" file contributes each paragraph followed by "\n"; any
    other extension gives "".  An exception of any call becomes
    "Error extracting text: " followed by its message.

    The files live in [store], a map from paths to [file_data]: what the
    UTF-8 decoder, PyPDF2 and python-docx make of the file's bytes.  The
    libraries themselves are not modelled; their results are data of the
    file.  A missing path raises the [FileNotFoundError] of [open] (or
    python-docx's [PackageNotFoundError]) with its CPython message. *)

From Stdlib Require Import String Ascii List Bool Arith Lia.
From stdpp Require Import base decidable gmap strings.
From S2P Require Import Prelude PyStr.
Import ListNotations.
Local Open Scope string_scope.

Module Extract.

(** What each decoder makes of a stored file. *)
Record file_data : Type := mk_file {
  fd_text : outcome string;                          (** [open(p, 'r', encoding='utf-8').read()] before newline translation *)
  fd_pdf : outcome (list (outcome (option string))); (** [PdfReader(f).pages], each page's [extract_text()] *)
  fd_docx : outcome (list string)                    (** [docx.Document(p).paragraphs], each [para.text] *)
}.

(** The files on disk, by path. *)
Abbreviation store := (gmap string file_data).

Definition enoent (path : string) : string :=
  "[Errno 2] No such file or directory: '" ++ path ++ "'".

Definition docx_not_found (path : string) : string :=
  "Package not found at '" ++ path ++ "'".

(** ** [os.path.splitext] *)

Fixpoint rfind_aux (c : ascii) (s : string) (i : nat) (acc : option nat) : option nat :=
  match s with
  | EmptyString => acc
  | String d r => rfind_aux c r (S i) (if Ascii.eqb c d then Some i else acc)
  end.

(** [s.rfind(c)], [None] for -1. *)
Definition rfind (c : ascii) (s : string) : option nat := rfind_aux c s 0 None.

Fixpoint all_dots (s : string) : bool :=
  match s with
  | EmptyString => true
  | String c r => Ascii.eqb c "." && all_dots r
  end.

(** [genericpath._splitext(p, '/', None, '.')] *)
Definition splitext (p : string) : string * string :=
  match rfind "." p with
  | None => (p, "")
  | Some dot =>
      let start := match rfind "/" p with None => 0 | Some i => S i end in
      if (start <=? dot)%nat && negb (all_dots (substring start (dot - start) p))
      then (substring 0 dot p, substring dot (String.length p - dot) p)
      else (p, "")
  end.

(** ** Reading the three formats *)

(** Universal newlines of text mode: "\r\n" and "\r" become "\n". *)
Fixpoint translate_newlines (s : string) : string :=
  match s with
  | EmptyString => EmptyString
  | String c r =>
      if Ascii.eqb c "013" then
        match r with
        | String d r' =>
            if Ascii.eqb d "010" then String "010" (translate_newlines r')
            else String "010" (translate_newlines r)
        | EmptyString => String "010" EmptyString
        end
      else String c (translate_newlines r)
  end.

Definition read_txt (fs : store) (path : string) : outcome string :=
  match fs !! path with
  | None => Raise (enoent path)
  | Some f => match fd_text f with Ok t => Ok (translate_newlines t) | Raise e => Raise e end
  end.

(** [for page ...: page_text = ...extract_text(); if page_text: text += page_text] *)
Fixpoint concat_pages (pages : list (outcome (option string))) (acc : string) : outcome string :=
  match pages with
  | [] => Ok acc
  | Raise e :: _ => Raise e
  | Ok (Some t) :: ps => concat_pages ps (if t =? "" then acc else acc ++ t)
  | Ok None :: ps => concat_pages ps acc
  end.

Definition read_pdf (fs : store) (path : string) : outcome string :=
  match fs !! path with
  | None => Raise (enoent path)
  | Some f => match fd_pdf f with Ok pages => concat_pages pages "" | Raise e => Raise e end
  end.

(** [for para in doc.paragraphs: text += para.text + '\n'] *)
Fixpoint concat_paragraphs (paras : list string) (acc : string) : string :=
  match paras with
  | [] => acc
  | p :: ps => concat_paragraphs ps (acc ++ (p ++ newline))
  end.

Definition read_docx (fs : store) (path : string) : outcome string :=
  match fs !! path with
  | None => Raise (docx_not_found path)
  | Some f => match fd_docx f with Ok ps => Ok (concat_paragraphs ps "") | Raise e => Raise e end
  end.

(** The [if/elif] on the extension, inside the [try]. *)
Definition extract_branch (fs : store) (path ext : string) : outcome string :=
  if ext =? ".txt" then read_txt fs path
  else if ext =? ".pdf" then read_pdf fs path
  else if ext =? ".docx" then read_docx fs path
  else Ok "".

Definition extraction_error_prefix : string := "Error extracting text: ".

(** [extract_text_from_file(filepath)] *)
Definition extract_text_from_file (fs : store) (filepath : string) : string :=
  match extract_branch fs filepath (lower (snd (splitext filepath))) with
  | Ok text => text
  | Raise e => extraction_error_prefix ++ e
  end.

Fixpoint has_cr (s : string) : bool :=
  match s with
  | EmptyString => false
  | String c r => Ascii.eqb c "013" || has_cr r
  end.

(** The text of the pages that succeed, in order. *)
Definition pages_text (pages : list (option string)) : string :=
  fold_right (fun o acc => match o with Some t => t | None => "" end ++ acc) "" pages.

Definition crlf_store : store :=
  <["notes.TXT" := mk_file (Ok ("a" ++ String "013" (String "010" "b"))) (Raise "not a PDF")
                           (Raise "not a docx")]> ∅.

(** ** The repository's tests (src/tests/test_main.py) *)

Definition sample_store : store :=
  <["tests/sample_files/sample.txt" :=
      mk_file (Ok ("This is a test TXT file." ++ newline)) (Raise "not a PDF") (Raise "not a docx")]>
  (<["tests/sample_files/sample.pdf" := mk_file (Raise "binary") (Ok []) (Raise "not a docx")]>
  (<["tests/sample_files/sample.docx" := mk_file (Raise "binary") (Raise "not a PDF") (Ok [])]>
   ∅)).

Example extract_txt_test :
  extract_text_from_file sample_store "tests/sample_files/sample.txt" =
  "This is a test TXT file." ++ newline.
Proof. reflexivity. Qed.

Example extract_pdf_docx_mocked_test :
  extract_text_from_file sample_store "tests/sample_files/sample.pdf" = "" /\
  extract_text_from_file sample_store "tests/sample_files/sample.docx" = "".
Proof. split; reflexivity. Qed.

Example extract_non_existent_test :
  extract_text_from_file sample_store "tests/sample_files/non_existent_file.txt" =
  "Error extracting text: [Errno 2] No such file or directory: " ++
  "'tests/sample_files/non_existent_file.txt'".
Proof. reflexivity. Qed.

Example extract_unsupported_test :
  extract_text_from_file sample_store "tests/sample_files/sample.jpg" = "".
Proof. reflexivity. Qed.

Example splitext_examples :
  splitext "a/b.tar.gz" = ("a/b.tar", ".gz") /\ splitext "dir.d/.bashrc" = ("dir.d/.bashrc", "") /\
  splitext "..x" = ("..x", "") /\ splitext "REPORT.TXT" = ("REPORT", ".TXT") /\
  splitext "noext" = ("noext", "") /\ splitext "a." = ("a", ".").
Proof. repeat split; reflexivity. Qed.

(** ** Lemmas *)

Lemma concat_paragraphs_spec (paras : list string) (acc : string) :
  concat_paragraphs paras acc = acc ++ concat_lines paras.
Proof.
  revert acc. induction paras as [|p ps IH]; intros acc; simpl; [now rewrite append_nil_r|].
  rewrite IH, <- !append_assoc. reflexivity.
Qed.

Lemma concat_pages_ok (pages : list (option string)) (acc : string) :
  concat_pages (map Ok pages) acc = Ok (acc ++ pages_text pages).
Proof.
  revert acc. induction pages as [|[t|] ps IH]; intros acc; simpl.
  - now rewrite append_nil_r.
  - rewrite IH, append_assoc.
    destruct (String.eqb_spec t ""); [subst; now rewrite append_nil_r | reflexivity].
  - rewrite IH. reflexivity.
Qed.

Lemma concat_pages_raise (pages : list (option string)) (e : string)
    (rest : list (outcome (option string))) (acc : string) :
  concat_pages (map Ok pages ++ Raise e :: rest)%list acc = Raise e.
Proof.
  revert acc. induction pages as [|[t|] ps IH]; intros acc; simpl; try reflexivity; apply IH.
Qed.

Lemma contains_cr (s : string) : contains s (String "013" "") = has_cr s.
Proof.
  induction s as [|c r IH]; [reflexivity|]. cbn [contains startswith has_cr].
  rewrite IH, andb_true_r, Ascii.eqb_sym. reflexivity.
Qed.

Lemma translate_newlines_cr_free (t : string) : has_cr (translate_newlines t) = false.
Proof.
  induction t as [|c r IH]; [reflexivity|]. cbn [translate_newlines].
  destruct (Ascii.eqb c "013") eqn:Ec.
  - destruct r as [|d r']; [reflexivity|].
    destruct (Ascii.eqb d "010") eqn:Ed; [|exact IH].
    apply Ascii.eqb_eq in Ed. subst d. exact IH.
  - cbn [has_cr]. rewrite Ec. exact IH.
Qed.

Lemma translate_newlines_no_cr (t : string) : has_cr t = false -> translate_newlines t = t.
Proof.
  induction t as [|c r IH]; [reflexivity|]. cbn [has_cr translate_newlines].
  intros H. apply orb_false_iff in H as [Hc Hr]. rewrite Hc, IH by exact Hr. reflexivity.
Qed.

Lemma rfind_aux_bound (c : ascii) (s : string) (k i : nat) (acc : option nat) :
  rfind_aux c s k acc = Some i -> acc = Some i \/ (k <= i < k + String.length s)%nat.
Proof.
  revert k acc. induction s as [|d r IH]; intros k acc H; simpl in *; [now left|].
  apply IH in H as [H|H]; [|right; lia].
  destruct (Ascii.eqb c d); [right; injection H; lia | now left].
Qed.

Lemma rfind_bound (c : ascii) (s : string) (i : nat) :
  rfind c s = Some i -> (i < String.length s)%nat.
Proof. intros H. apply rfind_aux_bound in H as [H|H]; [discriminate | lia]. Qed.

Lemma substring_full (s : string) : substring 0 (String.length s) s = s.
Proof. induction s as [|c r IH]; simpl; [reflexivity | now rewrite IH]. Qed.

Lemma substring_split (s : string) (n : nat) :
  (n <= String.length s)%nat ->
  substring 0 n s ++ substring n (String.length s - n) s = s.
Proof.
  revert n. induction s as [|c r IH]; intros n Hn; simpl in *.
  - destruct n; reflexivity.
  - destruct n as [|n]; simpl.
    + now rewrite substring_full.
    + rewrite append_cons, IH by lia. reflexivity.
Qed.

Lemma extract_ext (fs : store) (p ext : string) :
  lower (snd (splitext p)) = ext ->
  extract_text_from_file fs p =
  match extract_branch fs p ext with Ok t => t | Raise e => extraction_error_prefix ++ e end.
Proof. intros <-. reflexivity. Qed.

(** Extraction reads the store only at the path it is given. *)
Lemma extract_text_lookup (fs1 fs2 : store) (p : string) :
  fs1 !! p = fs2 !! p -> extract_text_from_file fs1 p = extract_text_from_file fs2 p.
Proof.
  intros E. unfold extract_text_from_file, extract_branch, read_txt, read_pdf, read_docx.
  now rewrite E.
Qed.

(** ** Theorems *)

(** A file whose extension, lower-cased, is none of
    ".txt", ".pdf" and ".docx" yields the empty text, with no error and
    whatever the store holds: the permissive default of the code. *)
Theorem extract_unsupported (fs : store) (p : string) :
  lower (snd (splitext p)) <> ".txt" -> lower (snd (splitext p)) <> ".pdf" ->
  lower (snd (splitext p)) <> ".docx" ->
  extract_text_from_file fs p = "".
Proof.
  intros H1 H2 H3. unfold extract_text_from_file, extract_branch.
  destruct (String.eqb_spec (lower (snd (splitext p))) ".txt"); [contradiction|].
  destruct (String.eqb_spec (lower (snd (splitext p))) ".pdf"); [contradiction|].
  destruct (String.eqb_spec (lower (snd (splitext p))) ".docx"); [contradiction|].
  reflexivity.
Qed.

Lemma extract_unsupported_witness :
  extract_text_from_file ∅ "scans/photo.JPG" = "".
Proof. apply extract_unsupported; discriminate. Defined.

(** C32 (error). A ".txt" or ".pdf" path (in any case) that is not in the
    store yields "Error extracting text: " followed by the message of the
    [FileNotFoundError] raised by [open]. *)
Theorem extract_missing_file (fs : store) (p : string) :
  fs !! p = None ->
  lower (snd (splitext p)) = ".txt" \/ lower (snd (splitext p)) = ".pdf" ->
  extract_text_from_file fs p =
  "Error extracting text: [Errno 2] No such file or directory: '" ++ p ++ "'".
Proof.
  intros Hp [He|He]; rewrite (extract_ext fs p _ He); cbn;
    unfold read_txt, read_pdf; now rewrite Hp.
Qed.

Lemma extract_missing_file_witness :
  extract_text_from_file ∅ "uploads/Tender.PDF" =
  "Error extracting text: [Errno 2] No such file or directory: '" ++ "uploads/Tender.PDF" ++ "'".
Proof. apply extract_missing_file; [reflexivity | right; reflexivity]. Defined.

(** C18 (functional). A stored ".txt" file yields its decoded text with
    universal newlines applied; a text without "\r" comes back unchanged,
    and no "\r" survives.  The spec's "line breaks preserved exactly" holds
    only for files without carriage returns. *)
Theorem extract_txt (fs : store) (p t : string) (f : file_data) :
  lower (snd (splitext p)) = ".txt" -> fs !! p = Some f -> fd_text f = Ok t ->
  extract_text_from_file fs p = translate_newlines t /\
  (contains t (String "013" "") = false -> extract_text_from_file fs p = t) /\
  contains (extract_text_from_file fs p) (String "013" "") = false.
Proof.
  intros He Hp Ht. rewrite (extract_ext fs p _ He). cbn. unfold read_txt.
  rewrite Hp, Ht, !contains_cr. split; [reflexivity | split].
  - apply translate_newlines_no_cr.
  - apply translate_newlines_cr_free.
Qed.

Lemma extract_txt_witness :
  extract_text_from_file crlf_store "notes.TXT" =
    translate_newlines ("a" ++ String "013" (String "010" "b")) /\
  (contains ("a" ++ String "013" (String "010" "b")) (String "013" "") = false ->
   extract_text_from_file crlf_store "notes.TXT" = "a" ++ String "013" (String "010" "b")) /\
  contains (extract_text_from_file crlf_store "notes.TXT") (String "013" "") = false.
Proof. eapply extract_txt; reflexivity. Defined.

(** C19 (functional). A stored ".pdf" file yields the concatenation, in
    page order, of the pages' extracted texts, empty or [None] pages
    contributing nothing; when a page raises, the text gathered so far is
    dropped and the result is the error message of that page. *)
Theorem extract_pdf (fs : store) (p : string) (f : file_data) (ok : list (option string)) :
  lower (snd (splitext p)) = ".pdf" -> fs !! p = Some f ->
  (fd_pdf f = Ok (map Ok ok) -> extract_text_from_file fs p = pages_text ok) /\
  (forall e rest, fd_pdf f = Ok ((map Ok ok ++ Raise e :: rest)%list) ->
     extract_text_from_file fs p = extraction_error_prefix ++ e).
Proof.
  intros He Hp. rewrite (extract_ext fs p _ He). cbn. unfold read_pdf. rewrite Hp. split.
  - intros ->. now rewrite concat_pages_ok.
  - intros e rest ->. now rewrite concat_pages_raise.
Qed.

Lemma extract_pdf_witness :
  let f := mk_file (Raise "binary") (Ok [Ok (Some "p1 "); Ok None; Ok (Some ""); Ok (Some "p4")])
                   (Raise "not a docx") in
  (fd_pdf f = Ok (map Ok [Some "p1 "; None; Some ""; Some "p4"]) ->
   extract_text_from_file (<["t.pdf" := f]> ∅) "t.pdf" = pages_text [Some "p1 "; None; Some ""; Some "p4"])
  /\
  (forall e rest, fd_pdf f = Ok ((map Ok [Some "p1 "; None; Some ""; Some "p4"] ++ Raise e :: rest)%list) ->
   extract_text_from_file (<["t.pdf" := f]> ∅) "t.pdf" = extraction_error_prefix ++ e).
Proof. intros f. apply extract_pdf; reflexivity. Defined.

(** C31 (functional). A stored ".docx" file yields each paragraph's text
    followed by "\n", in document order. *)
Theorem extract_docx (fs : store) (p : string) (f : file_data) (paras : list string) :
  lower (snd (splitext p)) = ".docx" -> fs !! p = Some f -> fd_docx f = Ok paras ->
  extract_text_from_file fs p = concat_lines paras.
Proof.
  intros He Hp Hd. rewrite (extract_ext fs p _ He). cbn. unfold read_docx.
  rewrite Hp, Hd, concat_paragraphs_spec. reflexivity.
Qed.

Lemma extract_docx_witness :
  extract_text_from_file
    (<["bid.docx" := mk_file (Raise "binary") (Raise "not a PDF") (Ok ["Scope"; ""; "Budget"])]> ∅)
    "bid.docx" = concat_lines ["Scope"; ""; "Budget"].
Proof. eapply extract_docx; reflexivity. Defined.

(** [os.path.splitext] splits a path into a root and an
    extension whose concatenation is the path. *)
Theorem splitext_roundtrip (p : string) : fst (splitext p) ++ snd (splitext p) = p.
Proof.
  unfold splitext. destruct (rfind "." p) as [dot|] eqn:E; [|apply append_nil_r].
  destruct (_ && _); [|apply append_nil_r]. simpl.
  apply substring_split. apply rfind_bound in E. lia.
Qed.

End Extract.
