(* ===== verification/LLMClient.v ===== *)
(** * The LLM client [get_llm_analysis] (main.py 28-74)

    An empty key returns "Error: OpenAI API Key is missing." at once.
    Otherwise the function sets the [openai] module's global [api_key],
    builds the prompt (an f-string embedding the document text between two
    "---" lines), calls [openai.ChatCompletion.create] and returns the
    first choice's content stripped; any exception becomes
    "Error interacting with OpenAI API: " followed by its message.

    The completion service is the class [ChatService]: a function from a
    request (the module key at the time of the call, the model and the
    messages) to the choices' contents or an exception.  The client's
    state is the module key and the log of requests sent; the code runs in
    the [pyst] monad of the prelude, the [try] being [pytry]. *)

From Stdlib Require Import String Ascii List Bool Arith Lia.
From S2P Require Import Prelude PyStr Analysis.
Import ListNotations.
Local Open Scope string_scope.
Local Open Scope py_scope.

Module Client.

Record message : Type := mk_message { role : string; content : string }.

(** One call of [openai.ChatCompletion.create]. *)
Record chat_request : Type := mk_request {
  req_api_key : option string;
  req_model : string;
  req_messages : list message
}.

(** What [response.choices] holds: each choice's [message.content]. *)
Class ChatService : Type := chat_create : chat_request -> outcome (list (option string)).

(** The [openai] module's [api_key] and the requests sent so far. *)
Record client_state : Type := mk_client {
  openai_api_key : option string;
  sent : list chat_request
}.

Definition system_prompt : string :=
  "You are an expert assistant helping to decide whether to respond to a call for tenders.".

(** The f-string of lines 35-62, up to and after [{text_content}]. *)
Definition prompt_head : string :=
  concat_lines
    [""; system_prompt;
     "Based on the following call for tenders text, please provide your analysis in the following structured format:";
     ""; "**Summary:**"; "[Provide a brief summary of the project here]";
     ""; "**Key Requirements:**"; "- [Requirement 1]"; "- [Requirement 2]"; "...";
     ""; "**Potential Challenges:**"; "- [Challenge 1]"; "- [Challenge 2]"; "...";
     ""; "**Overall Recommendation:** [GO / NO-GO / UNCERTAIN]";
     ""; "**Reasoning for Recommendation:**"; "[Explain your recommendation here]";
     ""; "Call for Tenders Text:"; "---"].

Definition prompt_tail : string := newline ++ concat_lines ["---"; "Analysis:"].

Definition prompt_text (text_content : string) : string :=
  prompt_head ++ text_content ++ prompt_tail.

Definition missing_key_error : string := "Error: OpenAI API Key is missing.".
Definition api_error_prefix : string := "Error interacting with OpenAI API: ".
Definition model_name : string := "gpt-3.5-turbo".

Definition chat_messages (text_content : string) : list message :=
  [mk_message "system" system_prompt; mk_message "user" (prompt_text text_content)].

(** [response.choices[0].message.content.strip()] *)
Definition first_choice (choices : list (option string)) : outcome string :=
  match choices with
  | [] => Raise "list index out of range"
  | None :: _ => Raise "'NoneType' object has no attribute 'strip'"
  | Some c :: _ => Ok (strip c)
  end.

Section WithService.
Context `{ChatService}.

(** [openai.ChatCompletion.create(model=..., messages=...)]: the request
    carries the module key of the moment and is logged. *)
Definition chat_completion_create (model : string) (messages : list message)
    : pyst client_state (list (option string)) :=
  fun st =>
    let req := mk_request (openai_api_key st) model messages in
    (chat_create req, mk_client (openai_api_key st) (sent st ++ [req])%list).

(** [openai.api_key = api_key] (line 33). *)
Definition set_api_key (api_key : string) : pyst client_state unit :=
  let! st := pyget in
  pyput (mk_client (Some api_key) (sent st)).

(** Lines 63-74: the call, under whatever key the module holds then. *)
Definition llm_call (text_content : string) : pyst client_state string :=
  pytry (let! choices := chat_completion_create model_name (chat_messages text_content) in
         pyfrom (first_choice choices))
        (fun e => pyret (api_error_prefix ++ e)).

(** [get_llm_analysis(text_content, api_key)] *)
Definition get_llm_analysis (text_content api_key : string) : pyst client_state string :=
  if api_key =? "" then pyret missing_key_error
  else
    let! _ := set_api_key api_key in
    llm_call text_content.

End WithService.

(** The request [get_llm_analysis text key] sends. *)
Definition request_for (text_content api_key : string) : chat_request :=
  mk_request (Some api_key) model_name (chat_messages text_content).

(** What the caller receives for a service answer. *)
Definition client_result (answer : outcome (list (option string))) : string :=
  match answer with
  | Ok choices => match first_choice choices with Ok r => r | Raise e => api_error_prefix ++ e end
  | Raise e => api_error_prefix ++ e
  end.

(** A service that always answers with one choice, for the examples. *)
Definition constant_service (reply : string) : ChatService := fun _ => Ok [Some reply].

(** A service that is down. *)
Definition failing_service (msg : string) : ChatService := fun _ => Raise msg.

(** ** Lemmas *)

Section Laws.
Context `{ChatService}.

(** With a key, the call runs to its end: the state and the answer. *)
Lemma get_llm_analysis_call (t k : string) (st : client_state) :
  k <> "" ->
  get_llm_analysis t k st =
    (Ok (client_result (chat_create (request_for t k))),
     mk_client (Some k) (sent st ++ [request_for t k])%list).
Proof.
  intros Hk. unfold get_llm_analysis. rewrite (proj2 (String.eqb_neq k "") Hk).
  cbv [set_api_key llm_call pybind pyget pyput pytry pyfrom pyret chat_completion_create client_result request_for].
  simpl. destruct (chat_create _) as [[|[c|] cs]|e]; reflexivity.
Qed.

(** The client always returns a value: its exceptions are caught. *)
Lemma get_llm_analysis_ok (t k : string) (st : client_state) :
  exists r st', get_llm_analysis t k st = (Ok r, st').
Proof.
  destruct (String.eqb_spec k "") as [-> | Hk]; [eexists _, _; reflexivity|].
  rewrite get_llm_analysis_call by exact Hk. eauto.
Qed.

(** C10 (error). Without a key [get_llm_analysis] returns the missing-key
    message and leaves the state alone: the module key is not set and no
    request is sent. *)
Theorem get_llm_analysis_missing_key (t : string) (st : client_state) :
  get_llm_analysis t "" st = (Ok missing_key_error, st).
Proof. reflexivity. Qed.

(** With a non-empty key [get_llm_analysis] stores the key in
    the [openai] module and sends exactly one request, which carries that
    key, the model "gpt-3.5-turbo" and the system and user messages; the
    key stays set whether the call succeeds or fails. *)
Theorem get_llm_analysis_one_request (t k : string) (st : client_state) :
  k <> "" ->
  snd (get_llm_analysis t k st) = mk_client (Some k) (sent st ++ [request_for t k])%list.
Proof. intros Hk. now rewrite get_llm_analysis_call. Qed.

(** C9 (functional). With a non-empty key [get_llm_analysis] never raises:
    it returns the first choice's content stripped, and for a service
    exception, an empty choice list or a null content the message
    "Error interacting with OpenAI API: " followed by the exception's text. *)
Theorem get_llm_analysis_result (t k : string) (st : client_state) :
  k <> "" ->
  fst (get_llm_analysis t k st) =
    Ok (match chat_create (request_for t k) with
        | Ok (Some c :: _) => strip c
        | Ok [] => api_error_prefix ++ "list index out of range"
        | Ok (None :: _) => api_error_prefix ++ "'NoneType' object has no attribute 'strip'"
        | Raise e => api_error_prefix ++ e
        end).
Proof.
  intros Hk. rewrite get_llm_analysis_call by exact Hk. unfold client_result.
  destruct (chat_create _) as [[|[c|] cs]|e]; reflexivity.
Qed.

End Laws.

(** The prompt determines the document text: two texts
    with the same prompt are equal, the text sitting verbatim between the
    template's "---" lines. *)
Theorem prompt_text_injective (t1 t2 : string) :
  prompt_text t1 = prompt_text t2 -> t1 = t2.
Proof.
  unfold prompt_text. intros Hp.
  apply append_cancel_l, append_cancel_r in Hp. exact Hp.
Qed.

(** The prompt asks for every heading the parser's table [sections]
    recognises, written as the parser's marker. *)
Lemma prompt_asks_parser_headings (h : string) (k : field_key) :
  In (h, k) sections -> contains prompt_head (marker h) = true.
Proof. intros Hin. apply in_sections in Hin. subst h. destruct k; vm_compute; reflexivity. Qed.

(** ** Witnesses *)

Lemma get_llm_analysis_one_request_witness :
  "sk" <> "" /\
  snd (@get_llm_analysis (failing_service "timeout") "doc" "sk" (mk_client None [])) =
    mk_client (Some "sk") [request_for "doc" "sk"].
Proof.
  split; [discriminate|].
  exact (@get_llm_analysis_one_request (failing_service "timeout") "doc" "sk"
           (mk_client None []) ltac:(discriminate)).
Defined.

Lemma get_llm_analysis_result_witness :
  "sk" <> "" /\
  fst (@get_llm_analysis (constant_service "  GO  ") "doc" "sk" (mk_client None [])) = Ok "GO" /\
  fst (@get_llm_analysis (failing_service "timeout") "doc" "sk" (mk_client None [])) =
    Ok "Error interacting with OpenAI API: timeout".
Proof.
  split; [discriminate|]. split.
  - exact (@get_llm_analysis_result (constant_service "  GO  ") "doc" "sk"
             (mk_client None []) ltac:(discriminate)).
  - exact (@get_llm_analysis_result (failing_service "timeout") "doc" "sk"
             (mk_client None []) ltac:(discriminate)).
Defined.

Lemma prompt_text_injective_witness :
  prompt_text "tender" = prompt_text "tender" /\ "tender" = "tender".
Proof. split; [reflexivity | apply (prompt_text_injective "tender" "tender"); reflexivity]. Defined.

End Client.
