(* ===== verification/Concurrency.v ===== *)
(** * Concurrent requests and the [openai] module key

    [get_llm_analysis] stores the caller's key in the process-wide
    [openai.api_key] (line 33) and the service call of lines 64-71 reads
    it back.  Flask serves requests on several threads, so the two steps
    of two requests can interleave.  A thread inside [get_llm_analysis] is
    the record [thread]: its text, its key and how far it got.  Its two
    atomic steps are [thread_step]: the guard and the key assignment
    ([Client.set_api_key]), then the call ([Client.llm_call]).  A system
    is a list of threads and the shared [Client.client_state].  [sys_step]
    is the step relation of the system, and [run] runs a schedule, a list
    of thread indices. *)

From Stdlib Require Import String List Bool Arith Lia.
From stdpp Require Import base list relations.
From S2P Require Import Prelude PyStr LLMClient.
Import ListNotations.
Local Open Scope string_scope.

Module Threads.
Import Client.

Inductive phase : Type :=
| Start                        (** entered [get_llm_analysis] *)
| KeySet                       (** past line 33 *)
| Done (result : outcome string).

Record thread : Type := mk_thread { th_text : string; th_key : string; th_phase : phase }.

Definition with_phase (th : thread) (p : phase) : thread :=
  mk_thread (th_text th) (th_key th) p.

Section WithService.
Context `{ChatService}.

(** One atomic step of a thread; [None] when it has returned. *)
Definition thread_step (th : thread) (st : client_state) : option (thread * client_state) :=
  match th_phase th with
  | Start =>
      if th_key th =? "" then Some (with_phase th (Done (Ok missing_key_error)), st)
      else Some (with_phase th KeySet, snd (set_api_key (th_key th) st))
  | KeySet =>
      let '(r, st') := llm_call (th_text th) st in Some (with_phase th (Done r), st')
  | Done _ => None
  end.

Definition system : Type := list thread * client_state.

(** Some thread that has not returned takes a step. *)
Inductive sys_step : system -> system -> Prop :=
| sys_step_thread (i : nat) (th th' : thread) (ths : list thread) (st st' : client_state) :
    ths !! i = Some th -> thread_step th st = Some (th', st') ->
    sys_step (ths, st) (<[i := th']> ths, st').

(** A schedule: the thread of each step, in order; a returned or absent
    thread does nothing. *)
Fixpoint run (sched : list nat) (ths : list thread) (st : client_state) : system :=
  match sched with
  | [] => (ths, st)
  | i :: rest =>
      match ths !! i with
      | Some th =>
          match thread_step th st with
          | Some (th', st') => run rest (<[i := th']> ths) st'
          | None => run rest ths st
          end
      | None => run rest ths st
      end
  end.

End WithService.

(** The invariant of a system started with threads of keys [keys] on a
    log [sent0]: the threads keep their keys; while a thread is past its
    key assignment the module holds one of the keys; and every request
    logged since carries one of the keys. *)
Definition sys_inv (keys : list string) (sent0 : list chat_request) (s : system) : Prop :=
  map th_key (fst s) = keys /\
  ((exists j th, fst s !! j = Some th /\ th_phase th = KeySet) ->
   exists k, openai_api_key (snd s) = Some k /\ In k keys) /\
  exists new, sent (snd s) = (sent0 ++ new)%list /\
    Forall (fun r => exists k, req_api_key r = Some k /\ In k keys) new.

(** The service calls a thread may still make. *)
Definition calls_left (th : thread) : nat :=
  match th_phase th with Done _ => 0 | _ => 1 end.

Definition total_calls_left (ths : list thread) : nat :=
  fold_right (fun th n => calls_left th + n) 0 ths.

(** Two requests entering [get_llm_analysis] with their own keys. *)
Definition two_requests : list thread :=
  [mk_thread "tender A" "sk-alice" Start; mk_thread "tender B" "sk-bob" Start].

(** ** Lemmas *)

Section Laws.
Context `{ChatService}.

(** The call logs one request carrying the module key of the moment. *)
Lemma llm_call_state (t : string) (st : client_state) :
  snd (llm_call t st) =
    mk_client (openai_api_key st)
              (sent st ++ [mk_request (openai_api_key st) model_name (chat_messages t)])%list.
Proof. cbv [llm_call pybind pytry pyfrom pyret chat_completion_create]. now destruct (chat_create _) as [[|[c|] cs]|e]. Qed.

Lemma run_cons_step (i : nat) (rest : list nat) (ths : list thread) (th th' : thread)
    (st st' : client_state) :
  ths !! i = Some th -> thread_step th st = Some (th', st') ->
  run (i :: rest) ths st = run rest (<[i := th']> ths) st'.
Proof. intros Hi Hs. simpl. now rewrite Hi, Hs. Qed.

(** [run] takes steps of the system. *)
Lemma run_rtc (sched : list nat) (ths : list thread) (st : client_state) :
  rtc sys_step (ths, st) (run sched ths st).
Proof.
  revert ths st. induction sched as [|i rest IH]; intros ths st; simpl; [reflexivity|].
  destruct (ths !! i) as [th|] eqn:Hi; [|apply IH].
  destruct (thread_step th st) as [[th' st']|] eqn:Hs; [|apply IH].
  eapply rtc_l; [econstructor; eassumption | apply IH].
Qed.

Lemma thread_step_key (th th' : thread) (st st' : client_state) :
  thread_step th st = Some (th', st') -> th_key th' = th_key th.
Proof.
  unfold thread_step. destruct (th_phase th); [destruct (th_key th =? "")| |]; simpl;
    try (intros E; injection E as <- _; reflexivity).
  - destruct (llm_call _ _). intros E; injection E as <- _. reflexivity.
  - discriminate.
Qed.

Lemma map_key_insert (ths : list thread) (i : nat) (th th' : thread) :
  ths !! i = Some th -> th_key th' = th_key th ->
  map th_key (<[i := th']> ths) = map th_key ths.
Proof.
  revert i. induction ths as [|x ths IH]; intros [|i] Hi Hk; simpl in *; try discriminate.
  - injection Hi as ->. now rewrite Hk.
  - now rewrite (IH i Hi Hk).
Qed.

Lemma set_api_key_state (k : string) (st : client_state) :
  snd (set_api_key k st) = mk_client (Some k) (sent st).
Proof. reflexivity. Qed.

Lemma sys_step_inv (keys : list string) (sent0 : list chat_request) (s s' : system) :
  sys_step s s' -> sys_inv keys sent0 s -> sys_inv keys sent0 s'.
Proof.
  intros [i th th' ths st st' Hi Ht] (Hk & Hset & new & Hsent & Hnew).
  unfold sys_inv. cbn [fst snd] in *.
  assert (Hin : In (th_key th) keys).
  { rewrite <- Hk. apply in_map, list_elem_of_In. eapply list_elem_of_lookup_2, Hi. }
  split; [rewrite (map_key_insert _ _ _ _ Hi (thread_step_key _ _ _ _ Ht)); exact Hk|].
  unfold thread_step in Ht. destruct (th_phase th) eqn:Hp; [destruct (th_key th =? "")| |].
  - injection Ht as <- <-. split; [|eauto].
    intros (j & x & Hj & Hx). apply Hset.
    apply list_lookup_insert_Some in Hj as [(-> & <- & _) | (_ & Hj)]; [discriminate Hx | eauto].
  - injection Ht as <- <-. cbv [set_api_key pybind pyget pyput]. simpl. split; [eauto | eauto].
  - destruct (llm_call (th_text th) st) as [r st1] eqn:Ec. injection Ht as <- <-.
    assert (Hst1 : st1 = snd (llm_call (th_text th) st)) by now rewrite Ec.
    rewrite llm_call_state in Hst1. subst st1. simpl.
    destruct (Hset (ex_intro _ i (ex_intro _ th (conj Hi Hp)))) as (k & Hkey & Hkin).
    rewrite Hkey. split; [eauto|].
    exists (new ++ [mk_request (Some k) model_name (chat_messages (th_text th))])%list.
    rewrite Hsent, app_assoc. split; [reflexivity|].
    apply Forall_app. split; [exact Hnew | constructor; [eauto | constructor]].
  - discriminate Ht.
Qed.

(** A sum over a list changes by the change at the updated index. *)
Lemma fold_insert (f : thread -> nat) (ths : list thread) (i : nat) (th th' : thread) :
  ths !! i = Some th ->
  fold_right (fun x n => f x + n) 0 (<[i := th']> ths) + f th =
  fold_right (fun x n => f x + n) 0 ths + f th'.
Proof.
  revert i. induction ths as [|x ths IH]; intros [|i] Hi; simpl in *; try discriminate.
  - injection Hi as ->. lia.
  - specialize (IH i Hi). lia.
Qed.

Lemma thread_step_calls (th th' : thread) (st st' : client_state) :
  thread_step th st = Some (th', st') ->
  length (sent st') + calls_left th' <= length (sent st) + calls_left th.
Proof.
  unfold thread_step, calls_left. destruct (th_phase th); [destruct (th_key th =? "")| |]; try discriminate.
  - intros E; injection E as <- <-. simpl. lia.
  - intros E; injection E as <- <-. simpl. lia.
  - destruct (llm_call (th_text th) st) as [r st1] eqn:Ec. intros E; injection E as <- <-.
    assert (st1 = snd (llm_call (th_text th) st)) as -> by now rewrite Ec.
    rewrite llm_call_state. simpl. rewrite length_app. simpl. lia.
Qed.

Lemma sys_step_calls (s s' : system) :
  sys_step s s' ->
  length (sent (snd s')) + total_calls_left (fst s') <=
  length (sent (snd s)) + total_calls_left (fst s).
Proof.
  intros [i th th' ths st st' Hi Ht]. simpl. unfold total_calls_left.
  pose proof (fold_insert calls_left ths i th th' Hi). pose proof (thread_step_calls _ _ _ _ Ht).
  lia.
Qed.

Lemma total_calls_left_le (ths : list thread) : total_calls_left ths <= length ths.
Proof.
  induction ths as [|th ths IH]; simpl; [lia|].
  unfold calls_left at 1. destruct (th_phase th); simpl in *; lia.
Qed.

(** The split is faithful: a thread that runs its two steps back to
    back computes [get_llm_analysis], the same result and the same state. *)
Lemma thread_refines_get_llm_analysis (ths : list thread) (i : nat) (th : thread)
    (st : client_state) :
  ths !! i = Some th -> th_phase th = Start ->
  run [i; i] ths st =
    (<[i := with_phase th (Done (fst (get_llm_analysis (th_text th) (th_key th) st)))]> ths,
     snd (get_llm_analysis (th_text th) (th_key th) st)).
Proof.
  intros Hi Hp. pose proof (lookup_lt_Some _ _ _ Hi) as Hlt.
  unfold get_llm_analysis. destruct (String.eqb_spec (th_key th) "") as [Hk|Hk].
  - rewrite (run_cons_step _ _ _ th (with_phase th (Done (Ok missing_key_error))) st st Hi)
      by (unfold thread_step; rewrite Hp, Hk; reflexivity).
    simpl. rewrite list_lookup_insert_eq by exact Hlt. reflexivity.
  - rewrite (run_cons_step _ _ _ th (with_phase th KeySet) st (mk_client (Some (th_key th)) (sent st)) Hi)
      by (unfold thread_step; rewrite Hp; apply String.eqb_neq in Hk; now rewrite Hk).
    change (pybind (set_api_key (th_key th)) (fun _ => llm_call (th_text th)) st)
      with (llm_call (th_text th) (mk_client (Some (th_key th)) (sent st))).
    cbn [run]. rewrite list_lookup_insert_eq by exact Hlt. unfold thread_step. cbn [with_phase th_phase th_text].
    destruct (llm_call _ _) as [r st2]. now rewrite list_insert_insert_eq.
Qed.

End Laws.

(** ** Theorems *)

Section Claims.
Context `{ChatService}.

(** C12 (invariant). Whatever the interleaving, every request the threads
    send carries the key of one of them: the module key is never unset
    while a thread is about to call, and no other key is ever used. *)
Theorem reachable_requests_keys (ths : list thread) (st : client_state) (s : system) :
  Forall (fun th => th_phase th = Start) ths -> rtc sys_step (ths, st) s ->
  sys_inv (map th_key ths) (sent st) s.
Proof.
  intros Hstart. revert s. apply rtc_ind_r.
  - split; [reflexivity|]. split.
    + intros (j & x & Hj & Hx). rewrite (Forall_lookup_1 _ _ _ _ Hstart Hj) in Hx. discriminate.
    + exists []. now rewrite app_nil_r.
  - intros y z _ Hyz Hy. exact (sys_step_inv _ _ _ _ Hyz Hy).
Qed.

(** C11 (safety). Two requests that interleave in [get_llm_analysis] (each
    sets its key, then each calls) both reach the service with the key
    of the one that set it last: the first caller's text is sent under
    the second caller's key. *)
Theorem interleaving_swaps_keys (tA tB kA kB : string) (st : client_state) :
  kA <> "" -> kB <> "" ->
  snd (run [0; 1; 0; 1]%nat [mk_thread tA kA Start; mk_thread tB kB Start] st) =
    mk_client (Some kB) (sent st ++ [request_for tA kB; request_for tB kB])%list.
Proof.
  intros HA%String.eqb_neq HB%String.eqb_neq. cbn -[llm_call]. rewrite HA, HB. cbn -[llm_call].
  destruct (llm_call tA _) as [rA st1] eqn:EA. cbn -[llm_call].
  destruct (llm_call tB st1) as [rB st2] eqn:EB. simpl.
  assert (E1 : st1 = snd (llm_call tA (mk_client (Some kB) (sent st)))) by now rewrite EA.
  assert (E2 : st2 = snd (llm_call tB st1)) by now rewrite EB.
  rewrite llm_call_state in E1, E2. subst st1 st2. simpl. now rewrite <- app_assoc.
Qed.

(** C17 (bounds). However they interleave, [n] requests inside
    [get_llm_analysis] send at most [n] requests to the service. *)
Theorem reachable_requests_bound (ths : list thread) (st : client_state) (s : system) :
  rtc sys_step (ths, st) s -> length (sent (snd s)) <= length (sent st) + length ths.
Proof.
  intros Hr. pose proof (total_calls_left_le ths).
  enough (length (sent (snd s)) + total_calls_left (fst s) <= length (sent st) + total_calls_left ths)
    by lia.
  revert s Hr. apply rtc_ind_r; [simpl; lia|].
  intros y z _ Hyz Hy. pose proof (sys_step_calls _ _ Hyz). lia.
Qed.

End Claims.

(** ** Witnesses *)

Lemma reachable_requests_keys_witness :
  sys_inv ["sk-alice"; "sk-bob"] []
          (@run (failing_service "timeout") [0; 1; 0; 1]%nat two_requests (mk_client None [])).
Proof.
  apply (@reachable_requests_keys (failing_service "timeout") two_requests (mk_client None [])).
  - repeat constructor.
  - apply run_rtc.
Defined.

Lemma interleaving_swaps_keys_witness :
  snd (@run (failing_service "timeout") [0; 1; 0; 1]%nat two_requests (mk_client None [])) =
  mk_client (Some "sk-bob") [request_for "tender A" "sk-bob"; request_for "tender B" "sk-bob"].
Proof.
  exact (@interleaving_swaps_keys (failing_service "timeout") "tender A" "tender B"
           "sk-alice" "sk-bob" (mk_client None []) ltac:(discriminate) ltac:(discriminate)).
Defined.

Lemma reachable_requests_bound_witness :
  length (sent (snd (@run (failing_service "timeout") [0; 1; 0; 1]%nat two_requests
                          (mk_client None [])))) <= 0 + 2.
Proof.
  apply (@reachable_requests_bound (failing_service "timeout") two_requests (mk_client None [])).
  apply run_rtc.
Defined.

End Threads.
