(* ===== verification/SecureFilename.v ===== *)
(** * Upload file names: [secure_filename] and [os.path.join]

    [index] (main.py 232-233) saves an upload under
    [os.path.join(app.config['UPLOAD_FOLDER'], secure_filename(file.filename))].
    Neither function is code of the repository: [secure_filename] is
    werkzeug's (werkzeug/utils.py) and [path_join] is [posixpath.join] with
    two arguments.  Both are written out here from their library sources
    for a POSIX host: NFKD normalisation followed by an ASCII encode that
    drops what is left ([to_ascii], exact on the Latin-1 strings of the
    model), "/" replaced by a space, runs of whitespace joined by "_",
    every character outside [A-Za-z0-9_.-] removed, and "._" stripped
    from both ends.  The Windows device-name rule does not apply on POSIX. *)

From Stdlib Require Import String Ascii List Bool Arith Lia.
From S2P Require Import Prelude PyStr.
Import ListNotations.
Local Open Scope string_scope.

Module Secure.

(** [unicodedata.normalize("NFKD", c).encode("ascii", "ignore")] for a
    Latin-1 character: ASCII stays, accented letters lose their accent,
    spacing marks and the no-break space become a space, the superscripts
    and fractions their digits, and the rest is dropped. *)
Definition nfkd_ascii (c : ascii) : string :=
  let n := nat_of_ascii c in
  if (n <? 128)%nat then String c ""
  else if (n =? 160)%nat || (n =? 168)%nat || (n =? 175)%nat || (n =? 180)%nat
          || (n =? 184)%nat then " "
  else if (n =? 170)%nat then "a"
  else if (n =? 178)%nat then "2"
  else if (n =? 179)%nat then "3"
  else if (n =? 185)%nat then "1"
  else if (n =? 186)%nat then "o"
  else if (n =? 188)%nat then "14"
  else if (n =? 189)%nat then "12"
  else if (n =? 190)%nat then "34"
  else if ((192 <=? n) && (n <=? 197))%nat then "A"
  else if (n =? 199)%nat then "C"
  else if ((200 <=? n) && (n <=? 203))%nat then "E"
  else if ((204 <=? n) && (n <=? 207))%nat then "I"
  else if (n =? 209)%nat then "N"
  else if ((210 <=? n) && (n <=? 214))%nat then "O"
  else if ((217 <=? n) && (n <=? 220))%nat then "U"
  else if (n =? 221)%nat then "Y"
  else if ((224 <=? n) && (n <=? 229))%nat then "a"
  else if (n =? 231)%nat then "c"
  else if ((232 <=? n) && (n <=? 235))%nat then "e"
  else if ((236 <=? n) && (n <=? 239))%nat then "i"
  else if (n =? 241)%nat then "n"
  else if ((242 <=? n) && (n <=? 246))%nat then "o"
  else if ((249 <=? n) && (n <=? 252))%nat then "u"
  else if (n =? 253)%nat || (n =? 255)%nat then "y"
  else "".

Fixpoint to_ascii (s : string) : string :=
  match s with
  | EmptyString => EmptyString
  | String c r => nfkd_ascii c ++ to_ascii r
  end.

(** [filename.replace(os.sep, " ")] *)
Definition replace_sep (s : string) : string :=
  map_chars (fun c => if Ascii.eqb c "/"%char then " "%char else c) s.

(** The complement of [_filename_ascii_strip_re = re.compile(r"[^A-Za-z0-9_.-]")]. *)
Definition filename_char (c : ascii) : bool :=
  let n := nat_of_ascii c in
  ((65 <=? n) && (n <=? 90))%nat || ((97 <=? n) && (n <=? 122))%nat
  || ((48 <=? n) && (n <=? 57))%nat
  || Ascii.eqb c "_"%char || Ascii.eqb c "."%char || Ascii.eqb c "-"%char.

Fixpoint filter_chars (f : ascii -> bool) (s : string) : string :=
  match s with
  | EmptyString => EmptyString
  | String c r => if f c then String c (filter_chars f r) else filter_chars f r
  end.

(** [s.lstrip(chars)] and [s.rstrip(chars)] for a set of characters. *)
Fixpoint lstrip_by (f : ascii -> bool) (s : string) : string :=
  match s with
  | EmptyString => EmptyString
  | String c r => if f c then lstrip_by f r else s
  end.

Fixpoint rstrip_by (f : ascii -> bool) (s : string) : string :=
  match s with
  | EmptyString => EmptyString
  | String c r =>
      let r' := rstrip_by f r in
      if f c && (r' =? "") then EmptyString else String c r'
  end.

Definition dot_or_underscore (c : ascii) : bool := Ascii.eqb c "."%char || Ascii.eqb c "_"%char.

(** [werkzeug.utils.secure_filename] *)
Definition secure_filename (filename : string) : string :=
  let filename := replace_sep (to_ascii filename) in
  let filename := filter_chars filename_char (String.concat "_" (split_ws filename)) in
  rstrip_by dot_or_underscore (lstrip_by dot_or_underscore filename).

Fixpoint ends_with_slash (s : string) : bool :=
  match s with
  | EmptyString => false
  | String c EmptyString => Ascii.eqb c "/"%char
  | String _ r => ends_with_slash r
  end.

(** [posixpath.join(a, b)] *)
Definition path_join (a b : string) : string :=
  if startswith b "/" then b
  else if (a =? "") || ends_with_slash a then a ++ b
  else a ++ "/" ++ b.

(** Every character of [s] satisfies [f]. *)
Fixpoint all_chars (f : ascii -> bool) (s : string) : bool :=
  match s with
  | EmptyString => true
  | String c r => f c && all_chars f r
  end.

(** ** The library's documented examples *)

Example secure_filename_examples :
  secure_filename "My cool movie.mov" = "My_cool_movie.mov" /\
  secure_filename "../../../etc/passwd" = "etc_passwd" /\
  secure_filename ("i contain cool " ++ String (ascii_of_nat 252) "ml" ++
                   String (ascii_of_nat 228) "uts.txt") = "i_contain_cool_umlauts.txt" /\
  secure_filename "..." = "".
Proof. vm_compute. auto. Qed.

(** ** Lemmas *)

(** A kept character is ASCII, not a space and not the separator. *)
Lemma filename_char_plain (c : ascii) :
  filename_char c = true ->
  (nat_of_ascii c <? 128)%nat && negb (is_space c) && negb (Ascii.eqb c "/"%char) = true.
Proof. intros H. destruct c as [[] [] [] [] [] [] [] []]; first [reflexivity | discriminate H]. Qed.

Lemma all_chars_impl (f g : ascii -> bool) (s : string) :
  (forall c, f c = true -> g c = true) -> all_chars f s = true -> all_chars g s = true.
Proof.
  intros Hfg. induction s as [|c s IH]; simpl; auto.
  intros [Hc Hs]%andb_true_iff. now rewrite Hfg, IH.
Qed.

Lemma filter_chars_all (f : ascii -> bool) (s : string) : all_chars f (filter_chars f s) = true.
Proof. induction s as [|c s IH]; simpl; auto. destruct (f c) eqn:E; simpl; rewrite ?E; auto. Qed.

Lemma filter_chars_id (f : ascii -> bool) (s : string) :
  all_chars f s = true -> filter_chars f s = s.
Proof.
  induction s as [|c s IH]; simpl; auto.
  intros [-> Hs]%andb_true_iff. now rewrite IH.
Qed.

Lemma lstrip_by_all (f g : ascii -> bool) (s : string) :
  all_chars f s = true -> all_chars f (lstrip_by g s) = true.
Proof.
  induction s as [|c s IH]; simpl; auto.
  intros H. destruct (g c); [apply IH; now apply andb_true_iff in H as [_ H] | exact H].
Qed.

Lemma rstrip_by_all (f g : ascii -> bool) (s : string) :
  all_chars f s = true -> all_chars f (rstrip_by g s) = true.
Proof.
  induction s as [|c s IH]; simpl; auto.
  intros [Hc Hs]%andb_true_iff. destruct (g c && (rstrip_by g s =? "")); simpl; auto.
  now rewrite Hc, IH.
Qed.

(** After [lstrip_by g] the first character, if any, is not stripped. *)
Lemma lstrip_by_head (g : ascii -> bool) (s : string) :
  lstrip_by g s = "" \/ exists c r, lstrip_by g s = String c r /\ g c = false.
Proof.
  induction s as [|c s IH]; simpl; auto.
  destruct (g c) eqn:E; auto. right; eauto.
Qed.

Lemma rstrip_by_keep_head (g : ascii -> bool) (c : ascii) (r : string) :
  g c = false -> rstrip_by g (String c r) = String c (rstrip_by g r).
Proof. intros E. simpl. now rewrite E. Qed.

Lemma rstrip_by_idem (g : ascii -> bool) (s : string) :
  rstrip_by g (rstrip_by g s) = rstrip_by g s.
Proof.
  induction s as [|c s IH]; simpl; auto.
  destruct (g c && (rstrip_by g s =? "")) eqn:E; simpl; auto.
  now rewrite IH, E.
Qed.

(** Stripping the right end keeps a clean left end. *)
Lemma lstrip_rstrip_by (g : ascii -> bool) (s : string) :
  lstrip_by g (rstrip_by g (lstrip_by g s)) = rstrip_by g (lstrip_by g s).
Proof.
  destruct (lstrip_by_head g s) as [-> | (c & r & -> & E)]; [reflexivity|].
  rewrite rstrip_by_keep_head by exact E. simpl. now rewrite E.
Qed.

Lemma all_chars_contains_slash (s : string) :
  all_chars filename_char s = true -> contains s "/" = false.
Proof.
  induction s as [|c s IH]; [reflexivity|].
  intros [Hc Hs]%andb_true_iff. pose proof (filename_char_plain c Hc) as Hp. bool_props.
  cbn [contains startswith]. rewrite IH by exact Hs.
  match goal with H : Ascii.eqb c _ = false |- _ => now rewrite Ascii.eqb_sym, H end.
Qed.

Lemma secure_filename_chars (f : string) : all_chars filename_char (secure_filename f) = true.
Proof. unfold secure_filename. apply rstrip_by_all, lstrip_by_all, filter_chars_all. Qed.

Lemma secure_filename_head (f : string) :
  secure_filename f = "" \/
  exists c r, secure_filename f = String c r /\ dot_or_underscore c = false.
Proof.
  unfold secure_filename.
  destruct (lstrip_by_head dot_or_underscore
              (filter_chars filename_char (String.concat "_" (split_ws (replace_sep (to_ascii f))))))
    as [-> | (c & r & -> & E)]; auto.
  right. exists c, (rstrip_by dot_or_underscore r). split; [|exact E].
  now apply rstrip_by_keep_head.
Qed.

Lemma secure_filename_plain (f : string) :
  all_chars (fun c => (nat_of_ascii c <? 128)%nat) (secure_filename f) = true /\
  all_chars (fun c => negb (is_space c)) (secure_filename f) = true /\
  all_chars (fun c => negb (Ascii.eqb c "/"%char)) (secure_filename f) = true.
Proof.
  pose proof (secure_filename_chars f) as H.
  split; [|split]; revert H; apply all_chars_impl;
    intros c Hc; pose proof (filename_char_plain c Hc); bool_props; rewrite ?negb_true_iff; assumption.
Qed.

Lemma to_ascii_id (s : string) :
  all_chars (fun c => (nat_of_ascii c <? 128)%nat) s = true -> to_ascii s = s.
Proof.
  induction s as [|c s IH]; simpl; auto.
  intros [Hc Hs]%andb_true_iff. unfold nfkd_ascii. rewrite Hc, IH by exact Hs. reflexivity.
Qed.

Lemma replace_sep_id (s : string) :
  all_chars (fun c => negb (Ascii.eqb c "/"%char)) s = true -> replace_sep s = s.
Proof.
  unfold replace_sep. induction s as [|c s IH]; simpl; auto.
  intros [Hc%negb_true_iff Hs]%andb_true_iff. now rewrite Hc, IH.
Qed.

(** [s.split()] of a string without spaces. *)
Lemma split_ws_aux_solid (cur s : string) :
  all_chars (fun c => negb (is_space c)) s = true ->
  split_ws_aux cur s = if (cur ++ s) =? "" then [] else [cur ++ s].
Proof.
  revert cur. induction s as [|c s IH]; intros cur; simpl.
  - now rewrite append_nil_r.
  - intros [Hc%negb_true_iff Hs]%andb_true_iff. rewrite Hc, IH by exact Hs.
    now rewrite <- append_assoc.
Qed.

Lemma strip_by_idem (g : ascii -> bool) (x : string) :
  rstrip_by g (lstrip_by g (rstrip_by g (lstrip_by g x))) = rstrip_by g (lstrip_by g x).
Proof. now rewrite lstrip_rstrip_by, rstrip_by_idem. Qed.

(** The saved upload stays in the upload folder: for a
    folder without a trailing slash, joining it with a secured name adds
    one path component, which has no "/" and is neither "." nor "..". *)
Theorem secure_filename_in_folder (folder f : string) :
  folder <> "" -> ends_with_slash folder = false ->
  path_join folder (secure_filename f) = folder ++ "/" ++ secure_filename f /\
  contains (secure_filename f) "/" = false /\
  secure_filename f <> "." /\ secure_filename f <> "..".
Proof.
  intros Hne Hsl. pose proof (all_chars_contains_slash _ (secure_filename_chars f)) as Hns.
  split; [|split; [exact Hns|]].
  - unfold path_join. destruct (startswith _ "/") eqn:E.
    + apply startswith_contains in E. congruence.
    + apply String.eqb_neq in Hne. now rewrite Hne, Hsl.
  - destruct (secure_filename_head f) as [-> | (c & r & -> & Hc)]; [split; discriminate|].
    split; intros Heq; injection Heq as -> _; vm_compute in Hc; discriminate Hc.
Qed.

(** [secure_filename] is idempotent: a secured name is
    saved under its own name. *)
Theorem secure_filename_idem (f : string) : secure_filename (secure_filename f) = secure_filename f.
Proof.
  destruct (secure_filename_plain f) as (Ha & Hs & Hsl).
  unfold secure_filename at 1. rewrite to_ascii_id, replace_sep_id by assumption.
  unfold split_ws. rewrite split_ws_aux_solid by exact Hs. simpl.
  destruct (secure_filename f =? "") eqn:E; simpl.
  - apply String.eqb_eq in E. now rewrite E.
  - rewrite filter_chars_id by apply secure_filename_chars.
    unfold secure_filename. apply strip_by_idem.
Qed.


End Secure.
