(* ===== verification/WebApp.v ===== *)
(** * The Flask view [index] (main.py 192-267)

    A GET renders the empty form.  A POST resolves the API key (the
    environment's [OPENAI_API_KEY], overridden by the form's [api_key]),
    returns early when neither is set, saves the upload under
    [os.path.join(UPLOAD_FOLDER, secure_filename(name))], extracts its
    text, asks the LLM client for an analysis when the text is non-empty
    and not an extraction error, and parses the answer when it is not an
    API error.  The view returns the arguments of
    [render_template('index.html', ...)], modelled as the record [page].

    The state the view touches is [app_state]: the files on disk (the
    extractor's [store]), whether the upload folder exists, and the LLM
    client's state (the [openai] module key and the requests sent).  The
    view runs in the [pyst] monad; [file.save] is the only step of the
    [try] block of lines 235-255 that raises, so the handler of lines
    253-255 leaves [extracted_text] unset as the code does.  [save_upload]
    raises the Linux errors of [open(path, "wb")]: an empty secured name
    makes the path the folder itself and gives EISDIR whether or not the
    folder exists (its parent is taken to exist, as [APP_ROOT] does for the
    default folder); a missing folder with a non-empty name gives ENOENT.
    [str(e)] quotes the path with single quotes, as [repr] does for a path
    without quotes. *)

From Stdlib Require Import String Ascii List Bool Arith Lia.
From stdpp Require Import base decidable gmap strings.
From S2P Require Import Prelude PyStr Analysis Parser Extractor LLMClient SecureFilename.
Import ListNotations.
Local Open Scope string_scope.
Local Open Scope py_scope.

Module Web.

Inductive http_method : Type := GET | POST.

(** [request.files['file']]: the client's file name and the file's data. *)
Record upload : Type := mk_upload { filename : string; up_data : Extract.file_data }.

Record request : Type := mk_request {
  method : http_method;
  form_api_key : option string;  (** [request.form.get('api_key')] *)
  files_file : option upload     (** [None] when [request.files] has no 'file' part *)
}.

(** The process environment and the app configuration. *)
Record config : Type := mk_config {
  env_openai_key : option string;  (** [os.environ.get('OPENAI_API_KEY')] *)
  upload_folder : string           (** [app.config['UPLOAD_FOLDER']] *)
}.

Record app_state : Type := mk_app {
  fs : Extract.store;
  upload_dir_exists : bool;
  client : Client.client_state
}.

(** The keyword arguments of [render_template('index.html', ...)]. *)
Record page : Type := mk_page {
  extracted_text : option string;
  error_message : option string;
  parsed_analysis : option analysis;
  api_key_field : option string
}.

(** Python truthiness of an optional string. *)
Definition truthy (o : option string) : bool :=
  match o with Some s => negb (s =? "") | None => false end.

(** [os.environ.get('OPENAI_API_KEY', '')] *)
Definition or_empty (o : option string) : string :=
  match o with Some s => s | None => "" end.

(** The outcome of lines 204-226: the key for the LLM and the value of
    [api_key_value], or the early return. *)
Inductive key_choice : Type :=
| KeyMissing
| KeyFrom (api_key api_key_value : string).

Definition resolve_api_key (env_key form_key : option string) : key_choice :=
  if negb (truthy env_key) then
    if truthy form_key then KeyFrom (or_empty form_key) (or_empty form_key) else KeyMissing
  else if truthy form_key then KeyFrom (or_empty form_key) (or_empty form_key)
  else KeyFrom (or_empty env_key) "".

Definition key_missing_message : string :=
  "OpenAI API Key not found. Please set OPENAI_API_KEY environment variable or provide it in the form.".
Definition no_file_message : string := "No file selected or file part missing.".
Definition save_error_prefix : string := "Error saving or processing file: ".
Definition extraction_error_marker : string := "Error extracting text:".
Definition api_error_marker : string := "Error interacting with OpenAI API".

Definition quoted (p : string) : string := "'" ++ p ++ "'".

(** The texts of the two [OSError]s [open] raises here. *)
Definition eisdir_message : string := "[Errno 21] Is a directory: ".
Definition enoent_message : string := "[Errno 2] No such file or directory: ".

(** [file.save(filepath)] (line 236), that is [open(filepath, "wb")] on
    Linux.  An empty secured name makes [filepath] the folder with a
    trailing "/", which [open] refuses with EISDIR whether the folder
    exists or not (its parent existing); otherwise a missing folder gives
    ENOENT; otherwise the file is written, replacing any earlier file of
    that name. *)
Definition save_upload (filepath name : string) (d : Extract.file_data) : pyst app_state unit :=
  fun st =>
    if name =? "" then (Raise (eisdir_message ++ quoted filepath), st)
    else if negb (upload_dir_exists st) then (Raise (enoent_message ++ quoted filepath), st)
    else (Ok tt, mk_app (<[filepath := d]> (fs st)) (upload_dir_exists st) (client st)).

(** A step of the LLM client, on the client part of the state. *)
Definition on_client {A} (m : pyst Client.client_state A) : pyst app_state A :=
  fun st =>
    let (o, c) := m (client st) in (o, mk_app (fs st) (upload_dir_exists st) c).

(** The values of [extracted_text], [error_message] and [parsed_analysis]
    at the end of the upload branch. *)
Definition results : Type := option string * option string * option analysis.

(** Lines 232-233: [filepath]. *)
Definition upload_path (cfg : config) (up : upload) : string :=
  Secure.path_join (upload_folder cfg) (Secure.secure_filename (filename up)).

(** The text the LLM is asked about: non-empty and not an extraction error. *)
Definition analysable (text : string) : bool :=
  negb (text =? "") && negb (startswith text extraction_error_marker).

(** An answer that is parsed: non-empty and not an API error. *)
Definition parsable (raw : string) : bool :=
  negb (raw =? "") && negb (startswith raw api_error_marker).

(** The key the LLM receives: the form's when set, else the environment's. *)
Definition chosen_key (cfg : config) (rq : request) : option string :=
  if truthy (form_api_key rq) then form_api_key rq else env_openai_key cfg.

(** The text of an upload, extracted from a folder holding it alone. *)
Definition uploaded_text (cfg : config) (up : upload) : string :=
  Extract.extract_text_from_file {[upload_path cfg up := up_data up]} (upload_path cfg up).

(** The key field of the page after a POST that got past the key check. *)
Definition posted_key_field (rq : request) : option string :=
  if truthy (form_api_key rq) then form_api_key rq else Some "".

(** The OS error of a failed [file.save], by the secured name: the path
    names the folder itself when the name is empty, else the folder is
    missing. *)
Definition save_errno (name : string) : string :=
  if name =? "" then eisdir_message else enoent_message.

(** The pages [index] renders, one constructor per branch of the view,
    for a folder that exists ([dir = true]) or not. *)
Inductive page_ok (dir : bool) : page -> Prop :=
| page_form k : page_ok dir (mk_page None None None k)
| page_key_missing k : page_ok dir (mk_page None (Some key_missing_message) None k)
| page_no_file k : page_ok dir (mk_page None (Some no_file_message) None k)
| page_save_isdir p k :
    page_ok dir (mk_page None (Some (save_error_prefix ++ eisdir_message ++ quoted p)) None k)
| page_save_missing p k :
    dir = false ->
    page_ok dir (mk_page None (Some (save_error_prefix ++ enoent_message ++ quoted p)) None k)
| page_extraction_error t k :
    startswith t extraction_error_marker = true -> page_ok dir (mk_page (Some t) (Some t) None k)
| page_no_text k : page_ok dir (mk_page (Some "") None None k)
| page_llm_error t r k :
    analysable t = true -> parsable r = false -> page_ok dir (mk_page (Some t) (Some r) None k)
| page_analysis t r k :
    analysable t = true -> parsable r = true ->
    page_ok dir (mk_page (Some t) None (Some (parse_llm_response r)) k).

Section WithService.
Context `{Client.ChatService}.

(** Lines 239-251, once the text is extracted. *)
Definition analyse_text (text api_key : string) : pyst app_state results :=
  if analysable text then
    let! raw := on_client (Client.get_llm_analysis text api_key) in
    if parsable raw then
      pyret (Some text, None, Some (parse_llm_response raw))
    else pyret (Some text, Some raw, None)
  else if startswith text extraction_error_marker then pyret (Some text, Some text, None)
  else pyret (Some text, None, None).

(** Lines 231-255: the [try] block and its handler. *)
Definition process_upload (cfg : config) (up : upload) (api_key : string) : pyst app_state results :=
  let name := Secure.secure_filename (filename up) in
  let filepath := upload_path cfg up in
  pytry (let! _ := save_upload filepath name (up_data up) in
         let! st := pyget in
         analyse_text (Extract.extract_text_from_file (fs st) filepath) api_key)
        (fun e => pyret (None, Some (save_error_prefix ++ e), None)).

(** [index()] *)
Definition index (cfg : config) (rq : request) : pyst app_state page :=
  let form_key := match method rq with POST => form_api_key rq | GET => Some "" end in
  let final_key (api_key_value : string) :=
    if truthy form_key then form_key else Some api_key_value in
  match method rq with
  | GET => pyret (mk_page None None None (final_key (or_empty (env_openai_key cfg))))
  | POST =>
      match resolve_api_key (env_openai_key cfg) (form_api_key rq) with
      | KeyMissing => pyret (mk_page None (Some key_missing_message) None form_key)
      | KeyFrom api_key api_key_value =>
          match files_file rq with
          | Some up =>
              if filename up =? "" then
                pyret (mk_page None (Some no_file_message) None (final_key api_key_value))
              else
                let! r := process_upload cfg up api_key in
                let '(text, err, parsed) := r in
                pyret (mk_page text err parsed (final_key api_key_value))
          | None => pyret (mk_page None (Some no_file_message) None (final_key api_key_value))
          end
      end
  end.

End WithService.

(** ** Sample requests *)

Definition demo_config : config := mk_config None "/srv/uploads".

Definition demo_data : Extract.file_data :=
  Extract.mk_file (Ok "Build a bridge.") (Raise "not a PDF") (Raise "not a docx").

Definition demo_upload : upload := mk_upload "Tender 2024.txt" demo_data.

Definition demo_request : request := mk_request POST (Some "sk-test") (Some demo_upload).

Definition demo_state : app_state := mk_app ∅ true (Client.mk_client None []).

Definition demo_reply : string :=
  concat_lines ["**Summary:** A bridge."; "**Key Requirements:**"; "- steel";
                "**Potential Challenges:**"; "- the river"; "**Overall Recommendation:** GO";
                "**Reasoning for Recommendation:**"; "We build bridges."].

(** ** Lemmas *)

Lemma resolve_api_key_chosen (cfg : config) (rq : request) :
  truthy (chosen_key cfg rq) = true ->
  resolve_api_key (env_openai_key cfg) (form_api_key rq) =
    KeyFrom (or_empty (chosen_key cfg rq))
            (if truthy (form_api_key rq) then or_empty (form_api_key rq) else "").
Proof.
  unfold chosen_key, resolve_api_key.
  destruct (truthy (form_api_key rq)), (truthy (env_openai_key cfg)); simpl; congruence.
Qed.

Lemma resolve_api_key_missing (env form : option string) :
  truthy env = false -> truthy form = false -> resolve_api_key env form = KeyMissing.
Proof. unfold resolve_api_key. intros -> ->. reflexivity. Qed.

Lemma truthy_or_empty (o : option string) : truthy o = true -> or_empty o <> "".
Proof. destruct o as [s|]; simpl; [|discriminate]. intros H%negb_true_iff. now apply String.eqb_neq. Qed.

Lemma truthy_some (o : option string) : truthy o = true -> o = Some (or_empty o).
Proof. destruct o; [reflexivity | discriminate]. Qed.

Section Laws.
Context `{Client.ChatService}.

Lemma analyse_text_call (t k : string) (st : app_state) :
  k <> "" -> analysable t = true ->
  analyse_text t k st =
    (let raw := Client.client_result (Client.chat_create (Client.request_for t k)) in
     (Ok (if parsable raw then (Some t, None, Some (parse_llm_response raw))
          else (Some t, Some raw, None)),
      mk_app (fs st) (upload_dir_exists st)
             (Client.mk_client (Some k) (Client.sent (client st) ++ [Client.request_for t k])%list))).
Proof.
  intros Hk Ht. unfold analyse_text. rewrite Ht.
  unfold pybind, on_client. rewrite Client.get_llm_analysis_call by exact Hk.
  cbv zeta. destruct (parsable _); reflexivity.
Qed.

Lemma analyse_text_skip (t k : string) (st : app_state) :
  analysable t = false ->
  analyse_text t k st =
    (Ok (if startswith t extraction_error_marker then (Some t, Some t, None) else (Some t, None, None)),
     st).
Proof. intros Ht. unfold analyse_text. rewrite Ht. now destruct (startswith _ _). Qed.

Lemma analyse_text_ok (t k : string) (st : app_state) :
  exists r st', analyse_text t k st = (Ok r, st').
Proof.
  unfold analyse_text. destruct (analysable t).
  - unfold pybind, on_client.
    destruct (Client.get_llm_analysis_ok t k (client st)) as (raw & c & ->).
    destruct (parsable raw); eauto.
  - destruct (startswith _ _); eauto.
Qed.

Lemma process_upload_saved (cfg : config) (up : upload) (k : string) (st : app_state) :
  upload_dir_exists st = true -> Secure.secure_filename (filename up) <> "" ->
  process_upload cfg up k st =
    analyse_text (Extract.extract_text_from_file (<[upload_path cfg up := up_data up]> (fs st))
                                                 (upload_path cfg up)) k
                 (mk_app (<[upload_path cfg up := up_data up]> (fs st)) true (client st)).
Proof.
  intros Hd Hn%String.eqb_neq.
  unfold process_upload, pytry, pybind, save_upload, pyget. rewrite Hn, Hd. cbn -[analyse_text].
  destruct (analyse_text_ok (Extract.extract_text_from_file
              (<[upload_path cfg up := up_data up]> (fs st)) (upload_path cfg up)) k
              (mk_app (<[upload_path cfg up := up_data up]> (fs st)) true (client st)))
    as (r & st' & E).
  now rewrite E.
Qed.

Lemma process_upload_failed (cfg : config) (up : upload) (k : string) (st : app_state) :
  upload_dir_exists st = false \/ Secure.secure_filename (filename up) = "" ->
  process_upload cfg up k st =
    (Ok (None, Some (save_error_prefix ++ save_errno (Secure.secure_filename (filename up)) ++
                     quoted (upload_path cfg up)), None),
     st).
Proof.
  intros Hf. unfold process_upload, pytry, pybind, save_upload, save_errno.
  destruct (_ =? "") eqn:Hn; [reflexivity|].
  destruct Hf as [-> | Hf]; [reflexivity|]. now rewrite Hf in Hn.
Qed.

(** A POST with a key and a named upload runs the [try] block. *)
Lemma index_post_upload (cfg : config) (rq : request) (st : app_state) (up : upload) :
  method rq = POST -> truthy (chosen_key cfg rq) = true ->
  files_file rq = Some up -> filename up <> "" ->
  index cfg rq st =
    match process_upload cfg up (or_empty (chosen_key cfg rq)) st with
    | (Ok (text, err, parsed), st') =>
        (Ok (mk_page text err parsed (posted_key_field rq)), st')
    | (Raise e, st') => (Raise e, st')
    end.
Proof.
  intros Hm Hk Hf Hn%String.eqb_neq. unfold index. rewrite Hm, resolve_api_key_chosen, Hf, Hn by exact Hk.
  unfold pybind, posted_key_field. destruct (process_upload _ _ _ st) as [[[[t e] p]|msg] st'];
    destruct (truthy (form_api_key rq)); reflexivity.
Qed.

Lemma process_upload_ok (cfg : config) (up : upload) (k : string) (st : app_state) :
  exists r st', process_upload cfg up k st = (Ok r, st').
Proof.
  destruct (upload_dir_exists st) eqn:Hd;
    [destruct (String.eqb_spec (Secure.secure_filename (filename up)) "") as [Hn|Hn]|].
  - rewrite process_upload_failed by auto. eauto.
  - rewrite process_upload_saved by assumption. apply analyse_text_ok.
  - rewrite process_upload_failed by auto. eauto.
Qed.

Lemma analyse_text_fs (t k : string) (st : app_state) :
  fs (snd (analyse_text t k st)) = fs st.
Proof.
  unfold analyse_text. destruct (analysable t).
  - unfold pybind, on_client. destruct (Client.get_llm_analysis t k (client st)) as [[raw|e] c].
    + now destruct (parsable raw).
    + reflexivity.
  - now destruct (startswith _ _).
Qed.

Lemma analyse_text_sent (t k : string) (st : app_state) :
  k <> "" ->
  Client.sent (client (snd (analyse_text t k st))) = Client.sent (client st) \/
  analysable t = true /\
  Client.sent (client (snd (analyse_text t k st))) =
    (Client.sent (client st) ++ [Client.request_for t k])%list.
Proof.
  intros Hk. destruct (analysable t) eqn:Ht.
  - right. split; [reflexivity|]. now rewrite analyse_text_call.
  - left. now rewrite analyse_text_skip.
Qed.

Lemma process_upload_sent (cfg : config) (up : upload) (k : string) (st : app_state) :
  k <> "" ->
  Client.sent (client (snd (process_upload cfg up k st))) = Client.sent (client st) \/
  exists t, analysable t = true /\
    Client.sent (client (snd (process_upload cfg up k st))) =
      (Client.sent (client st) ++ [Client.request_for t k])%list.
Proof.
  intros Hk. destruct (upload_dir_exists st) eqn:Hd;
    [destruct (String.eqb_spec (Secure.secure_filename (filename up)) "") as [Hn|Hn]|].
  - rewrite process_upload_failed by auto. now left.
  - rewrite process_upload_saved by assumption.
    destruct (analyse_text_sent (Extract.extract_text_from_file
                (<[upload_path cfg up := up_data up]> (fs st)) (upload_path cfg up)) k
                (mk_app (<[upload_path cfg up := up_data up]> (fs st)) true (client st)) Hk)
      as [E | [Ht E]]; [left | right; eexists]; eauto.
  - rewrite process_upload_failed by auto. now left.
Qed.

(** The saved upload is what gets extracted, whatever the folder held. *)
Lemma extract_saved (cfg : config) (up : upload) (files : Extract.store) :
  Extract.extract_text_from_file (<[upload_path cfg up := up_data up]> files) (upload_path cfg up) =
  uploaded_text cfg up.
Proof. apply Extract.extract_text_lookup. now rewrite lookup_insert_eq, lookup_singleton_eq. Qed.

Lemma api_error_not_parsable (e : string) : parsable (Client.api_error_prefix ++ e) = false.
Proof.
  unfold parsable. rewrite (startswith_app_l Client.api_error_prefix e api_error_marker eq_refl).
  now rewrite andb_false_r.
Qed.

Lemma not_analysable (t : string) :
  analysable t = false -> startswith t extraction_error_marker = false -> t = "".
Proof.
  unfold analysable. intros Ha Hm. rewrite Hm, andb_true_r in Ha.
  apply negb_false_iff, String.eqb_eq in Ha. exact Ha.
Qed.

(** A failed save renders a save-error page of [page_ok]. *)
Lemma save_failed_page_ok (dir : bool) (name p : string) (k : option string) :
  dir = false \/ name = "" ->
  page_ok dir (mk_page None (Some (save_error_prefix ++ save_errno name ++ quoted p)) None k).
Proof.
  unfold save_errno. intros Hf. destruct (String.eqb_spec name "") as [_|Hn].
  - apply page_save_isdir.
  - apply page_save_missing. destruct Hf; congruence.
Qed.

(** Every branch of the analysis step renders a page of [page_ok]. *)
Lemma analyse_text_page_ok (t k : string) (st : app_state) (key : option string) :
  k <> "" ->
  exists x e p st', analyse_text t k st = (Ok (x, e, p), st') /\
    page_ok (upload_dir_exists st) (mk_page x e p key) /\
    upload_dir_exists st' = upload_dir_exists st.
Proof.
  intros Hk. destruct (analysable t) eqn:Ht.
  - rewrite analyse_text_call by assumption. cbv zeta.
    destruct (parsable _) eqn:Hp;
      (eexists _, _, _, _; split; [reflexivity | split; [now constructor | reflexivity]]).
  - rewrite analyse_text_skip by exact Ht.
    destruct (startswith t extraction_error_marker) eqn:Hm.
    + eexists _, _, _, _; split; [reflexivity | split; [now constructor | reflexivity]].
    + rewrite (not_analysable t Ht Hm).
      eexists _, _, _, _; split; [reflexivity | split; [constructor | reflexivity]].
Qed.

Lemma process_upload_page_ok (cfg : config) (up : upload) (k : string) (st : app_state)
    (key : option string) :
  k <> "" ->
  exists x e p st', process_upload cfg up k st = (Ok (x, e, p), st') /\
    page_ok (upload_dir_exists st) (mk_page x e p key) /\
    upload_dir_exists st' = upload_dir_exists st.
Proof.
  intros Hk. destruct (upload_dir_exists st) eqn:Hd;
    [destruct (String.eqb_spec (Secure.secure_filename (filename up)) "") as [Hn|Hn]|].
  2:{ rewrite process_upload_saved by assumption.
      destruct (analyse_text_page_ok (Extract.extract_text_from_file
                  (<[upload_path cfg up := up_data up]> (fs st)) (upload_path cfg up)) k
                  (mk_app (<[upload_path cfg up := up_data up]> (fs st)) true (client st)) key Hk)
        as (x & e & p & st' & E & Hok & Hd'). eauto 10. }
  all: rewrite process_upload_failed by auto; rewrite <- Hd;
    eexists _, _, _, _; split; [reflexivity | split; [apply save_failed_page_ok; auto | reflexivity]].
Qed.

(** [index] renders a page of [page_ok] and keeps the folder as it was. *)
Lemma index_renders (cfg : config) (rq : request) (st : app_state) :
  exists pg st', index cfg rq st = (Ok pg, st') /\ page_ok (upload_dir_exists st) pg /\
    upload_dir_exists st' = upload_dir_exists st.
Proof.
  unfold index. destruct (method rq) eqn:Hm; [eauto 6 using page_ok|].
  destruct (truthy (chosen_key cfg rq)) eqn:Hk.
  2:{ unfold chosen_key in Hk. destruct (truthy (form_api_key rq)) eqn:Hf; [congruence|].
      rewrite resolve_api_key_missing by assumption. eauto 6 using page_ok. }
  rewrite resolve_api_key_chosen by exact Hk.
  destruct (files_file rq) as [up|]; [|eauto 6 using page_ok].
  destruct (filename up =? ""); [eauto 6 using page_ok|]. unfold pybind.
  destruct (process_upload_page_ok cfg up (or_empty (chosen_key cfg rq)) st
              (if truthy (form_api_key rq) then form_api_key rq
               else Some (if truthy (form_api_key rq) then or_empty (form_api_key rq) else ""))
              (truthy_or_empty _ Hk))
    as (x & e & p & st' & -> & Hok & Hd). eauto.
Qed.

(** The requests one page load adds to the log. *)
Lemma index_sent_cases (cfg : config) (rq : request) (st : app_state) :
  Client.sent (client (snd (index cfg rq st))) = Client.sent (client st) \/
  exists t, analysable t = true /\ truthy (chosen_key cfg rq) = true /\
    Client.sent (client (snd (index cfg rq st))) =
      (Client.sent (client st) ++ [Client.request_for t (or_empty (chosen_key cfg rq))])%list.
Proof.
  destruct (method rq) eqn:Hm; [left; unfold index; now rewrite Hm|].
  destruct (truthy (chosen_key cfg rq)) eqn:Hk.
  2:{ left. unfold index. rewrite Hm. unfold chosen_key in Hk.
      destruct (truthy (form_api_key rq)) eqn:Hf; [congruence|].
      now rewrite resolve_api_key_missing. }
  destruct (files_file rq) as [up|] eqn:Hf.
  2:{ left. unfold index. now rewrite Hm, resolve_api_key_chosen, Hf. }
  destruct (String.eqb_spec (filename up) "") as [Hn|Hn].
  { left. unfold index. rewrite Hm, resolve_api_key_chosen, Hf by exact Hk.
    now rewrite (proj2 (String.eqb_eq _ _) Hn). }
  rewrite index_post_upload with (up := up) by assumption.
  destruct (process_upload_sent cfg up (or_empty (chosen_key cfg rq)) st (truthy_or_empty _ Hk))
    as [E | (t & Ht & E)];
    destruct (process_upload_ok cfg up (or_empty (chosen_key cfg rq)) st)
      as ([[x e] p] & st' & Hp); rewrite Hp in *; simpl in *; [left | right; exists t]; auto.
Qed.

End Laws.

(** ** Theorems *)

Section Claims.
Context `{Client.ChatService}.

(** C25 (safety). A GET renders the empty form and changes nothing: no
    file is written and no request is sent.  The form's key field holds
    the environment's [OPENAI_API_KEY], although the comment of lines
    258-260 says that key is not to be shown. *)
Theorem index_get (cfg : config) (rq : request) (st : app_state) :
  method rq = GET ->
  index cfg rq st = (Ok (mk_page None None None (Some (or_empty (env_openai_key cfg)))), st).
Proof. intros Hm. unfold index. now rewrite Hm. Qed.

(** C29 (error). A POST without a key in the environment or the form
    returns the key-missing page at once, with the state unchanged and the
    form's key echoed. *)
Theorem index_key_missing (cfg : config) (rq : request) (st : app_state) :
  method rq = POST -> truthy (env_openai_key cfg) = false -> truthy (form_api_key rq) = false ->
  index cfg rq st = (Ok (mk_page None (Some key_missing_message) None (form_api_key rq)), st).
Proof. intros Hm He Hf. unfold index. now rewrite Hm, resolve_api_key_missing. Qed.

(** C13 (type). Every page [index] renders is one of the kinds of
    [page_ok]: the form, a missing key, a missing file, a save error
    ("[Errno 21] Is a directory" for any folder, "[Errno 2] No such file
    or directory" only when the folder is missing), an extraction error,
    an empty text, an LLM error with the text, or the text with the
    analysis of a parsable answer.  In particular no exception escapes the
    view. *)
Theorem index_page_ok (cfg : config) (rq : request) (st : app_state) :
  exists pg, fst (index cfg rq st) = Ok pg /\ page_ok (upload_dir_exists st) pg.
Proof. destruct (index_renders cfg rq st) as (pg & st' & -> & Hok & _). eauto. Qed.

(** C8 (safety). A request sends at most one request to the LLM service,
    and only for a non-empty text that is not an extraction error, with
    the chosen key (the form's if set, else the environment's), which is
    non-empty. *)
Theorem index_requests (cfg : config) (rq : request) (st : app_state) :
  Client.sent (client (snd (index cfg rq st))) = Client.sent (client st) \/
  exists t, analysable t = true /\ truthy (chosen_key cfg rq) = true /\
    Client.sent (client (snd (index cfg rq st))) =
      (Client.sent (client st) ++ [Client.request_for t (or_empty (chosen_key cfg rq))])%list.
Proof. exact (index_sent_cases cfg rq st). Qed.

(** C28 (functional). A POST with a key and an upload whose secured name
    is not empty, into an existing folder, writes the upload's data at
    [os.path.join(UPLOAD_FOLDER, secure_filename(name))] and changes no
    other file: an earlier file of that name is replaced. *)
Theorem index_saves_upload (cfg : config) (rq : request) (st : app_state) (up : upload) :
  method rq = POST -> truthy (chosen_key cfg rq) = true ->
  files_file rq = Some up -> filename up <> "" ->
  upload_dir_exists st = true -> Secure.secure_filename (filename up) <> "" ->
  fs (snd (index cfg rq st)) = <[upload_path cfg up := up_data up]> (fs st).
Proof.
  intros Hm Hk Hf Hn Hd Hs. rewrite index_post_upload with (up := up) by assumption.
  rewrite process_upload_saved by assumption.
  match goal with |- context [analyse_text ?t ?k ?s] =>
    pose proof (analyse_text_fs t k s) as Efs;
    destruct (analyse_text_ok t k s) as ([[x e] p] & st' & E) end.
  rewrite E in *. exact Efs.
Qed.

(** C7 (functional). The whole pipeline: a POST with a key and a saved
    upload whose text is analysable sends that text, read from the
    upload alone, to the LLM; when the first choice, stripped, is neither
    empty nor an API error, the page shows the text and the parsed
    analysis of that answer, with no error. *)
Theorem index_pipeline (cfg : config) (rq : request) (st : app_state) (up : upload)
    (c : string) (cs : list (option string)) :
  method rq = POST -> truthy (chosen_key cfg rq) = true ->
  files_file rq = Some up -> filename up <> "" ->
  upload_dir_exists st = true -> Secure.secure_filename (filename up) <> "" ->
  analysable (uploaded_text cfg up) = true ->
  Client.chat_create (Client.request_for (uploaded_text cfg up) (or_empty (chosen_key cfg rq)))
    = Ok (Some c :: cs) ->
  parsable (strip c) = true ->
  fst (index cfg rq st) =
    Ok (mk_page (Some (uploaded_text cfg up)) None (Some (parse_llm_response (strip c)))
                (posted_key_field rq)).
Proof.
  intros Hm Hk Hf Hn Hd Hs Ht Hc Hp. rewrite index_post_upload with (up := up) by assumption.
  rewrite process_upload_saved, extract_saved by assumption.
  rewrite analyse_text_call by (auto using truthy_or_empty).
  cbv zeta. unfold Client.client_result. rewrite Hc. simpl. now rewrite Hp.
Qed.

(** C26 (error). When the LLM service raises, the page shows the text and
    the client's error message in [error_message], and no analysis: the
    service failure never reaches the parser's reasoning field. *)
Theorem index_llm_error (cfg : config) (rq : request) (st : app_state) (up : upload) (e : string) :
  method rq = POST -> truthy (chosen_key cfg rq) = true ->
  files_file rq = Some up -> filename up <> "" ->
  upload_dir_exists st = true -> Secure.secure_filename (filename up) <> "" ->
  analysable (uploaded_text cfg up) = true ->
  Client.chat_create (Client.request_for (uploaded_text cfg up) (or_empty (chosen_key cfg rq)))
    = Raise e ->
  fst (index cfg rq st) =
    Ok (mk_page (Some (uploaded_text cfg up)) (Some (Client.api_error_prefix ++ e)) None
                (posted_key_field rq)).
Proof.
  intros Hm Hk Hf Hn Hd Hs Ht Hc. rewrite index_post_upload with (up := up) by assumption.
  rewrite process_upload_saved, extract_saved by assumption.
  rewrite analyse_text_call by (auto using truthy_or_empty).
  cbv zeta. unfold Client.client_result at 1. rewrite Hc, api_error_not_parsable. reflexivity.
Qed.

(** C27 (functional). When the upload's text is empty (an unsupported
    extension, an empty file) or an extraction error, the upload is saved
    and nothing is sent; an extraction error is shown as the error, and an
    empty text yields a page with neither an error nor an analysis. *)
Theorem index_no_analysis (cfg : config) (rq : request) (st : app_state) (up : upload) :
  method rq = POST -> truthy (chosen_key cfg rq) = true ->
  files_file rq = Some up -> filename up <> "" ->
  upload_dir_exists st = true -> Secure.secure_filename (filename up) <> "" ->
  analysable (uploaded_text cfg up) = false ->
  index cfg rq st =
    (Ok (mk_page (Some (uploaded_text cfg up))
                 (if startswith (uploaded_text cfg up) extraction_error_marker
                  then Some (uploaded_text cfg up) else None)
                 None (posted_key_field rq)),
     mk_app (<[upload_path cfg up := up_data up]> (fs st)) true (client st)).
Proof.
  intros Hm Hk Hf Hn Hd Hs Ht. rewrite index_post_upload with (up := up) by assumption.
  rewrite process_upload_saved, extract_saved, analyse_text_skip by assumption.
  now destruct (startswith _ _).
Qed.

(** C30 (error). When the secured name is empty (a name of dots or of
    characters [secure_filename] drops) or the upload folder is missing,
    the save raises and the page shows "Error saving or processing file: "
    with the OS error and the path: "[Errno 21] Is a directory" for an
    empty name, whether the folder exists or not, else "[Errno 2] No such
    file or directory"; the state is unchanged. *)
Theorem index_save_error (cfg : config) (rq : request) (st : app_state) (up : upload) :
  method rq = POST -> truthy (chosen_key cfg rq) = true ->
  files_file rq = Some up -> filename up <> "" ->
  upload_dir_exists st = false \/ Secure.secure_filename (filename up) = "" ->
  index cfg rq st =
    (Ok (mk_page None
           (Some (save_error_prefix ++ save_errno (Secure.secure_filename (filename up)) ++
                  quoted (upload_path cfg up)))
           None (posted_key_field rq)),
     st).
Proof.
  intros Hm Hk Hf Hn Hs. rewrite index_post_upload with (up := up) by assumption.
  now rewrite process_upload_failed.
Qed.

(** C24 (safety). The upload is saved inside the upload folder: for a
    folder without a trailing slash, [filepath] is the folder, "/" and one
    path component that has no "/" and is neither "." nor "..", whatever
    the client's file name. *)
Theorem upload_path_in_folder (cfg : config) (up : upload) :
  upload_folder cfg <> "" -> Secure.ends_with_slash (upload_folder cfg) = false ->
  exists name, upload_path cfg up = upload_folder cfg ++ "/" ++ name /\
    contains name "/" = false /\ name <> "." /\ name <> "..".
Proof.
  intros Hne Hsl. exists (Secure.secure_filename (filename up)).
  exact (Secure.secure_filename_in_folder _ _ Hne Hsl).
Qed.

(** An upload named with the name it was saved under is
    saved at the same path: securing a secured name changes nothing. *)
Theorem upload_path_resave (cfg : config) (up : upload) (d : Extract.file_data) :
  upload_path cfg (mk_upload (Secure.secure_filename (filename up)) d) = upload_path cfg up.
Proof. unfold upload_path. simpl. now rewrite Secure.secure_filename_idem. Qed.

End Claims.

(** ** Witnesses *)

Lemma index_get_witness :
  @index (Client.failing_service "down") (mk_config (Some "sk-env") "/srv/uploads")
         (mk_request GET None None) demo_state =
  (Ok (mk_page None None None (Some "sk-env")), demo_state).
Proof.
  exact (@index_get (Client.failing_service "down") (mk_config (Some "sk-env") "/srv/uploads")
           (mk_request GET None None) demo_state eq_refl).
Defined.

Lemma index_key_missing_witness :
  @index (Client.failing_service "down") demo_config (mk_request POST None (Some demo_upload))
         demo_state =
  (Ok (mk_page None (Some key_missing_message) None None), demo_state).
Proof.
  exact (@index_key_missing (Client.failing_service "down") demo_config
           (mk_request POST None (Some demo_upload)) demo_state eq_refl eq_refl eq_refl).
Defined.

Ltac discharge := first [reflexivity | discriminate | vm_compute; first [reflexivity | discriminate]].

Lemma index_saves_upload_witness :
  fs (snd (@index (Client.constant_service demo_reply) demo_config demo_request demo_state)) =
  <["/srv/uploads/Tender_2024.txt" := demo_data]> ∅.
Proof.
  apply (@index_saves_upload (Client.constant_service demo_reply) demo_config demo_request
           demo_state demo_upload); discharge.
Defined.

Lemma index_pipeline_witness :
  fst (@index (Client.constant_service demo_reply) demo_config demo_request demo_state) =
  Ok (mk_page (Some "Build a bridge.") None (Some (parse_llm_response (strip demo_reply)))
              (Some "sk-test")).
Proof.
  apply (@index_pipeline (Client.constant_service demo_reply) demo_config demo_request
           demo_state demo_upload demo_reply []); discharge.
Defined.

Lemma index_llm_error_witness :
  fst (@index (Client.failing_service "Rate limit reached") demo_config demo_request demo_state) =
  Ok (mk_page (Some "Build a bridge.")
              (Some "Error interacting with OpenAI API: Rate limit reached") None (Some "sk-test")).
Proof.
  apply (@index_llm_error (Client.failing_service "Rate limit reached") demo_config demo_request
           demo_state demo_upload "Rate limit reached"); discharge.
Defined.

Lemma index_no_analysis_witness :
  @index (Client.constant_service demo_reply) demo_config
         (mk_request POST (Some "sk-test") (Some (mk_upload "notes.odt" demo_data))) demo_state =
  (Ok (mk_page (Some "") None None (Some "sk-test")),
   mk_app (<["/srv/uploads/notes.odt" := demo_data]> ∅) true (Client.mk_client None [])).
Proof.
  apply (@index_no_analysis (Client.constant_service demo_reply) demo_config
           (mk_request POST (Some "sk-test") (Some (mk_upload "notes.odt" demo_data)))
           demo_state (mk_upload "notes.odt" demo_data)); discharge.
Defined.

Lemma index_save_error_witness :
  @index (Client.constant_service demo_reply) demo_config
         (mk_request POST (Some "sk-test") (Some (mk_upload "..." demo_data)))
         (mk_app ∅ false (Client.mk_client None [])) =
  (Ok (mk_page None
         (Some "Error saving or processing file: [Errno 21] Is a directory: '/srv/uploads/'")
         None (Some "sk-test")),
   mk_app ∅ false (Client.mk_client None [])) /\
  @index (Client.constant_service demo_reply) demo_config demo_request
         (mk_app ∅ false (Client.mk_client None [])) =
  (Ok (mk_page None
         (Some "Error saving or processing file: [Errno 2] No such file or directory: '/srv/uploads/Tender_2024.txt'")
         None (Some "sk-test")),
   mk_app ∅ false (Client.mk_client None [])).
Proof.
  split.
  - apply (@index_save_error (Client.constant_service demo_reply) demo_config
             (mk_request POST (Some "sk-test") (Some (mk_upload "..." demo_data)))
             (mk_app ∅ false (Client.mk_client None [])) (mk_upload "..." demo_data)); try discharge.
    right. reflexivity.
  - apply (@index_save_error (Client.constant_service demo_reply) demo_config demo_request
             (mk_app ∅ false (Client.mk_client None [])) demo_upload); try discharge.
    left. reflexivity.
Defined.

Lemma upload_path_in_folder_witness :
  exists name, upload_path demo_config (mk_upload "../../etc/passwd" demo_data) =
    "/srv/uploads" ++ "/" ++ name /\ contains name "/" = false /\ name <> "." /\ name <> "..".
Proof.
  exact (upload_path_in_folder demo_config (mk_upload "../../etc/passwd" demo_data)
           ltac:(discriminate) eq_refl).
Defined.

(** ** Behaviours the spec does not cover *)

(** An answer of white space only is stripped to "": the view shows no
    analysis and an empty [error_message], which the template does not
    display. *)
Example index_blank_answer :
  fst (@index (Client.constant_service "  ") demo_config demo_request demo_state) =
  Ok (mk_page (Some "Build a bridge.") (Some "") None (Some "sk-test")).
Proof. vm_compute. reflexivity. Qed.

(** A ".txt" upload whose stem is made of characters [secure_filename]
    drops ("ß.txt") is saved as "txt", without an extension: its text is
    empty and the page shows neither an error nor an analysis. *)
Example index_stem_dropped :
  @index (Client.constant_service demo_reply) demo_config
         (mk_request POST (Some "sk-test") (Some (mk_upload (String (ascii_of_nat 223) ".txt") demo_data)))
         demo_state =
  (Ok (mk_page (Some "") None None (Some "sk-test")),
   mk_app (<["/srv/uploads/txt" := demo_data]> ∅) true (Client.mk_client None [])).
Proof. vm_compute. reflexivity. Qed.


End Web.
