(* ===== verification/Server.v ===== *)
(** * Application set-up and the request loop (main.py 15-23, 268-273)

    At import, main.py computes [APP_ROOT], the directory of the module's
    file, and [DEFAULT_UPLOAD_FOLDER], its "uploads_instance"
    subdirectory, and keeps an [UPLOAD_FOLDER] configured before
    ([app.config.setdefault]).  Run as a script, it creates the folder
    when missing and starts the server.  [serve] is the server answering a
    sequence of requests one after the other with [Web.index], on the
    shared state of files, folder and LLM client; [main] is the script's
    main block followed by that loop.  Concurrent requests are the subject
    of Concurrency.v.  [os.makedirs] is taken not to fail, and
    [os.path.abspath(__file__)] is the module's absolute, normalised path
    [main_file], on which [abspath] is the identity. *)

From Stdlib Require Import String Ascii List Bool Arith Lia.
From stdpp Require Import base gmap strings.
From S2P Require Import Prelude PyStr Analysis Parser Extractor LLMClient SecureFilename WebApp.
Import ListNotations.
Local Open Scope string_scope.
Local Open Scope py_scope.

Module Server.
Import Web.

Definition is_slash (c : ascii) : bool := Ascii.eqb c "/"%char.

(** [posixpath.dirname(p)] *)
Definition dirname (p : string) : string :=
  let i := match Extract.rfind "/"%char p with Some i => S i | None => 0 end in
  let head := substring 0 i p in
  if negb (head =? "") && negb (Secure.all_chars is_slash head)
  then Secure.rstrip_by is_slash head else head.

(** [APP_ROOT = os.path.dirname(os.path.abspath(__file__))] (line 21). *)
Definition app_root (main_file : string) : string := dirname main_file.

(** [DEFAULT_UPLOAD_FOLDER = os.path.join(APP_ROOT, 'uploads_instance')] (line 22). *)
Definition default_upload_folder (main_file : string) : string :=
  Secure.path_join (app_root main_file) "uploads_instance".

(** [app.config.setdefault('UPLOAD_FOLDER', DEFAULT_UPLOAD_FOLDER)] (line 23). *)
Definition setdefault_upload_folder (preset : option string) (main_file : string) : string :=
  match preset with Some f => f | None => default_upload_folder main_file end.

(** The configuration [index] reads. *)
Definition app_config (env_key preset : option string) (main_file : string) : config :=
  mk_config env_key (setdefault_upload_folder preset main_file).

(** Lines 270-271: [if not os.path.exists(folder): os.makedirs(folder)]. *)
Definition make_upload_folder : pyst app_state unit :=
  fun st => if upload_dir_exists st then (Ok tt, st) else (Ok tt, mk_app (fs st) true (client st)).

Section WithService.
Context `{Client.ChatService}.

(** [app.run()] (line 273) answering requests one after the other. *)
Fixpoint serve (cfg : config) (rqs : list request) : pyst app_state (list page) :=
  match rqs with
  | [] => pyret []
  | rq :: rest =>
      let! pg := index cfg rq in
      let! pgs := serve cfg rest in
      pyret (pg :: pgs)
  end.

(** Lines 268-273: the main block, then the requests. *)
Definition main (cfg : config) (rqs : list request) : pyst app_state (list page) :=
  let! _ := make_upload_folder in serve cfg rqs.

End WithService.

(** The error page of a save into a missing folder. *)
Definition enoent_page_error (p : string) : string := save_error_prefix ++ enoent_message ++ quoted p.

Example default_upload_folder_ex :
  default_upload_folder "/srv/forge/app/main.py" = "/srv/forge/app/uploads_instance" /\
  setdefault_upload_folder (Some "/tmp/up") "/srv/forge/app/main.py" = "/tmp/up" /\
  dirname "/srv//app/" = "/srv//app" /\ dirname "main.py" = "" /\ dirname "/main.py" = "/".
Proof. vm_compute. auto. Qed.

(** ** Lemmas *)

Section Laws.
Context `{Client.ChatService}.

(** The request loop renders one page per request, each of [page_ok],
    and keeps the folder as it was. *)
Lemma serve_run (cfg : config) (rqs : list request) (st : app_state) :
  exists pgs st', serve cfg rqs st = (Ok pgs, st') /\ length pgs = length rqs /\
    Forall (page_ok (upload_dir_exists st)) pgs /\
    upload_dir_exists st' = upload_dir_exists st.
Proof.
  revert st. induction rqs as [|rq rest IH]; intros st; simpl.
  - exists [], st. repeat split; auto.
  - destruct (index_renders cfg rq st) as (pg & st1 & E1 & Hok & Hd1).
    destruct (IH st1) as (pgs & st2 & E2 & Hlen & Hoks & Hd2).
    exists (pg :: pgs), st2. unfold pybind. rewrite E1, E2.
    repeat split; simpl; auto; [rewrite Hd1 in Hoks; now constructor | congruence].
Qed.

(** After the main block the loop runs with the folder present. *)
Lemma main_serve (cfg : config) (rqs : list request) (st : app_state) :
  main cfg rqs st = serve cfg rqs (mk_app (fs st) true (client st)).
Proof. unfold main, pybind, make_upload_folder. now destruct st as [f [] c]. Qed.

(** A page rendered with the folder present never reports it missing. *)
Lemma page_ok_no_enoent (pg : page) (p : string) :
  page_ok true pg -> error_message pg <> Some (enoent_page_error p).
Proof.
  unfold enoent_page_error.
  intros Hok E; inversion Hok; subst; simpl in E; try discriminate; injection E as E; subst;
    match goal with Hb : _ = _ |- _ => vm_compute in Hb; discriminate Hb end.
Qed.

End Laws.

(** ** Theorems *)

Section Claims.
Context `{Client.ChatService}.

(** C16 (invariant). Once the main block has created the upload folder,
    it exists for every later request: each page of a run is of
    [page_ok] for an existing folder, one page per request, and no page
    ever reports "[Errno 2] No such file or directory". *)
Theorem main_pages (cfg : config) (rqs : list request) (st : app_state) :
  exists pgs st', main cfg rqs st = (Ok pgs, st') /\ length pgs = length rqs /\
    upload_dir_exists st' = true /\ Forall (page_ok true) pgs /\
    Forall (fun pg => forall p, error_message pg <> Some (enoent_page_error p)) pgs.
Proof.
  rewrite main_serve.
  destruct (serve_run cfg rqs (mk_app (fs st) true (client st)))
    as (pgs & st' & -> & Hlen & Hok & Hd').
  exists pgs, st'. repeat split; auto.
  eapply Forall_impl; [exact Hok|]. intros pg Hpg p. now apply page_ok_no_enoent.
Qed.

End Claims.

End Server.
