(* ===== verification/Uploads.v ===== *)
(** * Concurrent uploads and the shared upload folder (main.py 231-238)

    Every request saves its upload in the one folder [UPLOAD_FOLDER]
    under its secured name (line 236), then reads it back with
    [extract_text_from_file] (line 238).  Under a threaded server two
    requests can interleave between these steps.  A request in its
    upload branch is an [uthread]: its upload and how far it got;
    [upload_step] is its next atomic step on the shared [Web.app_state],
    and [upload_run] runs a schedule of thread indices as [Threads.run]
    does.  The steps are those of [Web.process_upload]: [Web.save_upload],
    then the extraction from the files of the moment. *)

From Stdlib Require Import String Ascii List Bool Arith Lia.
From stdpp Require Import base list gmap strings.
From S2P Require Import Prelude PyStr Analysis Parser Extractor LLMClient SecureFilename WebApp.
Import ListNotations.
Local Open Scope string_scope.

Module Uploads.
Import Web.

Inductive uphase : Type :=
| UStart                        (** about to save *)
| USaved                        (** saved, about to extract *)
| UText (text : string)         (** [extracted_text] *)
| UFailed (message : string).   (** the [except] branch of lines 253-255 *)

Record uthread : Type := mk_uthread { u_upload : upload; u_phase : uphase }.

Definition u_with (th : uthread) (p : uphase) : uthread := mk_uthread (u_upload th) p.

(** The path a thread saves to. *)
Definition u_path (cfg : config) (th : uthread) : string := upload_path cfg (u_upload th).

(** One atomic step: [file.save(filepath)], then
    [extract_text_from_file(filepath)]; [None] once the thread is past both. *)
Definition upload_step (cfg : config) (th : uthread) (st : app_state) : option (uthread * app_state) :=
  let up := u_upload th in
  match u_phase th with
  | UStart =>
      match save_upload (upload_path cfg up) (Secure.secure_filename (filename up)) (up_data up) st with
      | (Ok _, st') => Some (u_with th USaved, st')
      | (Raise e, st') => Some (u_with th (UFailed (save_error_prefix ++ e)), st')
      end
  | USaved =>
      Some (u_with th (UText (Extract.extract_text_from_file (fs st) (upload_path cfg up))), st)
  | _ => None
  end.

(** A schedule of thread indices; a finished or absent thread does nothing. *)
Fixpoint upload_run (cfg : config) (sched : list nat) (ths : list uthread) (st : app_state)
    : list uthread * app_state :=
  match sched with
  | [] => (ths, st)
  | i :: rest =>
      match ths !! i with
      | Some th =>
          match upload_step cfg th st with
          | Some (th', st') => upload_run cfg rest (<[i := th']> ths) st'
          | None => upload_run cfg rest ths st
          end
      | None => upload_run cfg rest ths st
      end
  end.

(** The invariant of a run whose threads save to distinct paths: a saved
    thread's file holds its own upload, and a thread that extracted got
    the text of its own upload. *)
Definition uinv (cfg : config) (ths : list uthread) (st : app_state) : Prop :=
  NoDup (u_path cfg <$> ths) /\
  forall j th, ths !! j = Some th ->
    (u_phase th = USaved -> fs st !! u_path cfg th = Some (up_data (u_upload th))) /\
    (forall t, u_phase th = UText t -> t = uploaded_text cfg (u_upload th)).

(** Two requests uploading "a.txt" and "b.txt", and two uploading
    "tender.txt" with different contents. *)
Definition text_file (t : string) : Extract.file_data :=
  Extract.mk_file (Ok t) (Raise "not a PDF") (Raise "not a docx").

Definition distinct_uploads : list uthread :=
  [mk_uthread (mk_upload "a.txt" (text_file "Build a bridge.")) UStart;
   mk_uthread (mk_upload "b.txt" (text_file "Dig a tunnel.")) UStart].

Definition folder_config : config := mk_config None "/srv/uploads".

Definition empty_folder : app_state := mk_app ∅ true (Client.mk_client None []).

(** ** Lemmas *)

Lemma save_upload_ok (p name : string) (d : Extract.file_data) (st : app_state) :
  upload_dir_exists st = true -> name <> "" ->
  save_upload p name d st = (Ok tt, mk_app (<[p := d]> (fs st)) (upload_dir_exists st) (client st)).
Proof. intros Hd Hn%String.eqb_neq. unfold save_upload. now rewrite Hn, Hd. Qed.

Lemma upload_step_upload (cfg : config) (th th' : uthread) (st st' : app_state) :
  upload_step cfg th st = Some (th', st') -> u_upload th' = u_upload th.
Proof.
  unfold upload_step. destruct (u_phase th); try discriminate.
  - destruct (save_upload _ _ _ _) as [[]]; intros E; injection E as <- _; reflexivity.
  - intros E; injection E as <- _; reflexivity.
Qed.

Lemma paths_insert (cfg : config) (ths : list uthread) (i : nat) (th th' : uthread) :
  ths !! i = Some th -> u_upload th' = u_upload th ->
  u_path cfg <$> <[i := th']> ths = u_path cfg <$> ths.
Proof.
  intros Hi Hu. rewrite list_fmap_insert.
  replace (u_path cfg th') with (u_path cfg th) by (unfold u_path; now rewrite Hu).
  apply list_insert_id. rewrite list_lookup_fmap, Hi. reflexivity.
Qed.

(** Two threads of a run with distinct paths that save to one path are
    the same thread. *)
Lemma same_path (cfg : config) (ths : list uthread) (i j : nat) (th th' : uthread) :
  NoDup (u_path cfg <$> ths) -> ths !! i = Some th -> ths !! j = Some th' ->
  u_path cfg th = u_path cfg th' -> i = j.
Proof.
  intros Hnd Hi Hj Hp. eapply NoDup_lookup; [exact Hnd | | ].
  - rewrite list_lookup_fmap, Hi. reflexivity.
  - rewrite list_lookup_fmap, Hj. simpl. now rewrite Hp.
Qed.

Lemma upload_step_inv (cfg : config) (ths : list uthread) (i : nat) (th th' : uthread)
    (st st' : app_state) :
  ths !! i = Some th -> upload_step cfg th st = Some (th', st') ->
  uinv cfg ths st -> uinv cfg (<[i := th']> ths) st'.
Proof.
  intros Hi Hs [Hnd Hinv]. pose proof (upload_step_upload _ _ _ _ _ Hs) as Hu.
  split; [now rewrite (paths_insert _ _ _ _ _ Hi Hu)|].
  intros j x Hj. apply list_lookup_insert_Some in Hj as [(<- & <- & _) | (Hne & Hj)].
  - unfold upload_step in Hs. destruct (u_phase th) eqn:Hp; try discriminate.
    + unfold save_upload in Hs.
      destruct (_ =? ""); [injection Hs as <- <-; simpl; split; discriminate|].
      destruct (negb (upload_dir_exists st)); injection Hs as <- <-; simpl; split; try discriminate.
      intros _. unfold u_path. apply lookup_insert_eq.
    + injection Hs as <- <-. simpl. split; [discriminate|]. intros t E; injection E as <-.
      apply Extract.extract_text_lookup. rewrite lookup_singleton_eq.
      exact (proj1 (Hinv i th Hi) Hp).
  - destruct (Hinv j x Hj) as [Hsaved Htext]. split; [|exact Htext]. intros Hx.
    unfold upload_step in Hs. destruct (u_phase th) eqn:Hp; try discriminate.
    + unfold save_upload in Hs.
      destruct (_ =? ""); [injection Hs as _ <-; auto|].
      destruct (negb (upload_dir_exists st)); injection Hs as _ <-; [auto|]. simpl.
      rewrite lookup_insert_ne; [auto|]. intros Heq.
      apply Hne. symmetry. exact (same_path cfg ths j i x th Hnd Hj Hi (eq_sym Heq)).
    + injection Hs as _ <-. auto.
Qed.

Lemma upload_run_inv (cfg : config) (sched : list nat) (ths : list uthread) (st : app_state) :
  uinv cfg ths st -> uinv cfg (fst (upload_run cfg sched ths st)) (snd (upload_run cfg sched ths st)).
Proof.
  revert ths st. induction sched as [|i rest IH]; intros ths st Hinv; simpl; [exact Hinv|].
  destruct (ths !! i) as [th|] eqn:Hi; [|now apply IH].
  destruct (upload_step cfg th st) as [[th' st']|] eqn:Hs; [|now apply IH].
  apply IH. exact (upload_step_inv _ _ _ _ _ _ _ Hi Hs Hinv).
Qed.

(** ** Theorems *)

(** C14 (safety). Uploads saved under distinct names do not interfere:
    whatever the interleaving of the requests' saves and extractions,
    every request that extracted got the text of its own upload. *)
Theorem uploads_isolated (cfg : config) (sched : list nat) (ths : list uthread) (st : app_state) :
  NoDup (u_path cfg <$> ths) -> Forall (fun th => u_phase th = UStart) ths ->
  forall j th t, fst (upload_run cfg sched ths st) !! j = Some th -> u_phase th = UText t ->
    t = uploaded_text cfg (u_upload th).
Proof.
  intros Hnd Hstart j th t Hj Hp.
  assert (Hinv : uinv cfg ths st).
  { split; [exact Hnd|]. intros k x Hk. rewrite (Forall_lookup_1 _ _ _ _ Hstart Hk).
    split; discriminate. }
  destruct (upload_run_inv cfg sched ths st Hinv) as [_ Hall].
  exact (proj2 (Hall j th Hj) t Hp).
Qed.

(** C15 (safety). Two requests whose uploads get the same secured name
    interfere: when the second saves between the first's save and its
    extraction, the first request extracts the second request's
    document. *)
Theorem uploads_alias (cfg : config) (upA upB : upload) (st : app_state) :
  upload_path cfg upA = upload_path cfg upB -> upload_dir_exists st = true ->
  Secure.secure_filename (filename upA) <> "" -> Secure.secure_filename (filename upB) <> "" ->
  fst (upload_run cfg [0; 1; 0]%nat [mk_uthread upA UStart; mk_uthread upB UStart] st) !! 0%nat =
    Some (mk_uthread upA (UText (uploaded_text cfg upB))).
Proof.
  intros Hp Hd HA HB. cbn -[save_upload].
  rewrite save_upload_ok by assumption. cbn -[save_upload].
  rewrite save_upload_ok by assumption. cbn.
  do 3 f_equal. rewrite Hp. apply Extract.extract_text_lookup.
  now rewrite lookup_insert_eq, lookup_singleton_eq.
Qed.

(** ** Witnesses *)

Lemma uploads_isolated_witness :
  exists th t, fst (upload_run folder_config [0; 1; 1; 0]%nat distinct_uploads empty_folder) !! 0%nat
                 = Some th /\ u_phase th = UText t /\ t = uploaded_text folder_config (u_upload th).
Proof.
  set (th := mk_uthread (mk_upload "a.txt" (text_file "Build a bridge.")) (UText "Build a bridge.")).
  assert (Hl : fst (upload_run folder_config [0; 1; 1; 0]%nat distinct_uploads empty_folder) !! 0%nat
               = Some th) by (vm_compute; reflexivity).
  exists th, "Build a bridge.". split; [exact Hl|]. split; [reflexivity|].
  assert (Hnd : NoDup (u_path folder_config <$> distinct_uploads)).
  { apply (bool_decide_unpack _). vm_compute. reflexivity. }
  exact (uploads_isolated folder_config [0; 1; 1; 0]%nat distinct_uploads empty_folder Hnd
           ltac:(repeat constructor) 0 th "Build a bridge." Hl eq_refl).
Defined.

Lemma uploads_alias_witness :
  fst (upload_run folder_config [0; 1; 0]%nat
         [mk_uthread (mk_upload "tender.txt" (text_file "Build a bridge.")) UStart;
          mk_uthread (mk_upload "tender.txt" (text_file "Dig a tunnel.")) UStart] empty_folder) !! 0%nat =
  Some (mk_uthread (mk_upload "tender.txt" (text_file "Build a bridge.")) (UText "Dig a tunnel.")).
Proof.
  apply (uploads_alias folder_config (mk_upload "tender.txt" (text_file "Build a bridge."))
           (mk_upload "tender.txt" (text_file "Dig a tunnel.")) empty_folder);
    first [reflexivity | vm_compute; discriminate].
Defined.

End Uploads.
